(** * Card-game rule engines: baccarat.py and blackjack.py

    A shallow embedding of the two terminal games and the properties of
    their rule engines: hand evaluation, draw policies, settlement and
    the round controllers.

    Python values are modelled as follows.
    - [int] is [Z] (unbounded).
    - [float] is an IEEE 754 binary64 value, taken from the Standard
      Library's [SpecFloat] with [prec = 53] and [emax = 1024].
    - a [list] is a [list]; [shoe.pop(0)] takes the head, [deck.pop()]
      takes the last element.
    - an exception is the [Raise] outcome of the [result] type.
    - lines read by [input()] are a list of strings consumed from the
      front; reading past the end raises [EOFError]. *)

From Stdlib Require Import ZArith List String Ascii Bool Lia Permutation.
From Stdlib Require Import SpecFloat.
Import ListNotations.

Open Scope string_scope.
Open Scope list_scope.
Open Scope Z_scope.

(** [==] on Python strings. *)
Infix "==?" := String.eqb (at level 70, no associativity).

(** ** Python runtime *)

Inductive exn : Type :=
| ValueError (msg : string)
| IndexError (msg : string)
| OverflowError (msg : string)
| EOFError.

Inductive result (A : Type) : Type :=
| Ok (a : A)
| Raise (e : exn).

Arguments Ok {A} a.
Arguments Raise {A} e.

Definition bind {A B : Type} (r : result A) (k : A -> result B) : result B :=
  match r with
  | Ok a => k a
  | Raise e => Raise e
  end.

Notation "x <- r ;; k" := (bind r (fun x => k))
  (at level 61, r at next level, right associativity).
Notation "' pat <- r ;; k" := (bind r (fun x => match x with pat => k end))
  (at level 61, pat pattern, r at next level, right associativity).

(** [x in (a, b, ...)] on strings. *)
Fixpoint str_in (x : string) (xs : list string) : bool :=
  match xs with
  | [] => false
  | y :: ys => String.eqb x y || str_in x ys
  end.

(** [l * n] on a list: [n] copies of [l] in a row, none for [n <= 0]. *)
Fixpoint list_copies {A : Type} (l : list A) (n : nat) : list A :=
  match n with
  | O => []
  | S n' => l ++ list_copies l n'
  end.

Definition list_mul {A : Type} (l : list A) (n : Z) : list A :=
  list_copies l (Z.to_nat n).

(** [d.get(k)] on a dictionary written as its items. *)
Fixpoint dict_get (k : string) (d : list (string * string)) : option string :=
  match d with
  | [] => None
  | (k', v) :: d' => if k ==? k' then Some v else dict_get k d'
  end.

(** [str(n)] of an [int], as an f-string computes it before [print]
    or [input] shows it. CPython 3.11 (and the later releases of 3.7 to
    3.10) refuses to write an [int] of more than 4300 decimal digits:
    the conversion raises [ValueError]. The string itself goes to the
    terminal and is not kept. *)
Definition int_str_limit : Z := 10 ^ 4300.

Definition int_str_error : string :=
  "Exceeds the limit (4300 digits) for integer string conversion; use sys.set_int_max_str_digits() to increase the limit".

Definition int_str (n : Z) : result unit :=
  if Z.abs n <? int_str_limit then Ok tt
  else Raise (ValueError int_str_error).

(** The thirteen ranks; [rank_str] is the string the source uses. *)
Inductive rank : Type :=
| RA | R2 | R3 | R4 | R5 | R6 | R7 | R8 | R9 | R10 | RJ | RQ | RK.

Definition rank_str (r : rank) : string :=
  match r with
  | RA => "A" | R2 => "2" | R3 => "3" | R4 => "4" | R5 => "5"
  | R6 => "6" | R7 => "7" | R8 => "8" | R9 => "9" | R10 => "10"
  | RJ => "J" | RQ => "Q" | RK => "K"
  end.

(** [int(rank)] on the numeral ranks; the callers reach it only there. *)
Definition int_of_rank (r : rank) : Z :=
  match r with
  | R2 => 2 | R3 => 3 | R4 => 4 | R5 => 5 | R6 => 6
  | R7 => 7 | R8 => 8 | R9 => 9 | R10 => 10
  | _ => 0
  end.

(** ** Python floats (binary64) *)

Module PyFloat.

Definition prec : Z := 53.
Definition emax : Z := 1024.

Definition float : Type := spec_float.

Definition mul : float -> float -> float := SFmul prec emax.
Definition add : float -> float -> float := SFadd prec emax.
Definition sub : float -> float -> float := SFsub prec emax.
Definition neg : float -> float := SFopp.

(** [x > y]; false when either side is NaN. *)
Definition gtb (x y : float) : bool :=
  match SFcompare x y with
  | Some Gt => true
  | _ => false
  end.

(** [float(n)], as done implicitly by [n * 0.95]: the nearest binary64,
    ties to even; too large an [int] raises [OverflowError]. *)
Definition of_int (n : Z) : result float :=
  match binary_normalize prec emax n 0 false with
  | S754_infinity _ => Raise (OverflowError "int too large to convert to float")
  | f => Ok f
  end.

(** The integer nearest to [m * 2^e], ties to the even one. *)
Definition round_half_even (m e : Z) : Z :=
  if 0 <=? e then m * 2 ^ e
  else
    let d := 2 ^ (- e) in
    let q := m / d in
    let r := m mod d in
    match 2 * r ?= d with
    | Lt => q
    | Gt => q + 1
    | Eq => if Z.even q then q else q + 1
    end.

(** [round(x)] with one argument: an [int], ties to even. *)
Definition round (x : float) : result Z :=
  match x with
  | S754_zero _ => Ok 0
  | S754_infinity _ => Raise (OverflowError "cannot convert float infinity to integer")
  | S754_nan => Raise (ValueError "cannot convert float NaN to integer")
  | S754_finite s m e => Ok (cond_Zopp s (round_half_even (Zpos m) e))
  end.

(** The float that is exactly [m * 2^e], when there is one (the nearest
    float otherwise): how the examples write 10.0 or 0.5. *)
Definition dyadic (m e : Z) : float := binary_normalize prec emax m e false.

(** The literals of the two programs. *)
Definition lit_0_95 : float := S754_finite false 8556839292003942 (-53).
Definition lit_1_5 : float := S754_finite false 6755399441055744 (-52).
Definition lit_2 : float := S754_finite false 4503599627370496 (-51).

End PyFloat.

(** A number returned by blackjack's settlement: the [int] 0 or a float. *)
Inductive pynum : Type :=
| PyInt (z : Z)
| PyFloat (f : PyFloat.float).

(** ** baccarat.py *)

Module Baccarat.

Definition RESHUFFLE_THRESHOLD : nat := 6.

Definition card_value (r : rank) : Z :=
  match r with
  | RA => 1
  | R10 | RJ | RQ | RK => 0
  | _ => int_of_rank r
  end.

Definition hand_total (hand : list rank) : Z :=
  fold_left Z.add (map card_value hand) 0 mod 10.

Definition draw (shoe : list rank) : result (rank * list rank) :=
  match shoe with
  | [] => Raise (ValueError "The shoe is empty. Should reshuffle before drawing.")
  | c :: shoe' => Ok (c, shoe')
  end.

Definition player_draws (player_total : Z) : bool :=
  player_total <=? 5.

Definition banker_draws (bank_total : Z) (player_third_card : option rank) : bool :=
  match player_third_card with
  | None => bank_total <=? 5
  | Some c =>
      let p3 := card_value c in
      if bank_total <=? 2 then true
      else if bank_total =? 3 then negb (p3 =? 8)
      else if bank_total =? 4 then (2 <=? p3) && (p3 <=? 7)
      else if bank_total =? 5 then (4 <=? p3) && (p3 <=? 7)
      else if bank_total =? 6 then (p3 =? 6) || (p3 =? 7)
      else false
  end.

Definition settle_bet (bet_type : string) (bet_amount : Z) (winner : string)
  : result Z :=
  if winner ==? "tie" then
    if bet_type ==? "tie" then Ok (bet_amount * 8)
    else Ok 0
  else if winner ==? "player" then
    if bet_type ==? "player" then Ok bet_amount
    else if bet_type ==? "banker" then Ok (- bet_amount)
    else Ok (- bet_amount)
  else if winner ==? "banker" then
    if bet_type ==? "banker" then
      a <- PyFloat.of_int bet_amount ;;
      PyFloat.round (PyFloat.mul a PyFloat.lit_0_95)
    else if bet_type ==? "player" then Ok (- bet_amount)
    else Ok (- bet_amount)
  else Ok (- bet_amount).

Record round : Type := mkRound {
  player_hand : list rank;
  banker_hand : list rank;
  player_total : Z;
  banker_total : Z;
  winner : string;
  player_third : option rank;
  banker_third : option rank
}.

Definition is_natural (total : Z) : bool :=
  (total =? 8) || (total =? 9).

(** The third-card phase, reached when neither side has a natural. *)
Definition third_cards (shoe player banker : list rank) (p_total b_total : Z)
  : result (list rank * list rank * option rank * option rank * list rank) :=
  '(player, player_third, shoe) <-
    (if player_draws p_total then
       '(c, shoe) <- draw shoe ;; Ok (player ++ [c], Some c, shoe)
     else Ok (player, None, shoe)) ;;
  '(banker, banker_third, shoe) <-
    (if banker_draws b_total player_third then
       '(c, shoe) <- draw shoe ;; Ok (banker ++ [c], Some c, shoe)
     else Ok (banker, None, shoe)) ;;
  Ok (player, banker, player_third, banker_third, shoe).

(** Returns the round's dictionary and the shoe as the round leaves it. *)
Definition play_round (shoe : list rank) : result (round * list rank) :=
  '(c1, shoe) <- draw shoe ;;
  '(c2, shoe) <- draw shoe ;;
  let player := [c1; c2] in
  '(c3, shoe) <- draw shoe ;;
  '(c4, shoe) <- draw shoe ;;
  let banker := [c3; c4] in
  let p_total := hand_total player in
  let b_total := hand_total banker in
  '(player, banker, player_third, banker_third, shoe) <-
    (if is_natural p_total || is_natural b_total then
       Ok (player, banker, None, None, shoe)
     else third_cards shoe player banker p_total b_total) ;;
  let p_total := hand_total player in
  let b_total := hand_total banker in
  let winner :=
    if p_total >? b_total then "player"
    else if b_total >? p_total then "banker"
    else "tie" in
  Ok (mkRound player banker p_total b_total winner player_third banker_third,
      shoe).

Definition DECKS : Z := 8.

Definition ranks : list rank :=
  [RA; R2; R3; R4; R5; R6; R7; R8; R9; R10; RJ; RQ; RK].

(** The shoe of [create_shoe] before [random.shuffle]. *)
Definition shoe_in_order (decks : Z) : list rank :=
  list_mul (list_mul ranks 4) decks.

(** [create_shoe(decks)]. The shuffle leaves the same cards in some
    order, which one is not modelled: [create_shoe decks shoe] says that
    [shoe] is a shoe the call can return. *)
Definition create_shoe (decks : Z) (shoe : list rank) : Prop :=
  Permutation (shoe_in_order decks) shoe.

(** The console side. Python's [str.strip], [str.lower] and [int] are
    parameters: [py_int s] is [None] where [int(s)] raises [ValueError].
    [inputs] holds the lines [input()] will return. *)
Section Console.

Variables strip lower : string -> string.
Variable py_int : string -> option Z.

Definition mapping : list (string * string) :=
  [("p", "player"); ("b", "banker"); ("t", "tie");
   ("player", "player"); ("banker", "banker"); ("tie", "tie")].

(** The first loop of [prompt_bet]: the bet type, [None] on quit. *)
Fixpoint prompt_bet_type (inputs : list string)
  : result (option string * list string) :=
  match inputs with
  | [] => Raise EOFError
  | line :: inputs' =>
      let choice := lower (strip line) in
      if str_in choice ["q"; "quit"] then Ok (None, inputs')
      else
        match dict_get choice mapping with
        | Some bet_type => Ok (Some bet_type, inputs')
        | None => prompt_bet_type inputs'
        end
  end.

(** The second loop of [prompt_bet]: the amount, [None] on quit. *)
Fixpoint prompt_bet_amount (bankroll : Z) (inputs : list string)
  : result (option Z * list string) :=
  match inputs with
  | [] => Raise EOFError
  | line :: inputs' =>
      let amt_str := strip line in
      if str_in (lower amt_str) ["q"; "quit"] then Ok (None, inputs')
      else
        match py_int amt_str with
        | None => prompt_bet_amount bankroll inputs'
        | Some amt =>
            if amt <=? 0 then prompt_bet_amount bankroll inputs'
            else if amt >? bankroll then prompt_bet_amount bankroll inputs'
            else Ok (Some amt, inputs')
        end
  end.

(** [prompt_bet(bankroll)]: [Some (bet_type, amt)], or [None] for the
    pair [(None, None)]; and the lines left unread. *)
Definition prompt_bet (bankroll : Z) (inputs : list string)
  : result (option (string * Z) * list string) :=
  '(bet_type, inputs) <- prompt_bet_type inputs ;;
  match bet_type with
  | None => Ok (None, inputs)
  | Some bet_type =>
      '(amt, inputs) <- prompt_bet_amount bankroll inputs ;;
      match amt with
      | None => Ok (None, inputs)
      | Some amt => Ok (Some (bet_type, amt), inputs)
      end
  end.

(** The bankroll the settlement block of [main]'s loop computes: its
    arithmetic alone, the lines it prints left out. [settle_block] below
    is the block with its prints. *)
Definition settle_round (bankroll : Z) (bet_type : string) (bet_amount : Z)
    (winner : string) : result Z :=
  if winner ==? "tie" then
    if bet_type ==? "tie" then
      payout <- settle_bet bet_type bet_amount "tie" ;;
      Ok (bankroll + payout)
    else Ok bankroll
  else if winner ==? "player" then
    payout <- settle_bet bet_type bet_amount "player" ;;
    if payout >? 0 then Ok (bankroll + payout)
    else Ok (bankroll - bet_amount)
  else if winner ==? "banker" then
    if bet_type ==? "banker" then
      win <- settle_bet bet_type bet_amount "banker" ;;
      Ok (bankroll + win)
    else Ok (bankroll - bet_amount)
  else Ok bankroll.

(** The settlement block of [main]'s loop as it runs: each branch that
    moves the bankroll prints the amount won or lost in an f-string,
    which raises when the amount is too long to write. *)
Definition settle_block (bankroll : Z) (bet_type : string) (bet_amount : Z)
    (winner : string) : result Z :=
  if winner ==? "tie" then
    if bet_type ==? "tie" then
      payout <- settle_bet bet_type bet_amount "tie" ;;
      'tt <- int_str payout ;;
      Ok (bankroll + payout)
    else Ok bankroll
  else if winner ==? "player" then
    payout <- settle_bet bet_type bet_amount "player" ;;
    if payout >? 0 then
      'tt <- int_str payout ;;
      Ok (bankroll + payout)
    else
      'tt <- int_str bet_amount ;;
      Ok (bankroll - bet_amount)
  else if winner ==? "banker" then
    if bet_type ==? "banker" then
      win <- settle_bet bet_type bet_amount "banker" ;;
      'tt <- int_str win ;;
      Ok (bankroll + win)
    else
      'tt <- int_str bet_amount ;;
      Ok (bankroll - bet_amount)
  else Ok bankroll.

(** The local variables of [main], and how many shoes it has made. *)
Record table : Type := mkTable {
  t_shoe : list rank;
  t_bankroll : Z;
  t_round_no : Z;
  t_shoes_made : nat
}.

(** The [while True] loop of [main]. [fresh k] is the shoe the call
    number [k] of [create_shoe()] returns. Every turn of the loop that
    goes on reads a line, so [fuel] above the number of lines is never
    used up; [None] is the loop still running at no fuel. The result is
    the state [main] ends in. The f-strings the loop prints are in: the
    bankroll and the number of cards left at the top of the loop, the
    round number, and the amounts of the settlement block; [print_hand]
    writes ranks and a total under ten. [prompt_bet] is reached only
    once the bankroll has been printed, so with a bankroll its own
    prompt can write. *)
Fixpoint main_loop (fuel : nat) (fresh : nat -> list rank) (t : table)
    (inputs : list string) : option (result table) :=
  match fuel with
  | O => None
  | S fuel' =>
      let '(shoe, shoes_made) :=
        if (List.length (t_shoe t) <? RESHUFFLE_THRESHOLD)%nat
        then (fresh (t_shoes_made t), S (t_shoes_made t))
        else (t_shoe t, t_shoes_made t) in
      match
        ('tt <- int_str (t_bankroll t) ;;
         int_str (Z.of_nat (List.length shoe)))
      with
      | Raise e => Some (Raise e)
      | Ok _ =>
          match prompt_bet (t_bankroll t) inputs with
          | Raise e => Some (Raise e)
          | Ok (None, _) =>
              Some (Ok (mkTable shoe (t_bankroll t) (t_round_no t) shoes_made))
          | Ok (Some (bet_type, bet_amount), inputs) =>
              let round_no := t_round_no t + 1 in
              match
                ('tt <- int_str round_no ;;
                 '(result, shoe) <- play_round shoe ;;
                 bankroll <-
                   settle_block (t_bankroll t) bet_type bet_amount
                     (winner result) ;;
                 Ok (shoe, bankroll))
              with
              | Raise e => Some (Raise e)
              | Ok (shoe, bankroll) =>
                  let t' := mkTable shoe bankroll round_no shoes_made in
                  if bankroll <=? 0 then Some (Ok t')
                  else
                    match inputs with
                    | [] => Some (Raise EOFError)
                    | line :: inputs' =>
                        if str_in (lower (strip line)) ["q"; "quit"]
                        then Some (Ok t')
                        else main_loop fuel' fresh t' inputs'
                    end
              end
          end
      end
  end.

Definition main (fresh : nat -> list rank) (inputs : list string)
  : option (result table) :=
  main_loop (S (List.length inputs)) fresh (mkTable (fresh O) 1000 0 1%nat)
    inputs.

End Console.

End Baccarat.

(** ** blackjack.py *)

Module Blackjack.

Inductive suit : Type := Hearts | Diamonds | Clubs | Spades.

Definition card : Type := (rank * suit)%type.

(** One iteration of the [for r, _ in hand] loop on [(value, aces)]. *)
Definition count_card (acc : Z * nat) (c : card) : Z * nat :=
  let '(value, aces) := acc in
  let '(r, _) := c in
  match r with
  | RJ | RQ | RK => (value + 10, aces)
  | RA => (value + 11, S aces)
  | _ => (value + int_of_rank r, aces)
  end.

(** [while value > 21 and aces: value -= 10; aces -= 1]. The counter
    [aces] only counts up from 0 by one and down by one while positive,
    so it is a [nat], and the loop recurses on it. *)
Fixpoint downgrade (value : Z) (aces : nat) : Z * nat :=
  match aces with
  | O => (value, O)
  | S aces' =>
      if value >? 21 then downgrade (value - 10) aces' else (value, aces)
  end.

(** The state [(value, aces)] of [hand_value] when its loops are done. *)
Definition hand_state (hand : list card) : Z * nat :=
  let '(value, aces) := fold_left count_card hand (0, O) in
  downgrade value aces.

(** [any(r == 'A' for r, _ in hand)]. *)
Definition any_ace (hand : list card) : bool :=
  existsb (fun c : card => match fst c with RA => true | _ => false end) hand.

Definition hand_value (hand : list card) : Z * bool :=
  let '(value, _) := hand_state hand in
  let is_soft :=
    any_ace hand && (value <=? 21) && any_ace hand && (value - 10 >=? 11) in
  (value, is_soft).

Definition is_blackjack (hand : list card) : bool :=
  let '(v, _) := hand_value hand in
  (v =? 21) && (List.length hand =? 2)%nat.

(** [deck.pop()]: removes and returns the last element. *)
Definition pop (deck : list card) : result (card * list card) :=
  match rev deck with
  | [] => Raise (IndexError "pop from empty list")
  | c :: r => Ok (c, rev r)
  end.

(** [player_turn]. [inputs] holds the lines [input("Choose: ")] will
    return, each already stripped and lower-cased. The hand is the
    caller's list object, appended to in place: the hand returned here
    is what the caller's [player_hand] has become. Also returned: the
    deck and the unread lines. *)
Fixpoint player_turn (inputs : list string) (deck hand : list card)
    (can_double : bool)
  : result (string * list card * list card * list string) :=
  let '(value, _) := hand_value hand in
  if value >? 21 then Ok ("bust", hand, deck, inputs)
  else
    match inputs with
    | [] => Raise EOFError
    | choice :: inputs' =>
        if str_in choice ["h"; "hit"] then
          '(c, deck') <- pop deck ;;
          player_turn inputs' deck' (hand ++ [c]) can_double
        else if str_in choice ["s"; "stand"] then
          Ok ("stand", hand, deck, inputs')
        else if str_in choice ["d"; "double"; "double down"]
                && can_double && (List.length hand =? 2)%nat then
          Ok ("double", hand, deck, inputs')
        else player_turn inputs' deck hand can_double
    end.

(** The [while True] loop of [dealer_turn]. Every iteration that does
    not leave the loop pops a card, so [fuel] above the deck's length
    is never used up; [None] is the loop still running at no fuel. *)
Fixpoint dealer_loop (fuel : nat) (deck hand : list card)
  : option (result (list card * list card)) :=
  match fuel with
  | O => None
  | S fuel' =>
      let '(value, is_soft) := hand_value hand in
      if value <? 17 then
        match pop deck with
        | Raise e => Some (Raise e)
        | Ok (c, deck') => dealer_loop fuel' deck' (hand ++ [c])
        end
      else Some (Ok (hand, deck))
  end.

Definition dealer_turn (deck hand : list card)
  : option (result (list card * list card)) :=
  dealer_loop (S (List.length deck)) deck hand.

Definition settle_bet (player_hand dealer_hand : list card)
    (bet : PyFloat.float) : pynum :=
  let '(pv, _) := hand_value player_hand in
  let '(dv, _) := hand_value dealer_hand in
  if is_blackjack player_hand && negb (is_blackjack dealer_hand) then
    PyFloat (PyFloat.mul bet PyFloat.lit_1_5)
  else if is_blackjack player_hand && is_blackjack dealer_hand then PyInt 0
  else if pv >? 21 then PyFloat (PyFloat.neg bet)
  else if dv >? 21 then PyFloat bet
  else if pv >? dv then PyFloat bet
  else if pv <? dv then PyFloat (PyFloat.neg bet)
  else PyInt 0.

(** [balance += net]: an [int] net is converted to a float first. *)
Definition add_net (balance : PyFloat.float) (net : pynum)
  : result PyFloat.float :=
  match net with
  | PyFloat f => Ok (PyFloat.add balance f)
  | PyInt z => f <- PyFloat.of_int z ;; Ok (PyFloat.add balance f)
  end.

(** What [play_round] hands to [print_round_result]. *)
Record shown : Type := mkShown {
  shown_player : list card;
  shown_dealer : list card;
  shown_bet : PyFloat.float;
  shown_net : pynum
}.

(** The tuple [play_round] returns, what it showed, and the deck and
    input lines it leaves. *)
Record played : Type := mkPlayed {
  ret_cont : option bool;
  ret_balance : PyFloat.float;
  ret_played : bool;
  result_shown : option shown;
  deck_left : list card;
  inputs_left : list string
}.

Definition finish (player_hand dealer_hand : list card)
    (bet balance : PyFloat.float) (net : pynum)
    (deck : list card) (inputs : list string) : result played :=
  balance <- add_net balance net ;;
  Ok (mkPlayed (Some true) balance true
        (Some (mkShown player_hand dealer_hand bet net)) deck inputs).

(** The [elif action == 'double'] block up to its bust check: the hand,
    bet, balance and deck it leaves. *)
Definition double_down (deck player_hand : list card)
    (bet balance : PyFloat.float)
  : result (list card * PyFloat.float * PyFloat.float * list card) :=
  if PyFloat.gtb (PyFloat.mul bet PyFloat.lit_2) balance then
    '(c, deck) <- pop deck ;;
    Ok (player_hand ++ [c], bet, balance, deck)
  else
    let balance := PyFloat.sub balance bet in
    let bet := PyFloat.mul bet PyFloat.lit_2 in
    '(c, deck) <- pop deck ;;
    Ok (player_hand ++ [c], bet, balance, deck).

(** [stand -> dealer's turn] and the final settlement. *)
Definition showdown (deck player_hand dealer_hand : list card)
    (bet balance : PyFloat.float) (inputs : list string)
  : option (result played) :=
  match dealer_turn deck dealer_hand with
  | None => None
  | Some (Raise e) => Some (Raise e)
  | Some (Ok (dealer_hand, deck)) =>
      let net := settle_bet player_hand dealer_hand bet in
      Some (finish player_hand dealer_hand bet balance net deck inputs)
  end.

(** [play_round]. [fresh] is what [create_deck()] would return, [bet] is
    what [take_bet(balance)] returns, [inputs] the lines the player
    types at the prompts of [player_turn]. *)
Definition play_round (fresh : list card) (bet : option PyFloat.float)
    (inputs : list string) (deck : list card) (balance : PyFloat.float)
  : option (result played) :=
  let deck := if (List.length deck <? 15)%nat then fresh else deck in
  match bet with
  | None => Some (Ok (mkPlayed None balance false None deck inputs))
  | Some bet =>
      match
        ('(p1, deck) <- pop deck ;;
         '(p2, deck) <- pop deck ;;
         '(d1, deck) <- pop deck ;;
         '(d2, deck) <- pop deck ;;
         Ok ([p1; p2], [d1; d2], deck))
      with
      | Raise e => Some (Raise e)
      | Ok (player_hand, dealer_hand, deck) =>
          if is_blackjack player_hand || is_blackjack dealer_hand then
            let net := settle_bet player_hand dealer_hand bet in
            Some (finish player_hand dealer_hand bet balance net deck inputs)
          else
            match player_turn inputs deck player_hand true with
            | Raise e => Some (Raise e)
            | Ok (action, player_hand, deck, inputs) =>
                if action ==? "bust" then
                  Some (finish player_hand dealer_hand bet balance
                          (PyFloat (PyFloat.neg bet)) deck inputs)
                else if action ==? "double" then
                  match double_down deck player_hand bet balance with
                  | Raise e => Some (Raise e)
                  | Ok (player_hand, bet, balance, deck) =>
                      if fst (hand_value player_hand) >? 21 then
                        Some (finish player_hand dealer_hand bet balance
                                (PyFloat (PyFloat.neg bet)) deck inputs)
                      else
                        showdown deck player_hand dealer_hand bet balance
                          inputs
                  end
                else
                  showdown deck player_hand dealer_hand bet balance inputs
            end
      end
  end.

Definition SUITS : list suit := [Hearts; Diamonds; Clubs; Spades].

Definition RANKS : list rank :=
  [R2; R3; R4; R5; R6; R7; R8; R9; R10; RJ; RQ; RK; RA].

(** One turn of the outer loop of [create_deck]: every suit, and in it
    every rank. *)
Definition deck_of_52 : list card :=
  flat_map (fun s => map (fun r => (r, s)) RANKS) SUITS.

(** The deck of [create_deck] before [random.shuffle]. *)
Definition deck_in_order (num_decks : Z) : list card :=
  list_mul deck_of_52 num_decks.

(** [create_deck(num_decks)], the shuffle as in baccarat's [create_shoe]:
    [create_deck n deck] says that [deck] is a deck the call can return. *)
Definition create_deck (num_decks : Z) (deck : list card) : Prop :=
  Permutation (deck_in_order num_decks) deck.

End Blackjack.

(** * Vocabulary of the properties

    Definitions the statements below are written with: none of them is
    part of the two programs. *)

Section Vocabulary.

Import Baccarat.
Import Blackjack.

(** The sum of a hand's card values, the cards taken in any grouping. *)
Definition value_sum (hand : list rank) : Z :=
  fold_right Z.add 0 (map card_value hand).

(** The decision table over the banker's total and the value of the
    player's third card, [None] when the player stood. *)
Definition banker_table (total : Z) (p3 : option Z) : Prop :=
  match p3 with
  | None => total <= 5
  | Some p3 =>
      total <= 2 \/
      (total = 3 /\ p3 <> 8) \/
      (total = 4 /\ 2 <= p3 <= 7) \/
      (total = 5 /\ 4 <= p3 <= 7) \/
      (total = 6 /\ (p3 = 6 \/ p3 = 7))
  end.

(** The cards a side was dealt after its first two. *)
Definition third_as_list (third : option rank) : list rank :=
  match third with
  | Some c => [c]
  | None => []
  end.

(** The winner by the final totals. *)
Definition higher_total (p_total b_total : Z) : string :=
  if p_total >? b_total then "player"
  else if b_total >? p_total then "banker"
  else "tie".

(** The number of aces in a 21-style hand. *)
Definition ace_count (hand : list card) : nat :=
  List.length
    (filter (fun c : card => match fst c with RA => true | _ => false end)
       hand).

(** A card's value with the ace at 11. *)
Definition face_value (c : card) : Z :=
  match fst c with
  | RA => 11
  | RJ | RQ | RK => 10
  | r => int_of_rank r
  end.

(** The sum of a hand with every ace at 11. *)
Definition raw_sum (hand : list card) : Z :=
  fold_right Z.add 0 (map face_value hand).

(** The 21-style score of a hand. *)
Definition score (hand : list card) : Z := fst (hand_value hand).

(** A natural: exactly two cards that score 21. *)
Definition natural (hand : list card) : Prop :=
  score hand = 21 /\ List.length hand = 2%nat.

(** Ten cards under the ones a round deals. *)
Definition filler : list card :=
  [(R2, Clubs); (R3, Clubs); (R4, Clubs); (R5, Clubs); (R6, Clubs);
   (R7, Clubs); (R8, Clubs); (R9, Clubs); (R2, Spades); (R3, Spades)].

(** The tag a structured result would carry. *)
Inductive result_tag : Type := Win | Loss | Push.

(** The enumeration of bet types and of winners. *)
Definition bet_target (s : string) : Prop :=
  s = "player" \/ s = "banker" \/ s = "tie".

(** What a modulo-10 bet on [bet_type] comes to when [winner] wins: the
    bet wins on its own side, is pushed by a tie, and loses otherwise. *)
Definition bet_outcome (bet_type winner : string) : result_tag :=
  if bet_type ==? winner then Win
  else if winner ==? "tie" then Push
  else Loss.


(** The integer nearest to [num / den], an exact half going to the even
    neighbour; for [den > 0]. *)
Definition nearest_ties_even (num den : Z) : Z :=
  let q := num / den in
  match 2 * (num mod den) ?= den with
  | Lt => q
  | Gt => q + 1
  | Eq => if Z.even q then q else q + 1
  end.

(** The integer nearest to [num / den], an exact half going away from
    zero; for [num >= 0] and [den > 0]. *)
Definition nearest_ties_away (num den : Z) : Z :=
  (2 * num + den) / (2 * den).

(** The mantissa of the literal [0.95]: [0.95] is [M95 * 2^-53]. *)
Definition M95 : Z := 8556839292003942.

(** The record after [k] right shifts of [m]. *)
Definition shifted (m k : Z) : shr_record :=
  let low := m mod 2 ^ k in
  Build_shr_record (m / 2 ^ k) (2 ^ k <=? 2 * low)
    (negb (low =? 0) && negb (2 * low =? 2 ^ k)).

(** Which ranks are aces, and which count ten. *)
Definition is_ace (r : rank) : bool :=
  match r with
  | RA => true
  | _ => false
  end.

Definition ten_valued (r : rank) : bool :=
  match r with
  | R10 | RJ | RQ | RK => true
  | _ => false
  end.

(** A card's value with the ace at 1, and the sum of a hand that way. *)
Definition low_value (c : card) : Z :=
  match fst c with
  | RA => 1
  | RJ | RQ | RK => 10
  | r => int_of_rank r
  end.

Definition hard_total (hand : list card) : Z :=
  raw_sum hand - 10 * Z.of_nat (ace_count hand).

(** A hand that holds an ace and has a hard total of 12 or more has paid
    for it: some card of 6 or more took it over the totals 7 to 11, on
    which a hand with an ace stands. *)
Definition past_the_gap (hand : list card) : Prop :=
  (1 <= ace_count hand)%nat -> 12 <= hard_total hand ->
  Z.of_nat (List.length hand) + 5 <= hard_total hand.

(** What [main] can end in: a state with the bankroll not negative, or
    one of the three exceptions the loop lets through: the input ends,
    an amount has no float, or a number is too long to print. *)
Definition main_outcome (rounds_before : Z) (outcome : result table) : Prop :=
  match outcome with
  | Ok t => 0 <= t_bankroll t /\ rounds_before <= t_round_no t
  | Raise e =>
      e = EOFError \/ (exists msg, e = OverflowError msg) \/
      e = ValueError int_str_error
  end.

(** Equality of cards is decidable: for counting them. *)
Definition rank_eq_dec (x y : rank) : {x = y} + {x <> y}.
Proof. decide equality. Defined.

Definition card_eq_dec (x y : card) : {x = y} + {x <> y}.
Proof. decide equality; [decide equality | apply rank_eq_dec]. Defined.

(** What a modulo-10 bet of [a] brings: the bet on player, eight times
    the bet on tie, 95% of it to the nearest unit on banker; nothing on
    a push, and the bet is lost otherwise. *)
Definition bet_gain (bet_type winner : string) (a : Z) : Z :=
  match bet_outcome bet_type winner with
  | Push => 0
  | Loss => - a
  | Win =>
      if winner ==? "player" then a
      else if winner ==? "tie" then 8 * a
      else nearest_ties_even (19 * a) 20
  end.

End Vocabulary.

(** * Properties *)

(** ** The modulo-10 hand evaluator *)

Section BaccaratScore.

Import Baccarat.

Lemma fold_left_add_shift (l : list Z) (a : Z) :
  fold_left Z.add l a = a + fold_right Z.add 0 l.
Proof.
  revert a. induction l as [| x l IH]; intros a; simpl.
  - lia.
  - rewrite IH. lia.
Qed.

Lemma hand_total_value_sum (hand : list rank) :
  hand_total hand = value_sum hand mod 10.
Proof.
  unfold hand_total, value_sum. now rewrite fold_left_add_shift.
Qed.

Lemma value_sum_perm (h h' : list rank) :
  Permutation h h' -> value_sum h = value_sum h'.
Proof.
  unfold value_sum.
  induction 1 as [| x l l' _ IH | x y l | l l' l'' _ IH1 _ IH2]; simpl.
  - reflexivity.
  - now rewrite IH.
  - lia.
  - now rewrite IH1.
Qed.

Lemma card_value_table :
  card_value RA = 1 /\
  card_value R2 = 2 /\ card_value R3 = 3 /\ card_value R4 = 4 /\
  card_value R5 = 5 /\ card_value R6 = 6 /\ card_value R7 = 7 /\
  card_value R8 = 8 /\ card_value R9 = 9 /\
  card_value R10 = 0 /\ card_value RJ = 0 /\ card_value RQ = 0 /\
  card_value RK = 0.
Proof. repeat split. Qed.

(** C7. The modulo-10 score of a hand is the sum of its card values
    (A = 1, 2-9 at face value, 10/J/Q/K = 0) modulo 10; it lies in
    [0, 9] and a permutation of the cards leaves it unchanged. *)
Theorem C7_hand_total_mod10 (hand hand' : list rank) :
  Permutation hand hand' ->
  (card_value RA = 1 /\
   card_value R2 = 2 /\ card_value R3 = 3 /\ card_value R4 = 4 /\
   card_value R5 = 5 /\ card_value R6 = 6 /\ card_value R7 = 7 /\
   card_value R8 = 8 /\ card_value R9 = 9 /\
   card_value R10 = 0 /\ card_value RJ = 0 /\ card_value RQ = 0 /\
   card_value RK = 0) /\
  hand_total hand = value_sum hand mod 10 /\
  0 <= hand_total hand <= 9 /\
  hand_total hand' = hand_total hand.
Proof.
  intros Hperm. split; [exact card_value_table |].
  split; [apply hand_total_value_sum |]. split.
  - rewrite hand_total_value_sum.
    pose proof (Z.mod_pos_bound (value_sum hand) 10). lia.
  - rewrite !hand_total_value_sum.
    now rewrite (value_sum_perm hand hand' Hperm).
Qed.

Lemma C7_hand_total_mod10_witness :
  hand_total [R9; R6; R2] = 7 /\ hand_total [R2; R9; R6] = hand_total [R9; R6; R2].
Proof.
  split; [reflexivity |].
  apply (C7_hand_total_mod10 [R9; R6; R2] [R2; R9; R6]).
  apply Permutation_sym. exact (Permutation_cons_append [R9; R6] R2).
Defined.

End BaccaratScore.

(** ** The banker's third-card rule *)

Section BankerRule.

Import Baccarat.

(** C2. The banker draws exactly on the entries of the table, which is
    keyed on the banker's total and the value of the player's third
    card (or its absence) and on nothing else; on 7 the banker stands. *)
Theorem C2_banker_draws_table (total : Z) (third : option rank) :
  (banker_draws total third = true <->
     banker_table total (option_map card_value third)) /\
  banker_draws 7 third = false /\
  (exists decide : Z -> option Z -> bool,
      forall t c, banker_draws t c = decide t (option_map card_value c)).
Proof.
  split; [| split].
  - destruct third as [c |]; simpl; unfold banker_draws.
    + destruct (total <=? 2) eqn:H2; [apply Z.leb_le in H2; intuition lia |].
      apply Z.leb_gt in H2.
      destruct (total =? 3) eqn:H3;
        [apply Z.eqb_eq in H3; rewrite negb_true_iff, Z.eqb_neq; intuition lia |].
      apply Z.eqb_neq in H3.
      destruct (total =? 4) eqn:H4;
        [apply Z.eqb_eq in H4;
         rewrite andb_true_iff, !Z.leb_le; intuition lia |].
      apply Z.eqb_neq in H4.
      destruct (total =? 5) eqn:H5;
        [apply Z.eqb_eq in H5;
         rewrite andb_true_iff, !Z.leb_le; intuition lia |].
      apply Z.eqb_neq in H5.
      destruct (total =? 6) eqn:H6;
        [apply Z.eqb_eq in H6;
         rewrite orb_true_iff, !Z.eqb_eq; intuition lia |].
      apply Z.eqb_neq in H6.
      split; [discriminate | intuition lia].
    + apply Z.leb_le.
  - destruct third as [c |]; reflexivity.
  - exists (fun t p3 =>
              match p3 with
              | None => t <=? 5
              | Some p3 =>
                  if t <=? 2 then true
                  else if t =? 3 then negb (p3 =? 8)
                  else if t =? 4 then (2 <=? p3) && (p3 <=? 7)
                  else if t =? 5 then (4 <=? p3) && (p3 <=? 7)
                  else if t =? 6 then (p3 =? 6) || (p3 =? 7)
                  else false
              end).
    intros t [c |]; reflexivity.
Qed.

End BankerRule.

(** ** Drawing a card *)

Section Drawing.

Lemma pop_snoc (deck : list Blackjack.card) (c : Blackjack.card) :
  Blackjack.pop (deck ++ [c]) = Ok (c, deck).
Proof.
  unfold Blackjack.pop. rewrite rev_app_distr. simpl. now rewrite rev_involutive.
Qed.

Lemma pop_inv (deck rest : list Blackjack.card) (c : Blackjack.card) :
  Blackjack.pop deck = Ok (c, rest) -> deck = rest ++ [c].
Proof.
  unfold Blackjack.pop. destruct (rev deck) as [| x r] eqn:E; [discriminate |].
  intros H. injection H as -> <-.
  rewrite <- (rev_involutive deck), E. reflexivity.
Qed.

(** C9. Drawing from an empty shoe (baccarat) or an empty deck (blackjack)
    raises; no card is made up: a draw succeeds only by handing out a
    card of the shoe, the one at its front in baccarat and the one at its
    end in blackjack, and leaves the shoe without that card. A dealer
    below 17 facing an empty deck raises too. *)
Theorem C9_draw_empty_raises :
  (exists msg, Baccarat.draw [] = Raise (ValueError msg)) /\
  (forall shoe c rest, Baccarat.draw shoe = Ok (c, rest) <-> shoe = c :: rest) /\
  (exists msg, Blackjack.pop [] = Raise (IndexError msg)) /\
  (forall deck c rest, Blackjack.pop deck = Ok (c, rest) <-> deck = rest ++ [c]) /\
  (forall hand, score hand < 17 ->
     exists msg, Blackjack.dealer_turn [] hand = Some (Raise (IndexError msg))).
Proof.
  split; [eexists; reflexivity |].
  split.
  { intros shoe c rest. split.
    - destruct shoe as [| x s]; simpl; [discriminate |].
      intros H. now injection H as -> ->.
    - intros ->. reflexivity. }
  split; [eexists; reflexivity |].
  split.
  { intros deck c rest. split; [apply pop_inv | intros ->; apply pop_snoc]. }
  intros hand Hlow. eexists. unfold Blackjack.dealer_turn. simpl.
  unfold score in Hlow.
  destruct (Blackjack.hand_value hand) as [v soft]. simpl in Hlow.
  apply Z.ltb_lt in Hlow. rewrite Hlow. reflexivity.
Qed.

Lemma C9_draw_empty_raises_witness :
  Baccarat.draw [R5; RK] = Ok (R5, [RK]) /\
  Blackjack.pop [(R5, Blackjack.Hearts); (RK, Blackjack.Clubs)]
    = Ok ((RK, Blackjack.Clubs), [(R5, Blackjack.Hearts)]) /\
  (exists msg,
      Blackjack.dealer_turn [] [(R10, Blackjack.Hearts); (R6, Blackjack.Clubs)]
      = Some (Raise (IndexError msg))).
Proof.
  pose proof C9_draw_empty_raises as (_ & Hd & _ & Hp & Ht).
  split; [apply Hd; reflexivity |].
  split; [apply Hp; reflexivity |].
  apply Ht. vm_compute. reflexivity.
Defined.

End Drawing.

(** ** The modulo-10 round controller *)

Section BaccaratRound.

Import Baccarat.

Lemma higher_total_spec (p b : Z) :
  (p > b -> higher_total p b = "player") /\
  (b > p -> higher_total p b = "banker") /\
  (p = b -> higher_total p b = "tie").
Proof.
  unfold higher_total. repeat split; intros H.
  - apply Z.gtb_gt in H. now rewrite H.
  - destruct (p >? b) eqn:E; [apply Z.gtb_gt in E; lia |].
    apply Z.gtb_gt in H. now rewrite H.
  - subst. now rewrite Z.gtb_ltb, Z.ltb_irrefl.
Qed.

Lemma is_natural_spec (t : Z) : is_natural t = true <-> t = 8 \/ t = 9.
Proof. unfold is_natural. rewrite orb_true_iff, !Z.eqb_eq. tauto. Qed.

(** Once the dealing is decided: name the round and the shoe it leaves,
    read the record's fields, and settle the winner by the totals. *)
Ltac round_done :=
  eexists; eexists; split; [reflexivity |]; split; [reflexivity |];
  cbn [player_hand banker_hand player_third banker_third player_total
       banker_total winner third_as_list app];
  match goal with
  | |- context [if ?p >? ?b then _ else _] =>
      fold (higher_total p b);
      let H1 := fresh in let H2 := fresh in let H3 := fresh in
      pose proof (higher_total_spec p b) as (H1 & H2 & H3)
  end;
  repeat split; auto; try tauto; try congruence; try discriminate; try lia.

(** C6. A round on a shoe that needs no reshuffle (six cards or more)
    completes. After the first four cards, a total of 8 or 9 on either
    side stops the dealing: both hands stay at two cards. Otherwise the
    player takes a third card exactly when the player's total is at most
    5 (and the banker then follows the banker's rule). The totals
    reported are those of the final hands, and the winner is the side
    with the higher total, a tie when they are equal. *)
Theorem C6_play_round (shoe : list rank) :
  (RESHUFFLE_THRESHOLD <= List.length shoe)%nat ->
  exists c1 c2 c3 c4 rest r shoe',
    shoe = c1 :: c2 :: c3 :: c4 :: rest /\
    play_round shoe = Ok (r, shoe') /\
    let p0 := hand_total [c1; c2] in
    let b0 := hand_total [c3; c4] in
    (* hands grow only by the third cards, taken from the shoe in order *)
    player_hand r = [c1; c2] ++ third_as_list (player_third r) /\
    banker_hand r = [c3; c4] ++ third_as_list (banker_third r) /\
    rest = third_as_list (player_third r) ++ third_as_list (banker_third r)
             ++ shoe' /\
    (* naturals *)
    ((p0 = 8 \/ p0 = 9) \/ (b0 = 8 \/ b0 = 9) ->
       player_third r = None /\ banker_third r = None /\ shoe' = rest /\
       player_total r = p0 /\ banker_total r = b0) /\
    (* third-card phase *)
    (~ ((p0 = 8 \/ p0 = 9) \/ (b0 = 8 \/ b0 = 9)) ->
       (player_third r <> None <-> p0 <= 5) /\
       (banker_third r <> None <->
          banker_draws b0 (player_third r) = true)) /\
    (* evaluation *)
    player_total r = hand_total (player_hand r) /\
    banker_total r = hand_total (banker_hand r) /\
    (player_total r > banker_total r -> winner r = "player") /\
    (banker_total r > player_total r -> winner r = "banker") /\
    (player_total r = banker_total r -> winner r = "tie").
Proof.
  unfold RESHUFFLE_THRESHOLD. intros Hlen.
  destruct shoe as [| c1 [| c2 [| c3 [| c4 [| c5 [| c6 rest]]]]]];
    simpl in Hlen; try lia.
  exists c1, c2, c3, c4, (c5 :: c6 :: rest).
  unfold play_round. cbn [draw bind].
  set (p0 := hand_total [c1; c2]). set (b0 := hand_total [c3; c4]).
  pose proof (is_natural_spec p0) as Hp. pose proof (is_natural_spec b0) as Hb.
  destruct (is_natural p0 || is_natural b0) eqn:Hnat.
  - (* a natural: no further card *)
    apply orb_true_iff in Hnat. rewrite Hp, Hb in Hnat.
    round_done.
  - apply orb_false_iff in Hnat. destruct Hnat as [Hnp Hnb].
    assert (Hno : ~ ((p0 = 8 \/ p0 = 9) \/ (b0 = 8 \/ b0 = 9))).
    { intros [H | H]; [apply Hp in H | apply Hb in H]; congruence. }
    unfold third_cards, player_draws.
    destruct (p0 <=? 5) eqn:Hdraw; cbn [draw bind].
    + apply Z.leb_le in Hdraw.
      destruct (banker_draws b0 (Some c5)) eqn:Hbank; cbn [draw bind];
        round_done.
    + apply Z.leb_gt in Hdraw.
      destruct (banker_draws b0 None) eqn:Hbank; cbn [draw bind];
        round_done.
Qed.

Lemma C6_play_round_witness :
  exists r shoe',
    play_round [R9; R6; R10; R4; R2; R7; RK] = Ok (r, shoe') /\
    player_hand r = [R9; R6; R2] /\ banker_hand r = [R10; R4; R7] /\
    winner r = "player".
Proof.
  destruct (C6_play_round [R9; R6; R10; R4; R2; R7; RK]) as
    (c1 & c2 & c3 & c4 & rest & r & shoe' & _ & Hrun & _);
    [unfold RESHUFFLE_THRESHOLD; simpl; lia |].
  exists r, shoe'. split; [exact Hrun |].
  vm_compute in Hrun. injection Hrun as <- <-. repeat split.
Defined.

End BaccaratRound.

(** ** The 21-style hand evaluator *)

Section BlackjackScore.

Import Blackjack.

Lemma count_cards_from (hand : list card) (v : Z) (n : nat) :
  fold_left count_card hand (v, n) =
  (v + raw_sum hand, (n + ace_count hand)%nat).
Proof.
  unfold raw_sum, ace_count.
  revert v n. induction hand as [| [r s] hand IH]; intros v n.
  - cbn. f_equal; lia.
  - cbn [fold_left].
    destruct r; cbn [count_card]; rewrite IH; cbn [map fold_right filter fst face_value int_of_rank List.length]; f_equal; lia.
Qed.

Lemma downgrade_spec (v : Z) (n : nat) :
  let '(v', n') := downgrade v n in
  (n' <= n)%nat /\
  v' = v - 10 * Z.of_nat (n - n') /\
  (v' <= 21 \/ n' = O) /\
  ((n' < n)%nat -> 21 < v' + 10).
Proof.
  revert v. induction n as [| n IH]; intros v.
  - simpl. repeat split; lia.
  - cbn [downgrade]. destruct (v >? 21) eqn:E.
    + apply Z.gtb_gt in E. specialize (IH (v - 10)).
      destruct (downgrade (v - 10) n) as [v' n'].
      destruct IH as (H1 & H2 & H3 & H4).
      split; [lia |]. split; [lia |]. split; [exact H3 |].
      intros _. destruct (Nat.eq_dec n' n) as [-> | Hne].
      * replace (n - n)%nat with O in H2 by lia. lia.
      * apply H4. lia.
    + assert (v <= 21) by (destruct (Z.gtb_spec v 21); [discriminate | lia]).
      split; [lia |]. split; [lia |]. split; [now left | lia].
Qed.

(** The score: all aces at 11, then as few of them as needed moved down
    to 1 to bring the sum to 21 or below. *)
Lemma hand_state_spec (hand : list card) :
  let '(v, k) := hand_state hand in
  (k <= ace_count hand)%nat /\
  v = raw_sum hand - 10 * Z.of_nat (ace_count hand - k) /\
  (v <= 21 \/ k = O) /\
  ((k < ace_count hand)%nat -> 21 < v + 10).
Proof.
  unfold hand_state. rewrite count_cards_from. simpl (0 + _)%nat.
  rewrite Z.add_0_l. apply downgrade_spec.
Qed.

Lemma is_soft_formula (hand : list card) :
  snd (hand_value hand) = any_ace hand && (fst (hand_value hand) =? 21).
Proof.
  unfold hand_value. destruct (hand_state hand) as [v k]. cbn [fst snd].
  destruct (any_ace hand); cbn [andb]; [| reflexivity].
  destruct (Z.leb_spec v 21), (Z.eqb_spec v 21); cbn [andb];
    try reflexivity; try lia;
    destruct (Z.geb_spec (v - 10) 11); try reflexivity; lia.
Qed.

(** C1 (the code departs from it). The value is as claimed, but the soft
    flag is not "an ace still counts as 11": the flag is true exactly
    when the hand holds an ace and its value is 21. A + 5 is 16 with its
    ace at 11, and is reported hard; A + K + Q is 21 with its ace at 1,
    and is reported soft. *)
Theorem C1_is_soft_only_at_21 :
  (forall hand,
     snd (hand_value hand) = any_ace hand && (fst (hand_value hand) =? 21)) /\
  hand_state [(RA, Hearts); (R5, Clubs)] = (16, 1%nat) /\
  hand_value [(RA, Hearts); (R5, Clubs)] = (16, false) /\
  hand_state [(RA, Hearts); (RK, Clubs); (RQ, Spades)] = (21, 0%nat) /\
  hand_value [(RA, Hearts); (RK, Clubs); (RQ, Spades)] = (21, true).
Proof.
  split; [exact is_soft_formula |]. repeat split.
Qed.

End BlackjackScore.

(** ** The 21-style settlement *)

Section BlackjackSettlement.

Import Blackjack.

Lemma is_blackjack_spec (hand : list card) :
  is_blackjack hand = true <-> natural hand.
Proof.
  unfold is_blackjack, natural, score.
  destruct (hand_value hand) as [v soft]. cbn [fst].
  rewrite andb_true_iff, Z.eqb_eq, Nat.eqb_eq. tauto.
Qed.

Lemma settle_bet_unfold (player dealer : list card) (bet : PyFloat.float) :
  settle_bet player dealer bet =
  if is_blackjack player && negb (is_blackjack dealer) then
    PyFloat (PyFloat.mul bet PyFloat.lit_1_5)
  else if is_blackjack player && is_blackjack dealer then PyInt 0
  else if score player >? 21 then PyFloat (PyFloat.neg bet)
  else if score dealer >? 21 then PyFloat bet
  else if score player >? score dealer then PyFloat bet
  else if score player <? score dealer then PyFloat (PyFloat.neg bet)
  else PyInt 0.
Proof.
  unfold settle_bet, score.
  destruct (hand_value player), (hand_value dealer). reflexivity.
Qed.

(** C3. The settlement looks at the hands in this order: a player
    natural against a dealer without one pays 1.5 times the bet (a dealer
    21 of three or more cards is no natural); two naturals push; a
    player above 21 loses the bet whatever the dealer has; then a dealer
    above 21 pays the bet; then the higher score wins or loses the bet
    and equal scores push. The amounts are floats: 1.5 times the bet is
    the float product, the loss is the negated bet, a push is the
    integer 0. *)
Theorem C3_settle_bet_order (player dealer : list card) (bet : PyFloat.float) :
  let net := settle_bet player dealer bet in
  (natural player -> ~ natural dealer ->
     net = PyFloat (PyFloat.mul bet PyFloat.lit_1_5)) /\
  (natural player -> (3 <= List.length dealer)%nat ->
     net = PyFloat (PyFloat.mul bet PyFloat.lit_1_5)) /\
  (natural player -> natural dealer -> net = PyInt 0) /\
  (score player > 21 -> net = PyFloat (PyFloat.neg bet)) /\
  (~ natural player -> score player <= 21 -> score dealer > 21 ->
     net = PyFloat bet) /\
  (~ natural player -> score player <= 21 -> score dealer <= 21 ->
     (score player > score dealer -> net = PyFloat bet) /\
     (score player < score dealer -> net = PyFloat (PyFloat.neg bet)) /\
     (score player = score dealer -> net = PyInt 0)).
Proof.
  cbv zeta. rewrite settle_bet_unfold.
  pose proof (is_blackjack_spec player) as Hp.
  pose proof (is_blackjack_spec dealer) as Hd.
  assert (Hshort : (3 <= List.length dealer)%nat -> ~ natural dealer).
  { intros Hlen [_ H2]. lia. }
  assert (Hbust : score player > 21 -> ~ natural player).
  { intros Hgt [H21 _]. lia. }
  destruct (is_blackjack player) eqn:Ep, (is_blackjack dealer) eqn:Ed;
    cbn [andb negb].
  - (* both naturals *)
    repeat split; try tauto; intros; exfalso; intuition.
  - (* player natural only *)
    assert (~ natural dealer) by (rewrite <- Hd; congruence).
    repeat split; try tauto; intros; exfalso; intuition.
  - (* dealer natural only *)
    assert (~ natural player) by (rewrite <- Hp; congruence).
    assert (natural dealer) as [Hd21 _] by (now apply Hd).
    destruct (Z.gtb_spec (score player) 21), (Z.gtb_spec (score dealer) 21),
      (Z.gtb_spec (score player) (score dealer)),
      (Z.ltb_spec (score player) (score dealer));
      repeat split; intros; try tauto; try lia; try reflexivity.
  - assert (~ natural player) by (rewrite <- Hp; congruence).
    destruct (Z.gtb_spec (score player) 21), (Z.gtb_spec (score dealer) 21),
      (Z.gtb_spec (score player) (score dealer)),
      (Z.ltb_spec (score player) (score dealer));
      repeat split; intros; try tauto; try lia; try reflexivity.
Qed.

Lemma C3_settle_bet_order_witness :
  settle_bet [(RA, Spades); (RK, Hearts)]
             [(R7, Clubs); (R9, Hearts); (R5, Diamonds)]
             (PyFloat.dyadic 10 0) = PyFloat (PyFloat.dyadic 15 0) /\
  settle_bet [(RK, Spades); (R6, Hearts); (R8, Clubs)]
             [(R10, Clubs); (R5, Hearts); (R9, Diamonds)]
             (PyFloat.dyadic 10 0) = PyFloat (PyFloat.neg (PyFloat.dyadic 10 0)).
Proof.
  split.
  - pose proof (C3_settle_bet_order [(RA, Spades); (RK, Hearts)]
                  [(R7, Clubs); (R9, Hearts); (R5, Diamonds)]
                  (PyFloat.dyadic 10 0)) as (_ & H & _).
    cbv zeta in H. rewrite H; [reflexivity | | simpl; lia].
    split; reflexivity.
  - pose proof (C3_settle_bet_order [(RK, Spades); (R6, Hearts); (R8, Clubs)]
                  [(R10, Clubs); (R5, Hearts); (R9, Diamonds)]
                  (PyFloat.dyadic 10 0)) as (_ & _ & _ & H & _).
    apply H. vm_compute. reflexivity.
Defined.

End BlackjackSettlement.

(** ** Binary64 arithmetic

    Closed forms of the Standard Library's IEEE 754 operations on the
    inputs the settlement feeds them: the rounding of a positive
    mantissa, the conversion of a small [int], and the product with the
    literal [0.95]. *)

Section Binary64.

(** The literals are the floats Python reads them as: 1.5 and 2 are
    exact, and 0.95 is the float nearest to 19/20, which the correctly
    rounded quotient of 19 by 20 computes. *)
Lemma literals_as_read :
  PyFloat.lit_1_5 = PyFloat.dyadic 3 (-1) /\
  PyFloat.lit_2 = PyFloat.dyadic 2 0 /\
  PyFloat.lit_0_95
  = SFdiv PyFloat.prec PyFloat.emax (PyFloat.dyadic 19 0) (PyFloat.dyadic 20 0) /\
  PyFloat.lit_0_95 = S754_finite false (Z.to_pos M95) (-53).
Proof. repeat split. Qed.

(** [iter_pos f p] applies [f] [p] times. *)
Lemma iter_pos_nat {A : Type} (f : A -> A) (p : positive) (x : A) :
  iter_pos f p x = Nat.iter (Pos.to_nat p) f x.
Proof.
  revert x. induction p as [p IH | p IH |]; intros x; cbn [iter_pos].
  - rewrite !IH, Pos2Nat.inj_xI.
    replace (S (2 * Pos.to_nat p)) with (Pos.to_nat p + (Pos.to_nat p + 1))%nat by lia.
    rewrite !Nat.iter_add. reflexivity.
  - rewrite !IH, Pos2Nat.inj_xO.
    replace (2 * Pos.to_nat p)%nat with (Pos.to_nat p + Pos.to_nat p)%nat by lia.
    rewrite Nat.iter_add. reflexivity.
  - reflexivity.
Qed.

Lemma shr_1_nonneg (m : Z) (r s : bool) :
  0 <= m ->
  shr_1 (Build_shr_record m r s) = Build_shr_record (m / 2) (Z.odd m) (r || s).
Proof.
  intros Hm. destruct m as [| p | p]; [reflexivity | | lia].
  destruct p as [p | p |]; cbn [shr_1 Z.odd].
  - f_equal. rewrite Pos2Z.inj_xI. apply Z.div_unique with 1; lia.
  - f_equal. rewrite Pos2Z.inj_xO. apply Z.div_unique with 0; lia.
  - reflexivity.
Qed.

Lemma shifted_step (m k : Z) :
  0 <= m -> 0 <= k ->
  shr_1 (shifted m k) = shifted m (k + 1).
Proof.
  intros Hm Hk. unfold shifted.
  assert (HP : 0 < 2 ^ k) by (apply Z.pow_pos_nonneg; lia).
  rewrite shr_1_nonneg by (apply Z.div_pos; lia).
  rewrite Z.pow_add_r, Z.pow_1_r by lia.
  set (P := 2 ^ k) in *.
  pose proof (Z.div_mod m P ltac:(lia)) as Hdm.
  pose proof (Z.mod_pos_bound m P HP) as Hlow.
  set (q := m / P) in *. set (low := m mod P) in *.
  pose proof (Z.div_mod q 2 ltac:(lia)) as Hq.
  pose proof (Z.mod_pos_bound q 2 ltac:(lia)) as Hb.
  assert (Hodd : Z.odd q = (q mod 2 =? 1)).
  { rewrite Zmod_odd. now destruct (Z.odd q). }
  set (b := q mod 2) in *. set (q' := q / 2) in *.
  assert (Hdiv : m / (P * 2) = q').
  { symmetry. apply Z.div_unique with (b * P + low); nia. }
  assert (Hmod : m mod (P * 2) = b * P + low).
  { symmetry. apply Z.mod_unique with q'; nia. }
  rewrite Hdiv, Hmod, Hodd.
  assert (Hbb : b = 0 \/ b = 1) by lia.
  f_equal.
  - destruct Hbb as [-> | ->]; cbn [Z.eqb];
      [symmetry; apply Z.leb_gt | symmetry; apply Z.leb_le]; lia.
  - destruct (Z.leb_spec P (2 * low)), (Z.eqb_spec low 0), (Z.eqb_spec (2 * low) P);
      cbn [negb andb orb]; try lia;
      destruct Hbb as [-> | ->];
      destruct (Z.eqb_spec (0 * P + low) 0), (Z.eqb_spec (2 * (0 * P + low)) (P * 2));
      try destruct (Z.eqb_spec (1 * P + low) 0); try destruct (Z.eqb_spec (2 * (1 * P + low)) (P * 2));
      cbn [negb andb orb]; try reflexivity; try lia.
Qed.

Lemma shifted_0 (m : Z) : shifted m 0 = Build_shr_record m false false.
Proof.
  unfold shifted. rewrite Z.pow_0_r, Z.div_1_r, Z.mod_1_r. reflexivity.
Qed.

Lemma iter_shr_1 (m : Z) (k : nat) :
  0 <= m ->
  Nat.iter k shr_1 (Build_shr_record m false false) = shifted m (Z.of_nat k).
Proof.
  intros Hm. induction k as [| k IH].
  - simpl. now rewrite shifted_0.
  - cbn [Nat.iter nat_rect]. unfold Nat.iter in IH. rewrite IH.
    rewrite shifted_step by lia. f_equal. lia.
Qed.

Lemma shr_shifted (m e n : Z) :
  0 <= m -> 0 < n ->
  shr (Build_shr_record m false false) e n = (shifted m n, e + n).
Proof.
  intros Hm Hn. destruct n as [| p | p]; try lia.
  unfold shr. rewrite iter_pos_nat, iter_shr_1 by assumption.
  now rewrite positive_nat_Z.
Qed.

Lemma round_shifted (m n : Z) :
  0 < n ->
  round_nearest_even (shr_m (shifted m n)) (loc_of_shr_record (shifted m n))
  = PyFloat.round_half_even m (- n).
Proof.
  intros Hn. unfold PyFloat.round_half_even, shifted.
  destruct (Z.leb_spec 0 (- n)); [lia |]. rewrite Z.opp_involutive.
  assert (HP : 0 < 2 ^ n) by (apply Z.pow_pos_nonneg; lia).
  pose proof (Z.mod_pos_bound m (2 ^ n) HP) as Hlow.
  set (P := 2 ^ n) in *. set (low := m mod P) in *. cbn [shr_m loc_of_shr_record].
  destruct (Z.compare_spec (2 * low) P) as [Heq | Hlt | Hgt].
  - replace (P <=? 2 * low) with true by (symmetry; apply Z.leb_le; lia).
    replace (low =? 0) with false by (symmetry; apply Z.eqb_neq; lia).
    replace (2 * low =? P) with true by (symmetry; apply Z.eqb_eq; lia).
    reflexivity.
  - replace (P <=? 2 * low) with false by (symmetry; apply Z.leb_gt; lia).
    destruct (negb (low =? 0) && negb (2 * low =? P)); reflexivity.
  - replace (P <=? 2 * low) with true by (symmetry; apply Z.leb_le; lia).
    replace (low =? 0) with false by (symmetry; apply Z.eqb_neq; lia).
    replace (2 * low =? P) with false by (symmetry; apply Z.eqb_neq; lia).
    reflexivity.
Qed.

(** The number of binary digits of a mantissa. *)
Lemma digits2_size (p : positive) : digits2_pos p = Pos.size p.
Proof. induction p; simpl; congruence. Qed.

Lemma digits_bounds (p : positive) :
  2 ^ (Zpos (digits2_pos p) - 1) <= Zpos p < 2 ^ Zpos (digits2_pos p).
Proof.
  rewrite digits2_size. split.
  - pose proof (Pos.size_le p) as H.
    assert (H' : 2 ^ Zpos (Pos.size p) <= 2 * Zpos p).
    { rewrite <- Pos2Z.inj_pow. change (2 * Zpos p) with (Zpos p~0).
      apply Pos2Z.pos_le_pos. exact H. }
    replace (Zpos (Pos.size p)) with (Zpos (Pos.size p) - 1 + 1) in H' by lia.
    rewrite Z.pow_add_r, Z.pow_1_r in H' by lia. lia.
  - pose proof (Pos.size_gt p) as H.
    rewrite <- Pos2Z.inj_pow. apply Pos2Z.pos_lt_pos. exact H.
Qed.

Lemma digits_unique (p : positive) (k : Z) :
  2 ^ (k - 1) <= Zpos p < 2 ^ k -> Zpos (digits2_pos p) = k.
Proof.
  intros [Hlo Hhi]. pose proof (digits_bounds p) as [Blo Bhi].
  set (d := Zpos (digits2_pos p)) in *.
  assert (0 < k).
  { destruct (Z.ltb_spec 0 k) as [| Hk]; [assumption |].
    assert (2 ^ k <= 2 ^ 0) by (destruct (Z.eq_dec k 0) as [-> | ];
      [lia | rewrite Z.pow_neg_r by lia; simpl; lia]).
    simpl in *. lia. }
  assert (d - 1 < k) by (apply (Z.pow_lt_mono_r_iff 2); lia).
  assert (k - 1 < d) by (apply (Z.pow_lt_mono_r_iff 2); lia).
  lia.
Qed.

Lemma round_half_even_near (m n : Z) :
  0 < n ->
  PyFloat.round_half_even m (- n) = m / 2 ^ n \/ PyFloat.round_half_even m (- n) = m / 2 ^ n + 1.
Proof.
  intros Hn. unfold PyFloat.round_half_even.
  destruct (Z.leb_spec 0 (- n)); [lia |]. rewrite Z.opp_involutive.
  destruct (2 * (m mod 2 ^ n) ?= 2 ^ n); [destruct (Z.even _) | |]; auto.
Qed.

Lemma binary_round_aux_finite (sx : bool) (m : positive) (e n : Z) :
  n = Zpos (digits2_pos m) - 53 -> 0 < n ->
  -1074 <= e + n -> e + n + 1 <= 971 ->
  exists m2 e2,
    binary_round_aux 53 1024 sx (Zpos m) e loc_Exact = S754_finite sx m2 e2 /\
    Zpos (digits2_pos m2) = 53 /\
    ((Zpos m2 = PyFloat.round_half_even (Zpos m) (- n) /\ e2 = e + n) \/
     (2 * Zpos m2 = PyFloat.round_half_even (Zpos m) (- n) /\ e2 = e + n + 1)).
Proof.
  intros Hd Hn Hlo Hhi.
  pose proof (digits_bounds m) as [Blo Bhi].
  unfold binary_round_aux, shr_fexp, fexp, emin.
  cbn [Zdigits2 shr_record_of_loc].
  replace (Z.max (Zpos (digits2_pos m) + e - 53) (3 - 1024 - 53) - e) with n by lia.
  rewrite shr_shifted by lia. rewrite round_shifted by lia.
  set (m1 := PyFloat.round_half_even (Zpos m) (- n)).
  assert (HP : 0 < 2 ^ n) by (apply Z.pow_pos_nonneg; lia).
  assert (Hq : 2 ^ 52 <= Zpos m / 2 ^ n < 2 ^ 53).
  { replace (Zpos (digits2_pos m)) with (n + 53) in * by lia.
    replace (n + 53 - 1) with (52 + n) in Blo by lia.
    rewrite Z.pow_add_r in Blo, Bhi by lia. split.
    - apply Z.div_le_lower_bound; lia.
    - apply Z.div_lt_upper_bound; lia. }
  assert (Hm1 : 2 ^ 52 <= m1 <= 2 ^ 53).
  { destruct (round_half_even_near (Zpos m) n Hn) as [H | H]; fold m1 in H; lia. }
  destruct m1 as [| p1 | p1] eqn:E1; try (simpl in Hm1; lia).
  destruct (Z.eq_dec (Zpos p1) (2 ^ 53)) as [Htop | Hlt].
  - (* the rounding carried into the next binade *)
    assert (Hdig : Zpos (digits2_pos p1) = 54).
    { apply digits_unique. rewrite Htop. simpl. lia. }
    cbn [Zdigits2]. rewrite Hdig.
    replace (Z.max (54 + (e + n) - 53) (3 - 1024 - 53) - (e + n)) with 1 by lia.
    rewrite shr_shifted by lia.
    assert (Hs : shr_m (shifted (Zpos p1) 1) = 2 ^ 52).
    { unfold shifted. cbn [shr_m]. rewrite Htop. reflexivity. }
    rewrite Hs. simpl (2 ^ 52).
    destruct (Z.leb_spec (e + n + 1) (1024 - 53)); [| lia].
    eexists. eexists. split; [reflexivity |]. split; [reflexivity |].
    right. split; [| reflexivity].
    rewrite Htop. reflexivity.
  - assert (Hdig : Zpos (digits2_pos p1) = 53).
    { apply digits_unique. simpl (53 - 1). lia. }
    cbn [Zdigits2]. rewrite Hdig.
    replace (Z.max (53 + (e + n) - 53) (3 - 1024 - 53) - (e + n)) with 0 by lia.
    cbn [shr shr_m].
    destruct (Z.leb_spec (e + n) (1024 - 53)); [| lia].
    eexists. eexists. split; [reflexivity |]. split; [exact Hdig |].
    left. split; reflexivity.
Qed.

Lemma binary_round_aux_exact (sx : bool) (m : positive) (e : Z) :
  Zpos (digits2_pos m) = 53 -> -1074 <= e <= 971 ->
  binary_round_aux 53 1024 sx (Zpos m) e loc_Exact = S754_finite sx m e.
Proof.
  intros Hd He. unfold binary_round_aux, shr_fexp, fexp, emin.
  cbn [Zdigits2 shr_record_of_loc]. rewrite Hd.
  replace (Z.max (53 + e - 53) (3 - 1024 - 53) - e) with 0 by lia.
  cbn [shr shr_m loc_of_shr_record round_nearest_even Zdigits2]. rewrite Hd.
  replace (Z.max (53 + e - 53) (3 - 1024 - 53) - e) with 0 by lia.
  cbn [shr shr_m]. destruct (Z.leb_spec e (1024 - 53)); [reflexivity | lia].
Qed.

Lemma iter_xO_value (a k : positive) :
  Zpos (Pos.iter xO a k) = Zpos a * 2 ^ Zpos k.
Proof.
  induction k as [| k IH] using Pos.peano_ind.
  - simpl. lia.
  - rewrite Pos.iter_succ, Pos2Z.inj_xO, IH, Pos2Z.inj_succ, Z.pow_succ_r by lia.
    lia.
Qed.

Lemma iter_xO_digits (a k : positive) :
  Zpos (digits2_pos (Pos.iter xO a k)) = Zpos (digits2_pos a) + Zpos k.
Proof.
  induction k as [| k IH] using Pos.peano_ind.
  - simpl. lia.
  - rewrite Pos.iter_succ. cbn [digits2_pos]. lia.
Qed.

(** [float(a)] is exact for [0 < |a| < 2^53]: [|a|] scaled to 53 digits. *)
Lemma binary_round_small (sx : bool) (a : positive) :
  Zpos a < 2 ^ 53 ->
  exists mz,
    binary_round 53 1024 sx a 0
    = S754_finite sx mz (Zpos (digits2_pos a) - 53) /\
    Zpos mz = Zpos a * 2 ^ (53 - Zpos (digits2_pos a)) /\
    Zpos (digits2_pos mz) = 53.
Proof.
  intros Ha. pose proof (digits_bounds a) as [Blo Bhi].
  set (d := Zpos (digits2_pos a)) in *.
  assert (Hd : 1 <= d <= 53).
  { split; [unfold d; lia |].
    destruct (Z.leb_spec d 53); [assumption |].
    assert (2 ^ 53 <= 2 ^ (d - 1)) by (apply Z.pow_le_mono_r; lia). lia. }
  unfold binary_round, shl_align, fexp, emin. fold d.
  replace (Z.max (d + 0 - 53) (3 - 1024 - 53) - 0) with (d - 53) by lia.
  destruct (d - 53) as [| q | q] eqn:Eq; try lia.
  - exists a. rewrite binary_round_aux_exact by (fold d; lia).
    replace d with 53 by lia. split; [reflexivity |]. split; [simpl; lia | fold d; lia].
  - exists (Pos.iter xO a q).
    assert (Hdig : Zpos (digits2_pos (Pos.iter xO a q)) = 53).
    { rewrite iter_xO_digits. fold d. lia. }
    replace (Z.max (d + 0 - 53) (3 - 1024 - 53)) with (d - 53) by lia.
    rewrite binary_round_aux_exact by (try assumption; lia).
    split; [now rewrite Eq |]. split; [| assumption].
    rewrite iter_xO_value. f_equal. f_equal. lia.
Qed.

(** [float(a)] for any [a] of fewer than 1000 binary digits is a finite
    float with a full mantissa. *)
Lemma binary_round_int_finite (sx : bool) (a : positive) :
  Zpos a < 2 ^ 1000 ->
  exists m e,
    binary_round 53 1024 sx a 0 = S754_finite sx m e /\
    Zpos (digits2_pos m) = 53 /\ -52 <= e <= 948.
Proof.
  intros Ha. pose proof (digits_bounds a) as [Blo Bhi].
  set (d := Zpos (digits2_pos a)) in *.
  assert (Hd : 1 <= d <= 1000).
  { split; [unfold d; lia |].
    destruct (Z.leb_spec d 1000); [assumption |].
    assert (2 ^ 1000 <= 2 ^ (d - 1)) by (apply Z.pow_le_mono_r; lia). lia. }
  destruct (Z.leb_spec d 53) as [Hsmall | Hbig].
  - assert (H53 : Zpos a < 2 ^ 53).
    { eapply Z.lt_le_trans; [exact Bhi |]. apply Z.pow_le_mono_r; lia. }
    destruct (binary_round_small sx a H53) as (mz & Hr & _ & Hdig).
    exists mz, (d - 53). repeat split; try assumption; lia.
  - unfold binary_round, shl_align, fexp, emin. fold d.
    replace (Z.max (d + 0 - 53) (3 - 1024 - 53) - 0) with (d - 53) by lia.
    destruct (d - 53) as [| q | q] eqn:Eq; try lia.
    destruct (binary_round_aux_finite sx a 0 (d - 53))
      as (m2 & e2 & Hr & Hdig & Hcases); try (fold d; lia).
    exists m2, e2. repeat split; try assumption;
      destruct Hcases as [[_ He] | [_ He]]; lia.
Qed.

Lemma round_half_even_double (m e : Z) :
  e + 1 <= 0 ->
  PyFloat.round_half_even (2 * m) e = PyFloat.round_half_even m (e + 1).
Proof.
  intros He. destruct (Z.eq_dec e (-1)) as [-> | Hne].
  - unfold PyFloat.round_half_even.
    change (0 <=? -1) with false. change (0 <=? -1 + 1) with true.
    change (2 ^ (- -1)) with 2. change (2 ^ (-1 + 1)) with 1. cbv iota zeta.
    rewrite (Z.mul_comm 2 m), Z.div_mul, Z.mod_mul by lia. simpl. lia.
  - unfold PyFloat.round_half_even.
    destruct (Z.leb_spec 0 e); [lia |].
    destruct (Z.leb_spec 0 (e + 1)); [lia |].
    replace (- e) with (1 + - (e + 1)) by lia.
    assert (HP : 0 < 2 ^ (- (e + 1))) by (apply Z.pow_pos_nonneg; lia).
    rewrite Z.pow_add_r, Z.pow_1_r by lia.
    set (P := 2 ^ (- (e + 1))) in *. cbv zeta.
    rewrite Z.div_mul_cancel_l, Z.mul_mod_distr_l by lia.
    rewrite <- Zmult_compare_compat_l by lia. reflexivity.
Qed.

Lemma round_half_even_strict (m E k : Z) :
  0 < E ->
  (2 * k - 1) * 2 ^ E < 2 * m < (2 * k + 1) * 2 ^ E ->
  PyFloat.round_half_even m (- E) = k.
Proof.
  intros HE [Hlo Hhi]. unfold PyFloat.round_half_even.
  destruct (Z.leb_spec 0 (- E)); [lia |]. rewrite Z.opp_involutive.
  assert (HP : 0 < 2 ^ E) by (apply Z.pow_pos_nonneg; lia).
  pose proof (Z.div_mod m (2 ^ E) ltac:(lia)) as Hdm.
  pose proof (Z.mod_pos_bound m (2 ^ E) HP) as Hr.
  set (P := 2 ^ E) in *. set (q := m / P) in *. set (r := m mod P) in *.
  cbv zeta.
  assert (Hm2 : 2 * m = 2 * q * P + 2 * r) by lia.
  destruct (Z.compare_spec (2 * r) P) as [Heq | Hlt | Hgt].
  - exfalso.
    assert (H1 : (2 * k - 1) * P < (2 * q + 1) * P) by lia.
    assert (H2 : (2 * q + 1) * P < (2 * k + 1) * P) by lia.
    apply Z.mul_lt_mono_pos_r in H1, H2; lia.
  - assert (H1 : (2 * k - 1) * P < (2 * q + 1) * P) by lia.
    assert (H2 : (2 * q) * P < (2 * k + 1) * P) by lia.
    apply Z.mul_lt_mono_pos_r in H1, H2; lia.
  - assert (H1 : (2 * k - 1) * P < (2 * q + 2) * P) by lia.
    assert (H2 : (2 * q + 1) * P < (2 * k + 1) * P) by lia.
    apply Z.mul_lt_mono_pos_r in H1, H2; lia.
Qed.

Lemma round_half_even_tie (m E k : Z) :
  0 < E ->
  2 * m = (2 * k + 1) * 2 ^ E ->
  PyFloat.round_half_even m (- E) = if Z.even k then k else k + 1.
Proof.
  intros HE Htie. unfold PyFloat.round_half_even.
  destruct (Z.leb_spec 0 (- E)); [lia |]. rewrite Z.opp_involutive.
  assert (HP : 0 < 2 ^ E) by (apply Z.pow_pos_nonneg; lia).
  pose proof (Z.div_mod m (2 ^ E) ltac:(lia)) as Hdm.
  pose proof (Z.mod_pos_bound m (2 ^ E) HP) as Hr.
  set (P := 2 ^ E) in *. set (q := m / P) in *. set (r := m mod P) in *.
  cbv zeta.
  assert (Hm2 : 2 * m = 2 * q * P + 2 * r) by lia.
  assert (H1 : (2 * q) * P < (2 * k + 2) * P) by lia.
  assert (H2 : (2 * k) * P < (2 * q + 2) * P) by lia.
  apply Z.mul_lt_mono_pos_r in H1, H2; try lia.
  assert (q = k) as -> by lia.
  assert (Hhalf : 2 * r = P) by lia.
  rewrite (proj2 (Z.compare_eq_iff _ _) Hhalf). reflexivity.
Qed.

Lemma round_half_even_error (m n : Z) :
  0 < n ->
  - 2 ^ n <= 2 * (PyFloat.round_half_even m (- n) * 2 ^ n) - 2 * m <= 2 ^ n.
Proof.
  intros Hn. unfold PyFloat.round_half_even.
  destruct (Z.leb_spec 0 (- n)); [lia |]. rewrite Z.opp_involutive.
  assert (HP : 0 < 2 ^ n) by (apply Z.pow_pos_nonneg; lia).
  pose proof (Z.div_mod m (2 ^ n) ltac:(lia)) as Hdm.
  pose proof (Z.mod_pos_bound m (2 ^ n) HP) as Hr.
  set (P := 2 ^ n) in *. set (q := m / P) in *. set (r := m mod P) in *.
  cbv zeta.
  destruct (Z.compare_spec (2 * r) P) as [Heq | Hlt | Hgt];
    [destruct (Z.even q) | |]; lia.
Qed.

Lemma M95_nearest : 20 * M95 = 19 * 2 ^ 53 - 8.
Proof. reflexivity. Qed.

Lemma payout_core (a s n E A m1 : Z) :
  0 < a -> 0 <= s -> 0 < n -> 5 <= E ->
  A = a * 2 ^ s ->
  2 ^ (n + 52) <= A * M95 < 2 ^ (n + 53) ->
  m1 = PyFloat.round_half_even (A * M95) (- n) ->
  n + E = 53 + s ->
  PyFloat.round_half_even m1 (- E) = nearest_ties_even (19 * a) 20.
Proof.
  intros Ha Hs Hn HE HA [Hplo Hphi] Hm1 HnE.
  pose proof (round_half_even_error (A * M95) n Hn) as Herr.
  rewrite <- Hm1 in Herr.
  assert (Hpow : 2 ^ n * 2 ^ E = 2 ^ 53 * 2 ^ s).
  { rewrite <- !Z.pow_add_r by lia. f_equal. lia. }
  rewrite !Z.pow_add_r in Hplo, Hphi by lia.
  assert (HPn : 0 < 2 ^ n) by (apply Z.pow_pos_nonneg; lia).
  assert (HPs : 0 < 2 ^ s) by (apply Z.pow_pos_nonneg; lia).
  assert (HPE : 32 <= 2 ^ E).
  { change 32 with (2 ^ 5). apply Z.pow_le_mono_r; lia. }
  assert (HPE2 : 2 ^ E = 2 * 2 ^ (E - 1)).
  { rewrite <- Z.pow_succ_r by lia. f_equal. lia. }
  set (Pn := 2 ^ n) in *. set (PE := 2 ^ E) in *. set (Ps := 2 ^ s) in *.
  set (PE' := 2 ^ (E - 1)) in *.
  pose proof M95_nearest as HM. unfold M95 in *. simpl (2 ^ 53) in *. simpl (2 ^ 52) in *.
  assert (HApos : 0 < A) by nia.
  set (Y := 20 * m1 - 19 * a * PE).
  assert (HY : Pn * Y = 10 * (2 * (m1 * Pn) - 2 * (A * 8556839292003942)) - 8 * A).
  { unfold Y. subst A. nia. }
  assert (HA9 : 8 * A < 9 * Pn).
  { apply (Z.mul_lt_mono_pos_r 8556839292003942); lia. }
  assert (HYlo : -19 < Y).
  { apply (Z.mul_lt_mono_pos_l Pn); [assumption |]. lia. }
  assert (HYhi : Y < 10).
  { apply (Z.mul_lt_mono_pos_l Pn); [assumption |]. lia. }
  unfold nearest_ties_even.
  pose proof (Z.div_mod (19 * a) 20 ltac:(lia)) as Hdm.
  pose proof (Z.mod_pos_bound (19 * a) 20 ltac:(lia)) as Hr.
  set (Q := 19 * a / 20) in *. set (R := (19 * a) mod 20) in *.
  assert (H20 : 20 * m1 = (20 * Q + R) * PE + Y) by (unfold Y; nia).
  destruct (Z.compare_spec (2 * R) 20) as [Heq | Hlt | Hgt].
  - assert (R = 10) by lia. subst R.
    assert (HY0 : Y = 0).
    { assert (Y = 20 * (m1 - (2 * Q + 1) * PE')) by nia. lia. }
    apply round_half_even_tie; [lia |]. fold PE. nia.
  - apply round_half_even_strict; [lia |]. fold PE. nia.
  - apply round_half_even_strict; [lia |]. fold PE. nia.
Qed.

(** A full mantissa times the mantissa of [0.95] has 105 or 106 digits. *)
Lemma product_digits (mz : positive) :
  Zpos (digits2_pos mz) = 53 ->
  105 <= Zpos (digits2_pos (mz * 8556839292003942)) <= 106.
Proof.
  intros Hdig.
  pose proof (digits_bounds mz) as [Mlo Mhi]. rewrite Hdig in Mlo, Mhi.
  pose proof (digits_bounds (mz * 8556839292003942)) as [Plo Phi].
  set (dp := Zpos (digits2_pos (mz * 8556839292003942))) in *.
  rewrite Pos2Z.inj_mul in Plo, Phi.
  simpl (53 - 1) in Mlo.
  assert (2 ^ 104 <= Zpos mz * 8556839292003942).
  { change (2 ^ 104) with (2 ^ 52 * 2 ^ 52).
    apply Z.mul_le_mono_nonneg; [simpl; lia | exact Mlo | simpl; lia | simpl; lia]. }
  assert (Zpos mz * 8556839292003942 < 2 ^ 106).
  { change (2 ^ 106) with (2 ^ 53 * 2 ^ 53).
    apply Z.mul_lt_mono_nonneg; [lia | exact Mhi | lia | simpl; lia]. }
  split.
  - assert (104 < dp) by (apply (Z.pow_lt_mono_r_iff 2); lia). lia.
  - assert (dp - 1 < 106) by (apply (Z.pow_lt_mono_r_iff 2); lia). lia.
Qed.

(** The product of a finite float with [0.95] is finite, away from the
    ends of the exponent range. *)
Lemma mul_lit_finite (sx : bool) (m : positive) (e : Z) :
  Zpos (digits2_pos m) = 53 -> -52 <= e <= 948 ->
  exists m2 e2,
    PyFloat.mul (S754_finite sx m e) PyFloat.lit_0_95 = S754_finite sx m2 e2.
Proof.
  intros Hdig He. pose proof (product_digits m Hdig) as Hdp.
  unfold PyFloat.mul, PyFloat.lit_0_95, PyFloat.prec, PyFloat.emax, SFmul.
  rewrite xorb_false_r.
  destruct (binary_round_aux_finite sx (m * 8556839292003942) (e + -53)
              (Zpos (digits2_pos (m * 8556839292003942)) - 53))
    as (m2 & e2 & Hmul & _); try lia.
  exists m2, e2. exact Hmul.
Qed.

(** Rounding a mantissa of more than 53 digits, at any exponent above
    the subnormal range: the rounded mantissa, and the overflow test on
    the exponent it ends at. *)
Lemma binary_round_aux_big (sx : bool) (m : positive) (e n : Z) :
  n = Zpos (digits2_pos m) - 53 -> 0 < n -> -1074 <= e + n ->
  exists r : positive,
    Zpos r = PyFloat.round_half_even (Zpos m) (- n) /\
    2 ^ 52 <= Zpos r <= 2 ^ 53 /\
    binary_round_aux 53 1024 sx (Zpos m) e loc_Exact =
    if Zpos r <? 2 ^ 53 then
      if e + n <=? 971 then S754_finite sx r (e + n) else S754_infinity sx
    else
      if e + n + 1 <=? 971 then S754_finite sx 4503599627370496 (e + n + 1)
      else S754_infinity sx.
Proof.
  intros Hd Hn Hlo.
  pose proof (digits_bounds m) as [Blo Bhi].
  unfold binary_round_aux, shr_fexp, fexp, emin.
  cbn [Zdigits2 shr_record_of_loc].
  replace (Z.max (Zpos (digits2_pos m) + e - 53) (3 - 1024 - 53) - e) with n by lia.
  rewrite shr_shifted by lia. rewrite round_shifted by lia.
  set (m1 := PyFloat.round_half_even (Zpos m) (- n)).
  assert (HP : 0 < 2 ^ n) by (apply Z.pow_pos_nonneg; lia).
  assert (Hq : 2 ^ 52 <= Zpos m / 2 ^ n < 2 ^ 53).
  { replace (Zpos (digits2_pos m)) with (n + 53) in * by lia.
    replace (n + 53 - 1) with (52 + n) in Blo by lia.
    rewrite Z.pow_add_r in Blo, Bhi by lia. split.
    - apply Z.div_le_lower_bound; lia.
    - apply Z.div_lt_upper_bound; lia. }
  assert (Hm1 : 2 ^ 52 <= m1 <= 2 ^ 53).
  { destruct (round_half_even_near (Zpos m) n Hn) as [H | H]; fold m1 in H; lia. }
  destruct m1 as [| p1 | p1] eqn:E1; try (simpl in Hm1; lia).
  exists p1. split; [reflexivity |]. split; [exact Hm1 |].
  destruct (Z.ltb_spec (Zpos p1) (2 ^ 53)) as [Hlt | Hge].
  - assert (Hdig : Zpos (digits2_pos p1) = 53).
    { apply digits_unique. simpl (53 - 1). lia. }
    cbn [Zdigits2]. rewrite Hdig.
    replace (Z.max (53 + (e + n) - 53) (3 - 1024 - 53) - (e + n)) with 0 by lia.
    cbn [shr shr_m]. reflexivity.
  - assert (Htop : Zpos p1 = 2 ^ 53) by lia.
    assert (Hdig : Zpos (digits2_pos p1) = 54).
    { apply digits_unique. rewrite Htop. simpl. lia. }
    cbn [Zdigits2]. rewrite Hdig.
    replace (Z.max (54 + (e + n) - 53) (3 - 1024 - 53) - (e + n)) with 1 by lia.
    rewrite shr_shifted by lia.
    assert (Hs : shr_m (shifted (Zpos p1) 1) = 2 ^ 52).
    { unfold shifted. cbn [shr_m]. rewrite Htop. reflexivity. }
    rewrite Hs. reflexivity.
Qed.

(** Where a rounding to the nearest lands against a half-way mark. *)
Lemma round_half_even_below (m n K : Z) :
  0 < n -> 0 <= m -> 2 * m < (2 * K - 1) * 2 ^ n ->
  PyFloat.round_half_even m (- n) < K.
Proof.
  intros Hn Hm Hlt. unfold PyFloat.round_half_even.
  destruct (Z.leb_spec 0 (- n)); [lia |]. rewrite Z.opp_involutive.
  assert (HP : 0 < 2 ^ n) by (apply Z.pow_pos_nonneg; lia).
  pose proof (Z.div_mod m (2 ^ n) ltac:(lia)) as Hdm.
  pose proof (Z.mod_pos_bound m (2 ^ n) HP) as Hr.
  set (P := 2 ^ n) in *. set (q := m / P) in *. set (r := m mod P) in *.
  cbv zeta.
  destruct (Z.compare_spec (2 * r) P) as [Heq | Hl | Hg];
    [destruct (Z.even q) |  |]; nia.
Qed.

Lemma round_half_even_above (m n K : Z) :
  0 < n -> (2 * K - 1) * 2 ^ n <= 2 * m -> Z.even K = true ->
  K <= PyFloat.round_half_even m (- n).
Proof.
  intros Hn Hge Hev. unfold PyFloat.round_half_even.
  destruct (Z.leb_spec 0 (- n)); [lia |]. rewrite Z.opp_involutive.
  assert (HP : 0 < 2 ^ n) by (apply Z.pow_pos_nonneg; lia).
  pose proof (Z.div_mod m (2 ^ n) ltac:(lia)) as Hdm.
  pose proof (Z.mod_pos_bound m (2 ^ n) HP) as Hr.
  set (P := 2 ^ n) in *. set (q := m / P) in *. set (r := m mod P) in *.
  cbv zeta.
  assert (Hq : K - 1 <= q) by nia.
  destruct (Z.compare_spec (2 * r) P) as [Heq | Hl | Hg].
  - destruct (Z.even q) eqn:Eq; [| lia].
    destruct (Z.eq_dec q (K - 1)) as [-> | Hne]; [| lia].
    replace K with (Z.succ (K - 1)) in Hev by lia.
    rewrite Z.even_succ, <- Z.negb_even, Eq in Hev. discriminate.
  - nia.
  - lia.
Qed.

(** [float(a)] for a positive [a]: finite below [2^1024 - 2^970], the
    first integer that rounds up to [2^1024], and infinite from there. *)
Lemma float_of_int_ends (sx : bool) (a : positive) :
  (Zpos a < 2 ^ 1024 - 2 ^ 970 ->
   exists m e,
     binary_round 53 1024 sx a 0 = S754_finite sx m e /\
     Zpos (digits2_pos m) = 53 /\ -52 <= e <= 971) /\
  (2 ^ 1024 - 2 ^ 970 <= Zpos a ->
   binary_round 53 1024 sx a 0 = S754_infinity sx).
Proof.
  pose proof (digits_bounds a) as [Blo Bhi].
  set (d := Zpos (digits2_pos a)) in *.
  assert (Hd1 : 1 <= d) by (unfold d; lia).
  assert (H1024 : 2 ^ 1024 - 2 ^ 970 = (2 * 2 ^ 53 - 1) * 2 ^ 970)
    by reflexivity.
  assert (H1023 : 2 ^ 1023 < 2 ^ 1024 - 2 ^ 970) by reflexivity.
  destruct (Z.leb_spec d 53) as [Hsmall | Hbig].
  - assert (H53 : Zpos a < 2 ^ 53).
    { eapply Z.lt_le_trans; [exact Bhi |]. apply Z.pow_le_mono_r; lia. }
    split.
    + intros _. destruct (binary_round_small sx a H53) as (mz & Hr & _ & Hdig).
      exists mz, (d - 53). repeat split; try assumption; lia.
    + intros Hge. exfalso.
      assert (2 ^ 53 < 2 ^ 1023) by reflexivity. lia.
  - assert (Hround : binary_round 53 1024 sx a 0
                     = binary_round_aux 53 1024 sx (Zpos a) 0 loc_Exact).
    { unfold binary_round, shl_align, fexp, emin. fold d.
      replace (Z.max (d + 0 - 53) (3 - 1024 - 53) - 0) with (d - 53) by lia.
      destruct (d - 53) as [| q | q] eqn:Eq; try lia. reflexivity. }
    rewrite Hround.
    destruct (binary_round_aux_big sx a 0 (d - 53))
      as (r & Hr & Hrange & ->); try (fold d; lia).
    split.
    + intros Hlt.
      assert (Hd : d <= 1024).
      { destruct (Z.leb_spec d 1024); [assumption |].
        assert (2 ^ 1024 <= 2 ^ (d - 1)) by (apply Z.pow_le_mono_r; lia).
        assert (0 < 2 ^ 970) by reflexivity. lia. }
      assert (Hfull : forall p : positive,
                 2 ^ 52 <= Zpos p -> Zpos p < 2 ^ 53 ->
                 Zpos (digits2_pos p) = 53).
      { intros p Hlo Hhi. apply digits_unique. simpl (53 - 1). lia. }
      destruct (Z.ltb_spec (Zpos r) (2 ^ 53)) as [Hr53 | Hr53].
      * destruct (Z.leb_spec (0 + (d - 53)) 971); [| lia].
        exists r, (0 + (d - 53)). split; [reflexivity |].
        split; [apply Hfull; lia | lia].
      * destruct (Z.eq_dec d 1024) as [E | E].
        -- exfalso.
           assert (Zpos r < 2 ^ 53).
           { rewrite Hr. apply round_half_even_below; try lia.
             rewrite E. replace (1024 - 53) with (970 + 1) by lia.
             rewrite Z.pow_add_r, Z.pow_1_r by lia. lia. }
           lia.
        -- destruct (Z.leb_spec (0 + (d - 53) + 1) 971); [| lia].
           exists 4503599627370496%positive, (0 + (d - 53) + 1).
           split; [reflexivity |]. split; [reflexivity | lia].
    + intros Hge.
      assert (Hd : 1024 <= d).
      { destruct (Z.leb_spec 1024 d); [assumption |].
        assert (2 ^ d <= 2 ^ 1023) by (apply Z.pow_le_mono_r; lia). lia. }
      destruct (Z.eq_dec d 1024) as [E | E].
      * assert (2 ^ 53 <= Zpos r).
        { rewrite Hr. apply round_half_even_above; try lia; [| reflexivity].
          rewrite E. replace (1024 - 53) with (970 + 1) by lia.
          rewrite Z.pow_add_r, Z.pow_1_r by lia. lia. }
        destruct (Z.ltb_spec (Zpos r) (2 ^ 53)); [lia |].
        destruct (Z.leb_spec (0 + (d - 53) + 1) 971); [lia | reflexivity].
      * destruct (Zpos r <? 2 ^ 53).
        -- destruct (Z.leb_spec (0 + (d - 53)) 971); [lia | reflexivity].
        -- destruct (Z.leb_spec (0 + (d - 53) + 1) 971); [lia | reflexivity].
Qed.

(** The product of any finite float of full mantissa with [0.95] is
    finite: the product is the smaller number. *)
Lemma mul_0_95_finite (sx : bool) (m : positive) (e : Z) :
  Zpos (digits2_pos m) = 53 -> -52 <= e <= 971 ->
  exists m2 e2,
    PyFloat.mul (S754_finite sx m e) PyFloat.lit_0_95 = S754_finite sx m2 e2 /\
    Zpos m2 < 2 ^ 53 /\ e2 <= 971.
Proof.
  intros Hdig He. pose proof (product_digits m Hdig) as Hdp.
  pose proof (digits_bounds m) as [_ Mhi]. rewrite Hdig in Mhi.
  unfold PyFloat.mul, PyFloat.lit_0_95, PyFloat.prec, PyFloat.emax, SFmul.
  rewrite xorb_false_r.
  set (P := (m * 8556839292003942)%positive) in *.
  set (n := Zpos (digits2_pos P) - 53).
  destruct (binary_round_aux_big sx P (e + -53) n)
    as (r & Hr & Hrange & ->); try (unfold n; lia).
  destruct (Z.ltb_spec (Zpos r) (2 ^ 53)) as [Hlt | Hge].
  - destruct (Z.leb_spec (e + -53 + n) 971); [| unfold n in *; lia].
    exists r, (e + -53 + n). repeat split; assumption.
  - assert (Hn : n = 52).
    { destruct (Z.eq_dec n 52) as [E | E]; [exact E |]. exfalso.
      assert (E53 : n = 53) by (unfold n in *; lia).
      assert (Zpos r < 2 ^ 53).
      { rewrite Hr, E53. apply round_half_even_below; try lia.
        all: unfold P; rewrite Pos2Z.inj_mul; lia. }
      lia. }
    destruct (Z.leb_spec (e + -53 + n + 1) 971); [| lia].
    exists 4503599627370496%positive, (e + -53 + n + 1).
    split; [reflexivity |]. split; [reflexivity | assumption].
Qed.

(** [round] of a finite float stays under [2^1024]. *)
Lemma round_half_even_bound (m e : Z) :
  0 <= m < 2 ^ 53 -> e <= 971 -> 0 <= PyFloat.round_half_even m e < 2 ^ 1024.
Proof.
  intros Hm He. unfold PyFloat.round_half_even.
  destruct (Z.leb_spec 0 e).
  - assert (2 ^ e <= 2 ^ 971) by (apply Z.pow_le_mono_r; lia).
    assert (0 < 2 ^ e) by (apply Z.pow_pos_nonneg; lia).
    split; [apply Z.mul_nonneg_nonneg; lia |].
    change (2 ^ 1024) with (2 ^ 53 * 2 ^ 971).
    apply Z.le_lt_trans with (m * 2 ^ 971); [apply Z.mul_le_mono_nonneg_l; lia |].
    apply Z.mul_lt_mono_pos_r; [reflexivity | lia].
  - assert (HP : 0 < 2 ^ (- e)) by (apply Z.pow_pos_nonneg; lia).
    assert (m / 2 ^ (- e) <= m) by (apply Z.div_le_upper_bound; nia).
    assert (0 <= m / 2 ^ (- e)) by (apply Z.div_pos; lia).
    assert (2 ^ 53 + 1 < 2 ^ 1024) by reflexivity.
    cbv zeta. destruct (_ ?= _); [destruct (Z.even _) | |]; lia.
Qed.

End Binary64.

(** ** The modulo-10 settlement *)

Section BaccaratSettlement.

Import Baccarat.

(** [amount * 0.95] then [round]: below [2^48] the two roundings (to a
    float, then to an integer) land on the integer nearest to
    [19 * amount / 20], an exact half going to the even neighbour. *)
Lemma banker_win_payout (a : Z) :
  0 < a < 2 ^ 48 ->
  settle_bet "banker" a "banker" = Ok (nearest_ties_even (19 * a) 20).
Proof.
  intros [Hpos Hlt].
  unfold settle_bet. cbn [String.eqb Ascii.eqb Bool.eqb].
  destruct a as [| pa | pa]; try lia.
  assert (H53 : Zpos pa < 2 ^ 53).
  { eapply Z.lt_trans; [exact Hlt | reflexivity]. }
  destruct (binary_round_small false pa H53) as (mz & Hnorm & Hval & Hdig).
  pose proof (digits_bounds pa) as [Blo Bhi].
  set (d := Zpos (digits2_pos pa)) in *.
  assert (Hd : 1 <= d <= 48).
  { split; [unfold d; lia |].
    destruct (Z.leb_spec d 48); [assumption |].
    assert (2 ^ 48 <= 2 ^ (d - 1)) by (apply Z.pow_le_mono_r; lia). lia. }
  unfold PyFloat.of_int, PyFloat.prec, PyFloat.emax.
  cbn [binary_normalize]. rewrite Hnorm. cbn [bind].
  unfold PyFloat.mul, PyFloat.lit_0_95, PyFloat.prec, PyFloat.emax, SFmul.
  cbn [xorb].
  pose proof (product_digits mz Hdig) as Hdp.
  pose proof (digits_bounds (mz * 8556839292003942)) as [Plo Phi].
  set (dp := Zpos (digits2_pos (mz * 8556839292003942))) in *.
  rewrite Pos2Z.inj_mul in Plo, Phi.
  destruct (binary_round_aux_finite false (mz * 8556839292003942)
              (d - 53 + -53) (dp - 53)) as (m2 & e2 & Hmul & _ & Hcases);
    try (fold dp; lia).
  rewrite Hmul. cbn [PyFloat.round cond_Zopp]. f_equal.
  rewrite Pos2Z.inj_mul in Hcases.
  set (m1 := PyFloat.round_half_even (Zpos mz * 8556839292003942) (- (dp - 53))) in *.
  assert (Hround : PyFloat.round_half_even (Zpos m2) e2
                   = PyFloat.round_half_even m1 (- (106 - d - (dp - 53)))).
  { destruct Hcases as [[Hm He] | [Hm He]].
    - rewrite Hm, He. f_equal. lia.
    - rewrite <- Hm, He, round_half_even_double by lia. f_equal. lia. }
  rewrite Hround.
  apply (payout_core (Zpos pa) (53 - d) (dp - 53) (106 - d - (dp - 53)) (Zpos mz));
    try lia; try assumption.
  - unfold M95. replace (dp - 53 + 52) with (dp - 1) by lia.
    replace (dp - 53 + 53) with dp by lia. split; assumption.
  - reflexivity.
Qed.

(** A winning bet on banker never raises, whatever the sign of the
    amount, as long as the amount has fewer than 1000 binary digits. *)
Lemma banker_win_total (a : Z) :
  - 2 ^ 1000 < a < 2 ^ 1000 ->
  exists v, settle_bet "banker" a "banker" = Ok v.
Proof.
  intros Ha. unfold settle_bet. cbn [String.eqb Ascii.eqb Bool.eqb].
  unfold PyFloat.of_int, PyFloat.prec, PyFloat.emax.
  destruct a as [| pa | pa]; cbn [binary_normalize].
  - eexists. reflexivity.
  - destruct (binary_round_int_finite false pa) as (m & e & Hr & Hdig & He);
      [lia |].
    rewrite Hr. cbn [bind].
    destruct (mul_lit_finite false m e Hdig He) as (m2 & e2 & Hmul).
    rewrite Hmul. eexists. reflexivity.
  - destruct (binary_round_int_finite true pa) as (m & e & Hr & Hdig & He);
      [lia |].
    rewrite Hr. cbn [bind].
    destruct (mul_lit_finite true m e Hdig He) as (m2 & e2 & Hmul).
    rewrite Hmul. eexists. reflexivity.
Qed.

(** A winning bet on banker returns below [2^1024 - 2^970] and raises
    from there: the amount has then no float. *)
Lemma banker_win_ends (a : Z) :
  (Z.abs a < 2 ^ 1024 - 2 ^ 970 ->
   exists v, settle_bet "banker" a "banker" = Ok v /\ Z.abs v < 2 ^ 1024) /\
  (2 ^ 1024 - 2 ^ 970 <= Z.abs a ->
   settle_bet "banker" a "banker"
   = Raise (OverflowError "int too large to convert to float")).
Proof.
  unfold settle_bet. cbn [String.eqb Ascii.eqb Bool.eqb].
  unfold PyFloat.of_int, PyFloat.prec, PyFloat.emax.
  assert (Hcase : forall (sx : bool) (pa : positive),
    (Zpos pa < 2 ^ 1024 - 2 ^ 970 ->
     exists v,
       (f <- match binary_round 53 1024 sx pa 0 with
             | S754_infinity _ =>
                 Raise (OverflowError "int too large to convert to float")
             | f => Ok f
             end ;;
        PyFloat.round (PyFloat.mul f PyFloat.lit_0_95)) = Ok v /\
       Z.abs v < 2 ^ 1024) /\
    (2 ^ 1024 - 2 ^ 970 <= Zpos pa ->
     (f <- match binary_round 53 1024 sx pa 0 with
           | S754_infinity _ =>
               Raise (OverflowError "int too large to convert to float")
           | f => Ok f
           end ;;
      PyFloat.round (PyFloat.mul f PyFloat.lit_0_95))
     = Raise (OverflowError "int too large to convert to float"))).
  { intros sx pa. destruct (float_of_int_ends sx pa) as [Hfin Hinf]. split.
    - intros Hlt. destruct (Hfin Hlt) as (m & e & -> & Hdig & He).
      cbn [bind].
      destruct (mul_0_95_finite sx m e Hdig He) as (m2 & e2 & -> & Hm2 & He2).
      cbn [PyFloat.round]. eexists. split; [reflexivity |].
      pose proof (round_half_even_bound (Zpos m2) e2 ltac:(lia) He2).
      destruct sx; cbn [cond_Zopp]; lia.
    - intros Hge. rewrite (Hinf Hge). reflexivity. }
  destruct a as [| pa | pa]; cbn [binary_normalize Z.abs].
  - split; [intros _; exists 0; split; reflexivity |].
    intros H. exfalso. assert (0 < 2 ^ 1024 - 2 ^ 970) by reflexivity. lia.
  - apply Hcase.
  - apply Hcase.
Qed.


Lemma nearest_even_vs_away (a : Z) :
  0 < a ->
  nearest_ties_even (19 * a) 20 =
  nearest_ties_away (19 * a) 20 - (if a mod 40 =? 30 then 1 else 0).
Proof.
  intros Ha. unfold nearest_ties_even, nearest_ties_away.
  pose proof (Z.div_mod (19 * a) 20 ltac:(lia)) as Hdm.
  pose proof (Z.mod_pos_bound (19 * a) 20 ltac:(lia)) as Hr.
  pose proof (Z.div_mod a 40 ltac:(lia)) as Ham.
  pose proof (Z.mod_pos_bound a 40 ltac:(lia)) as Har.
  set (Q := 19 * a / 20) in *. set (R := (19 * a) mod 20) in *.
  assert (Haway : (2 * (19 * a) + 20) / (2 * 20) = if R <? 10 then Q else Q + 1).
  { destruct (Z.ltb_spec R 10).
    - symmetry. apply Z.div_unique with (2 * R + 20); lia.
    - symmetry. apply Z.div_unique with (2 * R - 20); lia. }
  rewrite Haway.
  destruct (Z.compare_spec (2 * R) 20) as [Heq | Hlt | Hgt].
  - destruct (Z.ltb_spec R 10); [lia |].
    destruct (Z.even Q) eqn:Epar.
    + apply Z.even_spec in Epar. destruct Epar as [k Hk].
      destruct (Z.eqb_spec (a mod 40) 30); lia.
    + assert (Hodd : Z.odd Q = true) by (rewrite <- Z.negb_even, Epar; reflexivity).
      apply Z.odd_spec in Hodd. destruct Hodd as [k Hk].
      destruct (Z.eqb_spec (a mod 40) 30); lia.
  - destruct (Z.ltb_spec R 10); [| lia].
    destruct (Z.eqb_spec (a mod 40) 30); lia.
  - destruct (Z.ltb_spec R 10); [lia |].
    destruct (Z.eqb_spec (a mod 40) 30); lia.
Qed.

(** C4 (as the code has it). For a positive amount below [2^48], a
    banker win pays the bet on banker the integer nearest to
    [amount * 0.95], a tie going to the even integer (Python's [round]),
    not away from zero: the payout is the ties-away value except at
    amounts of the form [40 k + 30], where it is one less. A bet of 100
    pays 95. *)
Theorem C4_banker_payout_ties_even (a : Z) :
  0 < a < 2 ^ 48 ->
  settle_bet "banker" a "banker" = Ok (nearest_ties_even (19 * a) 20) /\
  settle_bet "banker" a "banker" =
    Ok (nearest_ties_away (19 * a) 20 - (if a mod 40 =? 30 then 1 else 0)) /\
  settle_bet "banker" 100 "banker" = Ok 95.
Proof.
  intros Ha. split; [| split].
  - now apply banker_win_payout.
  - rewrite banker_win_payout by assumption.
    now rewrite nearest_even_vs_away by lia.
  - now rewrite banker_win_payout.
Qed.

Lemma C4_banker_payout_ties_even_witness :
  settle_bet "banker" 100 "banker" = Ok 95 /\
  settle_bet "banker" 10 "banker" = Ok 10.
Proof.
  split.
  - apply (C4_banker_payout_ties_even 100). simpl. lia.
  - apply (C4_banker_payout_ties_even 10). simpl. lia.
Defined.

(** C4 as claimed fails at 30: [30 * 0.95] is the float 28.5, which
    [round] takes to 28; ties away from zero would give 29. *)
Lemma C4_banker_30_pays_28 :
  settle_bet "banker" 30 "banker" = Ok 28 /\
  nearest_ties_away (19 * 30) 20 = 29 /\
  settle_bet "banker" 30 "banker" <> Ok (nearest_ties_away (19 * 30) 20).
Proof.
  split; [vm_compute; reflexivity |]. split; [reflexivity |].
  vm_compute. discriminate.
Qed.

(** C10 as claimed fails: a winning bet on banker of [2^1024] raises,
    the amount having no float. *)
Lemma C10_banker_overflow :
  settle_bet "banker" (2 ^ 1024) "banker"
  = Raise (OverflowError "int too large to convert to float") /\
  ~ exists v, settle_bet "banker" (2 ^ 1024) "banker" = Ok v.
Proof.
  assert (H : settle_bet "banker" (2 ^ 1024) "banker"
              = Raise (OverflowError "int too large to convert to float"))
    by (vm_compute; reflexivity).
  split; [exact H |]. intros [v Hv]. rewrite H in Hv. discriminate Hv.
Qed.

(** C10 (as the code has it). The settlement returns for every bet-type
    string, with one exception. With the winner player or banker, every
    bet type but the winner itself, "tie" and strings outside the
    enumeration included, loses the whole bet; with the winner "tie",
    every bet type but "tie" gets 0; these cases return for every
    amount. A bet on banker that wins goes through a float: it returns
    for every amount under [2^1024 - 2^970] in absolute value, and from
    there on it raises [OverflowError]. *)
Theorem C10_settle_bet_total (bet_type winner : string) (a : Z) :
  ((winner = "player" \/ winner = "banker") -> bet_type <> winner ->
     settle_bet bet_type a winner = Ok (- a)) /\
  (winner = "tie" -> bet_type <> "tie" ->
     settle_bet bet_type a winner = Ok 0) /\
  ((bet_type = "banker" -> winner = "banker" ->
    Z.abs a < 2 ^ 1024 - 2 ^ 970) ->
     exists v, settle_bet bet_type a winner = Ok v) /\
  (2 ^ 1024 - 2 ^ 970 <= Z.abs a ->
     settle_bet "banker" a "banker"
     = Raise (OverflowError "int too large to convert to float")).
Proof.
  split; [| split; [| split]].
  - intros [-> | ->] Hne; unfold settle_bet; cbn [String.eqb Ascii.eqb Bool.eqb].
    + destruct (String.eqb_spec bet_type "player"); [contradiction |].
      destruct (bet_type ==? "banker"); reflexivity.
    + destruct (String.eqb_spec bet_type "banker"); [contradiction |].
      destruct (bet_type ==? "player"); reflexivity.
  - intros -> Hne. unfold settle_bet. cbn [String.eqb Ascii.eqb Bool.eqb].
    destruct (String.eqb_spec bet_type "tie"); [contradiction | reflexivity].
  - intros Hrange.
    destruct (String.eqb_spec winner "banker") as [-> | Hnb].
    + destruct (String.eqb_spec bet_type "banker") as [-> | Hnbt].
      * destruct (banker_win_ends a) as [Hret _].
        destruct Hret as (v & Hv & _); [auto |]. now exists v.
      * unfold settle_bet. cbn [String.eqb Ascii.eqb Bool.eqb].
        destruct (String.eqb_spec bet_type "banker"); [contradiction |].
        destruct (bet_type ==? "player"); eexists; reflexivity.
    + unfold settle_bet.
      destruct (winner ==? "tie").
      * destruct (bet_type ==? "tie"); eexists; reflexivity.
      * destruct (winner ==? "player").
        -- destruct (bet_type ==? "player"); [eexists; reflexivity |].
           destruct (bet_type ==? "banker"); eexists; reflexivity.
        -- destruct (String.eqb_spec winner "banker"); [contradiction |].
           eexists; reflexivity.
  - apply banker_win_ends.
Qed.

Lemma C10_settle_bet_total_witness :
  settle_bet "tie" 50 "player" = Ok (- 50) /\
  settle_bet "dragon" 50 "banker" = Ok (- 50) /\
  settle_bet "dragon" 50 "tie" = Ok 0 /\
  (exists v, settle_bet "banker" 50 "banker" = Ok v) /\
  settle_bet "banker" (2 ^ 1024 - 2 ^ 970) "banker"
  = Raise (OverflowError "int too large to convert to float").
Proof.
  pose proof (C10_settle_bet_total "tie" "player" 50) as (H1 & _ & _ & _).
  pose proof (C10_settle_bet_total "dragon" "banker" 50) as (H2 & _ & _ & _).
  pose proof (C10_settle_bet_total "dragon" "tie" 50) as (_ & H3 & _ & _).
  pose proof (C10_settle_bet_total "banker" "banker" 50) as (_ & _ & H4 & _).
  pose proof (C10_settle_bet_total "banker" "banker" (2 ^ 1024 - 2 ^ 970))
    as (_ & _ & _ & H5).
  split; [apply H1; [now left | discriminate] |].
  split; [apply H2; [now right | discriminate] |].
  split; [apply H3; [reflexivity | discriminate] |].
  split; [apply H4; intros _ _; reflexivity |].
  apply H5. vm_compute. discriminate.
Defined.

End BaccaratSettlement.

(** ** What a settlement returns *)

Section SettlementResult.




End SettlementResult.

(** ** The 21-style round controller and doubling down *)

Section DoubleDown.

Import Blackjack.

Lemma player_turn_unfold (inputs : list string) (deck hand : list card)
    (can_double : bool) :
  player_turn inputs deck hand can_double =
  if score hand >? 21 then Ok ("bust", hand, deck, inputs)
  else
    match inputs with
    | [] => Raise EOFError
    | choice :: inputs' =>
        if str_in choice ["h"; "hit"] then
          '(c, deck') <- pop deck ;;
          player_turn inputs' deck' (hand ++ [c]) can_double
        else if str_in choice ["s"; "stand"] then
          Ok ("stand", hand, deck, inputs')
        else if str_in choice ["d"; "double"; "double down"]
                && can_double && (List.length hand =? 2)%nat then
          Ok ("double", hand, deck, inputs')
        else player_turn inputs' deck hand can_double
    end.
Proof.
  unfold score. destruct inputs; cbn [player_turn];
    destruct (hand_value hand); reflexivity.
Qed.

(** What [player_turn] returns: the hand never shrinks; an unchanged
    length means no card was taken; "double" comes back only with
    doubling allowed and two cards in the hand. *)
Lemma player_turn_inv (inputs : list string) :
  forall deck hand can_double action hand' deck' inputs',
    player_turn inputs deck hand can_double
      = Ok (action, hand', deck', inputs') ->
    (List.length hand <= List.length hand')%nat /\
    (List.length hand' = List.length hand -> hand' = hand /\ deck' = deck) /\
    (action = "double" ->
       can_double = true /\ List.length hand' = 2%nat /\ score hand' <= 21) /\
    (action = "bust" \/ action = "stand" \/ action = "double").
Proof.
  induction inputs as [| choice inputs IH];
    intros deck hand can_double action hand' deck' inputs' Hrun;
    rewrite player_turn_unfold in Hrun;
    destruct (Z.gtb_spec (score hand) 21) as [Hbust | Hok].
  - injection Hrun as <- <- <- <-. repeat split; auto; discriminate.
  - discriminate.
  - injection Hrun as <- <- <- <-. repeat split; auto; discriminate.
  - destruct (str_in choice ["h"; "hit"]).
    + destruct (pop deck) as [[c deck1] | e] eqn:Hpop; [| discriminate].
      cbn [bind] in Hrun. apply IH in Hrun.
      destruct Hrun as (Hlen & _ & Hdbl & Hact).
      rewrite length_app in Hlen. cbn [List.length] in Hlen.
      repeat split; try lia; try tauto; apply Hdbl; assumption.
    + destruct (str_in choice ["s"; "stand"]).
      * injection Hrun as <- <- <- <-. repeat split; auto; discriminate.
      * destruct (str_in choice ["d"; "double"; "double down"]
                  && can_double && (List.length hand =? 2)%nat) eqn:Hd.
        -- injection Hrun as <- <- <- <-.
           apply andb_true_iff in Hd. destruct Hd as [Hd Hlen2].
           apply andb_true_iff in Hd. destruct Hd as [_ Hcd].
           apply Nat.eqb_eq in Hlen2. repeat split; auto.
        -- apply IH in Hrun. exact Hrun.
Qed.

Lemma pop_length (deck rest : list card) (c : card) :
  pop deck = Ok (c, rest) -> List.length deck = S (List.length rest).
Proof.
  intros H. apply pop_inv in H. subst. rewrite length_app. simpl. lia.
Qed.

(** The dealer's loop ends before its fuel does. *)
Lemma dealer_loop_total (fuel : nat) :
  forall deck hand,
    (List.length deck < fuel)%nat -> dealer_loop fuel deck hand <> None.
Proof.
  induction fuel as [| fuel IH]; intros deck hand Hlen; [lia |].
  cbn [dealer_loop]. destruct (hand_value hand) as [v soft].
  destruct (v <? 17); [| discriminate].
  destruct (pop deck) as [[c deck'] | e] eqn:Hpop; [| discriminate].
  apply IH. apply pop_length in Hpop. lia.
Qed.

Lemma dealer_turn_total (deck hand : list card) :
  dealer_turn deck hand <> None.
Proof. apply dealer_loop_total. lia. Qed.

Lemma showdown_total (deck player dealer : list card)
    (bet balance : PyFloat.float) (inputs : list string) :
  showdown deck player dealer bet balance inputs <> None.
Proof.
  unfold showdown. pose proof (dealer_turn_total deck dealer) as Htot.
  destruct (dealer_turn deck dealer) as [[[dh dk] | e] |];
    [discriminate | discriminate | contradiction].
Qed.

(** A round always comes to an end: it returns or it raises. *)
Lemma play_round_total (fresh : list card) (bet : option PyFloat.float)
    (inputs : list string) (deck : list card) (balance : PyFloat.float) :
  play_round fresh bet inputs deck balance <> None.
Proof.
  unfold play_round. destruct bet as [bet |]; [| discriminate].
  match goal with
  | |- context [match ?dealt with Ok _ => _ | Raise _ => _ end] =>
      destruct dealt as [[[ph dh] dk] | e]; [| discriminate]
  end.
  destruct (is_blackjack ph || is_blackjack dh); [discriminate |].
  destruct (player_turn inputs dk ph true) as [[[[action ph'] dk'] inputs'] | e];
    [| discriminate].
  destruct (action ==? "bust"); [discriminate |].
  destruct (action ==? "double"); [| apply showdown_total].
  destruct (double_down dk' ph' bet balance) as [[[[ph2 bet2] bal2] dk2] | e];
    [| discriminate].
  destruct (fst (hand_value ph2) >? 21); [discriminate | apply showdown_total].
Qed.

Lemma pop_four (rest : list card) (c d2 d1 p2 p1 : card) :
  ('(x1, deck) <- pop (rest ++ [c; d2; d1; p2; p1]) ;;
   '(x2, deck) <- pop deck ;;
   '(y1, deck) <- pop deck ;;
   '(y2, deck) <- pop deck ;;
   Ok ([x1; x2], [y1; y2], deck))
  = Ok ([p1; p2], [d1; d2], rest ++ [c]).
Proof.
  replace (rest ++ [c; d2; d1; p2; p1])
    with (((((rest ++ [c]) ++ [d2]) ++ [d1]) ++ [p2]) ++ [p1])
    by (rewrite <- !app_assoc; reflexivity).
  rewrite pop_snoc. cbn [bind]. rewrite pop_snoc. cbn [bind].
  rewrite pop_snoc. cbn [bind]. rewrite pop_snoc. reflexivity.
Qed.

(** What a double does in the code. "double" is accepted only on a hand
    of two cards, so before any card was taken in the turn; funds are
    not asked for at that point. Once accepted, exactly one card is
    dealt and the player is not asked again, bust or not; the bet
    doubles when twice the bet does not exceed the balance and stays as
    it was otherwise. A bust on that card is settled at minus the bet so
    obtained. *)
Theorem double_down_as_coded
    (fresh rest : list card) (c d2 d1 p2 p1 : card)
    (bet balance : PyFloat.float) (inputs inputs' : list string)
    (hand deck' : list card) :
  let deck := rest ++ [c; d2; d1; p2; p1] in
  let affordable := negb (PyFloat.gtb (PyFloat.mul bet PyFloat.lit_2) balance) in
  let bet' := if affordable then PyFloat.mul bet PyFloat.lit_2 else bet in
  (15 <= List.length deck)%nat ->
  is_blackjack [p1; p2] = false -> is_blackjack [d1; d2] = false ->
  player_turn inputs (rest ++ [c]) [p1; p2] true
    = Ok ("double", hand, deck', inputs') ->
  (* accepted on the two cards dealt, before any other card *)
  hand = [p1; p2] /\ deck' = rest ++ [c] /\
  (* exactly one more card; the bet doubles when affordable *)
  (exists balance',
      double_down deck' hand bet balance
      = Ok ([p1; p2; c], bet', balance', rest)) /\
  (* the turn is over: a bust is settled at once *)
  (score [p1; p2; c] > 21 ->
     exists out,
       play_round fresh (Some bet) inputs deck balance = Some (Ok out) /\
       result_shown out
         = Some (mkShown [p1; p2; c] [d1; d2] bet' (PyFloat (PyFloat.neg bet'))) /\
       deck_left out = rest /\ inputs_left out = inputs') /\
  (* and otherwise the dealer plays, with no further line read *)
  (score [p1; p2; c] <= 21 ->
     exists balance',
       play_round fresh (Some bet) inputs deck balance
       = showdown rest [p1; p2; c] [d1; d2] bet' balance' inputs' /\
       showdown rest [p1; p2; c] [d1; d2] bet' balance' inputs' <> None).
Proof.
  intros deck affordable bet' Hlen Hnp Hnd Hturn.
  destruct (player_turn_inv _ _ _ _ _ _ _ _ Hturn) as (_ & Hsame & Hdbl & _).
  destruct (Hdbl eq_refl) as (_ & Hlen2 & _).
  destruct (Hsame Hlen2) as [-> ->]. clear Hsame Hdbl Hlen2.
  assert (Hdd : exists balance',
             double_down (rest ++ [c]) [p1; p2] bet balance
             = Ok ([p1; p2; c], bet', balance', rest)).
  { unfold double_down, bet', affordable. rewrite pop_snoc. cbn [bind app].
    destruct (PyFloat.gtb (PyFloat.mul bet PyFloat.lit_2) balance);
      cbn [negb]; eexists; reflexivity. }
  split; [reflexivity |]. split; [reflexivity |]. split; [exact Hdd |].
  destruct Hdd as (balance' & Hdd).
  assert (Hround : play_round fresh (Some bet) inputs deck balance =
                   if fst (hand_value [p1; p2; c]) >? 21 then
                     Some (finish [p1; p2; c] [d1; d2] bet' balance'
                             (PyFloat (PyFloat.neg bet')) rest inputs')
                   else showdown rest [p1; p2; c] [d1; d2] bet' balance' inputs').
  { unfold play_round.
    destruct (Nat.ltb_spec (List.length deck) 15) as [Hshort | _]; [lia |].
    unfold deck. rewrite pop_four, Hnp, Hnd. cbn [orb].
    rewrite Hturn. cbn [String.eqb Ascii.eqb Bool.eqb].
    rewrite Hdd. reflexivity. }
  split.
  - intros Hbust. unfold score in Hbust. apply Z.gtb_gt in Hbust.
    rewrite Hround, Hbust. unfold finish, add_net. cbn [bind].
    eexists. split; [reflexivity |]. repeat split.
  - intros Hok. unfold score in Hok. exists balance'. rewrite Hround.
    destruct (Z.gtb_spec (fst (hand_value [p1; p2; c])) 21); [lia |].
    split; [reflexivity | apply showdown_total].
Qed.

Lemma double_down_as_coded_example :
  exists out,
    play_round [] (Some (PyFloat.dyadic 10 0)) ["d"]
      (filler ++ [(RK, Hearts); (R7, Spades); (R10, Diamonds);
                  (R6, Hearts); (R10, Hearts)])
      (PyFloat.dyadic 100 0) = Some (Ok out) /\
    result_shown out
      = Some (mkShown [(R10, Hearts); (R6, Hearts); (RK, Hearts)]
                [(R10, Diamonds); (R7, Spades)]
                (PyFloat.dyadic 20 0)
                (PyFloat (PyFloat.neg (PyFloat.dyadic 20 0)))) /\
    inputs_left out = [].
Proof.
  destruct (double_down_as_coded [] filler (RK, Hearts) (R7, Spades) (R10, Diamonds)
              (R6, Hearts) (R10, Hearts) (PyFloat.dyadic 10 0)
              (PyFloat.dyadic 100 0) ["d"] []
              [(R10, Hearts); (R6, Hearts)] (filler ++ [(RK, Hearts)]))
    as (_ & _ & _ & Hbust & _).
  - simpl. lia.
  - reflexivity.
  - reflexivity.
  - reflexivity.
  - destruct Hbust as (out & Hrun & Hshown & _ & Hin);
      [vm_compute; reflexivity |].
    exists out. split; [exact Hrun |]. split; [exact Hshown | exact Hin].
Defined.

(** With a bet of 60 on a balance of 100 the player's "d" is accepted
    all the same; one card is dealt and the turn ends, at the bet of
    60. *)
Lemma double_taken_without_funds :
  PyFloat.gtb (PyFloat.mul (PyFloat.dyadic 60 0) PyFloat.lit_2)
    (PyFloat.dyadic 100 0) = true /\
  player_turn ["d"] (filler ++ [(R10, Hearts)]) [(R5, Hearts); (R6, Hearts)] true
    = Ok ("double", [(R5, Hearts); (R6, Hearts)], filler ++ [(R10, Hearts)], []) /\
  exists out,
    play_round [] (Some (PyFloat.dyadic 60 0)) ["d"]
      (filler ++ [(R10, Hearts); (R7, Spades); (R10, Diamonds);
                  (R6, Hearts); (R5, Hearts)])
      (PyFloat.dyadic 100 0) = Some (Ok out) /\
    result_shown out
      = Some (mkShown [(R5, Hearts); (R6, Hearts); (R10, Hearts)]
                [(R10, Diamonds); (R7, Spades)] (PyFloat.dyadic 60 0)
                (PyFloat (PyFloat.dyadic 60 0))) /\
    inputs_left out = [].
Proof.
  split; [reflexivity |]. split; [reflexivity |].
  eexists. split; [vm_compute; reflexivity |]. split; reflexivity.
Qed.

(** A remark on the balance: an affordable double charges the original
    bet when taken and the doubled bet when lost, so a bust after
    doubling a bet of 10 takes 30 off a balance of 100. *)
Example double_bust_balance :
  option_map (fun r => match r with
                       | Ok out => Some (ret_balance out)
                       | Raise _ => None
                       end)
    (play_round [] (Some (PyFloat.dyadic 10 0)) ["d"]
       (filler ++ [(RK, Hearts); (R7, Spades); (R10, Diamonds);
                   (R6, Hearts); (R10, Hearts)])
       (PyFloat.dyadic 100 0))
  = Some (Some (PyFloat.dyadic 70 0)).
Proof. vm_compute. reflexivity. Qed.

(** C8 (the code departs from it). Two slips in the double. With a
    bet of 60 on a balance of 100, twice the bet is above the balance
    and [play_round] says so ("You don't have enough to double.
    Continuing as a hit."), yet what follows is no hit: one card is
    dealt, the turn is over at 15 with the lines "h" and "s" left
    unread, where the same hand played with "h" takes a second card. And
    with a bet of 10 on a balance of 100 the double is taken in full,
    the hand busts, the net shown is minus the doubled bet of 20, and
    the balance returned is 70: the bet was taken off when doubling and
    the doubled bet once more on the loss. *)
Theorem C8_double_down_slips :
  PyFloat.gtb (PyFloat.mul (PyFloat.dyadic 60 0) PyFloat.lit_2)
    (PyFloat.dyadic 100 0) = true /\
  (exists out,
      play_round [] (Some (PyFloat.dyadic 60 0)) ["d"; "h"; "s"]
        (filler ++ [(R4, Hearts); (R7, Spades); (R10, Diamonds);
                    (R6, Hearts); (R5, Hearts)])
        (PyFloat.dyadic 100 0) = Some (Ok out) /\
      result_shown out
        = Some (mkShown [(R5, Hearts); (R6, Hearts); (R4, Hearts)]
                  [(R10, Diamonds); (R7, Spades)] (PyFloat.dyadic 60 0)
                  (PyFloat (PyFloat.neg (PyFloat.dyadic 60 0)))) /\
      score [(R5, Hearts); (R6, Hearts); (R4, Hearts)] = 15 /\
      inputs_left out = ["h"; "s"] /\
      ret_balance out = PyFloat.dyadic 40 0) /\
  (exists out,
      play_round [] (Some (PyFloat.dyadic 60 0)) ["h"; "h"; "s"]
        (filler ++ [(R4, Hearts); (R7, Spades); (R10, Diamonds);
                    (R6, Hearts); (R5, Hearts)])
        (PyFloat.dyadic 100 0) = Some (Ok out) /\
      result_shown out
        = Some (mkShown
                  [(R5, Hearts); (R6, Hearts); (R4, Hearts); (R3, Spades)]
                  [(R10, Diamonds); (R7, Spades)] (PyFloat.dyadic 60 0)
                  (PyFloat (PyFloat.dyadic 60 0))) /\
      inputs_left out = []) /\
  (exists out,
      play_round [] (Some (PyFloat.dyadic 10 0)) ["d"]
        (filler ++ [(RK, Hearts); (R7, Spades); (R10, Diamonds);
                    (R6, Hearts); (R10, Hearts)])
        (PyFloat.dyadic 100 0) = Some (Ok out) /\
      result_shown out
        = Some (mkShown [(R10, Hearts); (R6, Hearts); (RK, Hearts)]
                  [(R10, Diamonds); (R7, Spades)] (PyFloat.dyadic 20 0)
                  (PyFloat (PyFloat.neg (PyFloat.dyadic 20 0)))) /\
      ret_balance out = PyFloat.dyadic 70 0 /\
      PyFloat.sub (PyFloat.dyadic 100 0) (PyFloat.dyadic 20 0)
        = PyFloat.dyadic 80 0).
Proof.
  split; [reflexivity |].
  split; [| split];
    (eexists; split; [vm_compute; reflexivity |]; repeat split).
Qed.

End DoubleDown.

(** * Further properties of blackjack.py *)

(** ** The 21-style score as the best total *)

Section BestTotal.

Import Blackjack.

Lemma hand_state_downgrade (hand : list card) :
  hand_state hand = downgrade (raw_sum hand) (ace_count hand).
Proof.
  unfold hand_state. rewrite count_cards_from. reflexivity.
Qed.

Lemma score_state (hand : list card) : score hand = fst (hand_state hand).
Proof.
  unfold score, hand_value. now destruct (hand_state hand).
Qed.

(** The score against the hard total: [k] aces still count 11, and
    one more of them would pass 21. *)
Lemma score_hard_total (hand : list card) :
  exists k,
    (k <= ace_count hand)%nat /\
    score hand = hard_total hand + 10 * Z.of_nat k /\
    (score hand <= 21 \/ k = O) /\
    ((k < ace_count hand)%nat -> 21 < score hand + 10).
Proof.
  rewrite score_state. unfold hard_total.
  pose proof (hand_state_spec hand) as Hs.
  destruct (hand_state hand) as [v k]. cbn [fst].
  destruct Hs as (Hk & Hv & Hle & Hmin).
  exists k. repeat split; try assumption. lia.
Qed.

(** X1. [hand_value] returns the best total of the hand. With every ace
    at 1 or 11, the totals of a hand are its hard total plus 10 for each
    ace taken at 11; the value returned is such a total, it is the
    highest one not above 21 when the hard total is not above 21, and it
    is the hard total (a bust) otherwise. *)
Theorem X1_hand_value_is_best_total (hand : list card) :
  (exists k, (k <= ace_count hand)%nat /\
             fst (hand_value hand) = hard_total hand + 10 * Z.of_nat k) /\
  (hard_total hand <= 21 ->
     fst (hand_value hand) <= 21 /\
     forall j, (j <= ace_count hand)%nat ->
               hard_total hand + 10 * Z.of_nat j <= 21 ->
               hard_total hand + 10 * Z.of_nat j <= fst (hand_value hand)) /\
  (21 < hard_total hand -> fst (hand_value hand) = hard_total hand).
Proof.
  fold (score hand).
  destruct (score_hard_total hand) as (k & Hk & Hv & Hle & Hmin).
  split; [| split].
  - exists k. split; assumption.
  - intros Hhard. split; [lia |].
    intros j Hj Hfit.
    destruct (Nat.le_gt_cases j k) as [Hjk | Hjk]; [lia |].
    assert (21 < score hand + 10) by (apply Hmin; lia). lia.
  - intros Hhard. lia.
Qed.

Lemma X1_hand_value_is_best_total_witness :
  hard_total [(RA, Hearts); (RA, Spades); (R9, Clubs)] = 11 /\
  fst (hand_value [(RA, Hearts); (RA, Spades); (R9, Clubs)]) <= 21 /\
  hard_total [(RA, Hearts); (RA, Spades); (R9, Clubs)] + 10 * Z.of_nat 1
    <= fst (hand_value [(RA, Hearts); (RA, Spades); (R9, Clubs)]).
Proof.
  split; [reflexivity |].
  destruct (X1_hand_value_is_best_total [(RA, Hearts); (RA, Spades); (R9, Clubs)])
    as (_ & Hfit & _).
  destruct Hfit as [H21 Hbest]; [vm_compute; discriminate |].
  split; [exact H21 |].
  apply Hbest; [vm_compute; lia | vm_compute; discriminate].
Defined.

(** The sums of a hand read off its ranks. *)
Lemma rank_sums (hand : list card) :
  raw_sum hand
  = fold_right Z.add 0 (map (fun r => face_value (r, Hearts)) (map fst hand)) /\
  ace_count hand = List.length (filter is_ace (map fst hand)) /\
  any_ace hand = existsb is_ace (map fst hand).
Proof.
  unfold raw_sum, ace_count, any_ace.
  induction hand as [| [r s] hand (IH1 & IH2 & IH3)]; [repeat split |].
  cbn [map fold_right filter existsb fst]. rewrite IH1, IH3.
  split; [reflexivity |]. split; [| destruct r; reflexivity].
  destruct r; cbn [is_ace List.length]; rewrite IH2; reflexivity.
Qed.

Lemma rank_perm_invariants (rs rs' : list rank) :
  Permutation rs rs' ->
  fold_right Z.add 0 (map (fun r => face_value (r, Hearts)) rs)
  = fold_right Z.add 0 (map (fun r => face_value (r, Hearts)) rs') /\
  List.length (filter is_ace rs) = List.length (filter is_ace rs') /\
  existsb is_ace rs = existsb is_ace rs'.
Proof.
  induction 1 as [| x l l' _ (I1 & I2 & I3) | x y l
                 | l l' l'' _ (I1 & I2 & I3) _ (J1 & J2 & J3)].
  - repeat split.
  - cbn [map fold_right filter existsb]. rewrite I1, I3.
    repeat split. destruct (is_ace x); cbn [List.length]; now rewrite I2.
  - cbn [map fold_right filter existsb]. repeat split; try lia.
    + destruct (is_ace x), (is_ace y); reflexivity.
    + destruct (is_ace x), (is_ace y); reflexivity.
  - repeat split; congruence.
Qed.

Lemma hand_value_perm (hand hand' : list card) :
  Permutation (map fst hand) (map fst hand') ->
  hand_value hand = hand_value hand'.
Proof.
  intros Hperm.
  destruct (rank_sums hand) as (R1 & A1 & E1).
  destruct (rank_sums hand') as (R2 & A2 & E2).
  destruct (rank_perm_invariants _ _ Hperm) as (P1 & P2 & P3).
  unfold hand_value. rewrite !hand_state_downgrade.
  rewrite R1, A1, E1, R2, A2, E2, P1, P2, P3. reflexivity.
Qed.

(** X2. [hand_value] looks at the ranks only: two hands with the same
    ranks, in any order and of any suits, get the same value and the
    same soft flag. *)
Theorem X2_hand_value_ranks_only (hand hand' : list card) :
  Permutation (map fst hand) (map fst hand') ->
  hand_value hand = hand_value hand' /\
  is_blackjack hand = is_blackjack hand'.
Proof.
  intros Hperm. split; [now apply hand_value_perm |].
  pose proof (hand_value_perm hand hand' Hperm) as Hv.
  apply Permutation_length in Hperm. rewrite !length_map in Hperm.
  unfold is_blackjack. rewrite Hv.
  destruct hand as [| a [| b [| c hand]]], hand' as [| a' [| b' [| c' hand']]];
    try discriminate Hperm; reflexivity.
Qed.

Lemma X2_hand_value_ranks_only_witness :
  hand_value [(RA, Hearts); (R5, Spades); (RK, Clubs)]
  = hand_value [(RK, Diamonds); (RA, Clubs); (R5, Hearts)].
Proof.
  apply (X2_hand_value_ranks_only [(RA, Hearts); (R5, Spades); (RK, Clubs)]
           [(RK, Diamonds); (RA, Clubs); (R5, Hearts)]).
  cbn [map fst]. apply Permutation_sym.
  exact (Permutation_cons_append [RA; R5] RK).
Defined.

(** X3. [is_blackjack] holds exactly of the two-card hands made of an
    ace and a card that counts ten (10, J, Q or K), in either order. *)
Theorem X3_is_blackjack_ace_and_ten (hand : list card) :
  is_blackjack hand = true <->
  exists r1 s1 r2 s2,
    hand = [(r1, s1); (r2, s2)] /\
    ((is_ace r1 = true /\ ten_valued r2 = true) \/
     (ten_valued r1 = true /\ is_ace r2 = true)).
Proof.
  split.
  - intros H. apply is_blackjack_spec in H. destruct H as [H21 Hlen].
    destruct hand as [| [r1 s1] [| [r2 s2] [| c hand]]]; try discriminate.
    exists r1, s1, r2, s2. split; [reflexivity |].
    unfold score in H21.
    rewrite (hand_value_perm _ [(r1, Hearts); (r2, Hearts)]) in H21
      by reflexivity.
    destruct r1, r2; vm_compute in H21; try discriminate H21; auto.
  - intros (r1 & s1 & r2 & s2 & -> & Hcase).
    unfold is_blackjack.
    rewrite (hand_value_perm [(r1, s1); (r2, s2)] [(r1, Hearts); (r2, Hearts)])
      by reflexivity.
    destruct Hcase as [[H1 H2] | [H1 H2]];
      destruct r1; try discriminate H1; destruct r2; try discriminate H2;
      reflexivity.
Qed.

Lemma X3_is_blackjack_ace_and_ten_witness :
  is_blackjack [(RQ, Clubs); (RA, Diamonds)] = true.
Proof.
  apply (proj2 (X3_is_blackjack_ace_and_ten [(RQ, Clubs); (RA, Diamonds)])).
  exists RQ, Clubs, RA, Diamonds. split; [reflexivity |].
  right. split; reflexivity.
Defined.

End BestTotal.

(** ** The dealer's turn *)

Section DealerTurn.

Import Blackjack.

Lemma dealer_loop_unfold (fuel : nat) (deck hand : list card) :
  dealer_loop (S fuel) deck hand =
  if score hand <? 17 then
    match pop deck with
    | Raise e => Some (Raise e)
    | Ok (c, deck') => dealer_loop fuel deck' (hand ++ [c])
    end
  else Some (Ok (hand, deck)).
Proof.
  unfold score. cbn [dealer_loop]. destruct (hand_value hand). reflexivity.
Qed.

Lemma sums_snoc (hand : list card) (c : card) :
  raw_sum (hand ++ [c]) = raw_sum hand + face_value c /\
  ace_count (hand ++ [c])
  = (ace_count hand + (if is_ace (fst c) then 1 else 0))%nat.
Proof.
  unfold raw_sum, ace_count.
  induction hand as [| x hand [IH1 IH2]].
  - cbn. split; [lia |]. destruct c as [[] s]; reflexivity.
  - cbn [app map fold_right filter]. rewrite IH1. split; [lia |].
    destruct x as [[] s]; cbn [fst List.length]; rewrite ?IH2; reflexivity.
Qed.

Lemma hard_total_snoc (hand : list card) (c : card) :
  hard_total (hand ++ [c]) = hard_total hand + low_value c.
Proof.
  unfold hard_total. destruct (sums_snoc hand c) as [-> ->].
  destruct c as [[] s]; cbn [fst is_ace]; unfold face_value, low_value;
    cbn [fst]; lia.
Qed.

Lemma low_value_bounds (c : card) :
  1 <= low_value c <= 10 /\ (is_ace (fst c) = false -> 2 <= low_value c).
Proof. destruct c as [[] s]; cbv; repeat split; congruence. Qed.

(** One card takes a score of 16 or less to 26 at most. *)
Lemma score_after_card (hand : list card) (c : card) :
  score hand <= 16 -> score (hand ++ [c]) <= 26.
Proof.
  intros Hlow.
  destruct (score_hard_total hand) as (k & _ & Hv & _ & _).
  destruct (score_hard_total (hand ++ [c])) as (k' & _ & Hv' & Hle & _).
  rewrite hard_total_snoc in Hv'.
  pose proof (low_value_bounds c) as [Hb _].
  destruct Hle as [H21 | ->]; lia.
Qed.

Lemma dealer_loop_spec (fuel : nat) :
  forall deck hand hand' deck',
    dealer_loop fuel deck hand = Some (Ok (hand', deck')) ->
    exists drawn,
      hand' = hand ++ drawn /\
      deck = deck' ++ rev drawn /\
      17 <= score hand' /\
      (forall k, (k < List.length drawn)%nat ->
                 score (hand ++ firstn k drawn) <= 16) /\
      (drawn <> [] -> score hand' <= 26).
Proof.
  induction fuel as [| fuel IH]; intros deck hand hand' deck' Hrun;
    [discriminate |].
  rewrite dealer_loop_unfold in Hrun.
  destruct (Z.ltb_spec (score hand) 17) as [Hlow | Hhigh].
  - destruct (pop deck) as [[c deck1] | e] eqn:Hpop; [| discriminate].
    apply pop_inv in Hpop. apply IH in Hrun.
    destruct Hrun as (drawn & -> & -> & H17 & Hpre & H26).
    exists (c :: drawn). rewrite <- app_assoc in *. cbn [app] in *.
    split; [reflexivity |]. split.
    { subst deck. cbn [rev]. now rewrite app_assoc. }
    split; [exact H17 |]. split.
    + intros [| k] Hk; cbn [firstn].
      * rewrite app_nil_r. lia.
      * specialize (Hpre k). rewrite <- app_assoc in Hpre. cbn [app] in Hpre.
        apply Hpre. cbn [List.length] in Hk. lia.
    + intros _. destruct drawn as [| d drawn].
      * apply score_after_card. lia.
      * apply H26. discriminate.
  - injection Hrun as <- <-. exists []. rewrite !app_nil_r.
    split; [reflexivity |]. split; [reflexivity |]. split; [lia |].
    split; [| congruence]. intros k Hk. cbn in Hk. lia.
Qed.

(** X4. The dealer stands on every 17 or more, soft ones too, without
    touching the deck. When [dealer_turn] returns, the dealer's hand is
    the old hand followed by the cards taken off the end of the deck, in
    the order taken; the hand scored 16 or less before each of them and
    scores 17 or more at the end, and 26 at most if a card was taken. *)
Theorem X4_dealer_turn_result (deck hand : list card) :
  (17 <= score hand -> dealer_turn deck hand = Some (Ok (hand, deck))) /\
  (forall hand' deck',
      dealer_turn deck hand = Some (Ok (hand', deck')) ->
      exists drawn,
        hand' = hand ++ drawn /\
        deck = deck' ++ rev drawn /\
        17 <= score hand' /\
        (forall k, (k < List.length drawn)%nat ->
                   score (hand ++ firstn k drawn) <= 16) /\
        (drawn <> [] -> score hand' <= 26)).
Proof.
  split.
  - intros H. unfold dealer_turn. rewrite dealer_loop_unfold.
    destruct (Z.ltb_spec (score hand) 17); [lia | reflexivity].
  - intros hand' deck'. apply dealer_loop_spec.
Qed.

Lemma X4_dealer_turn_result_witness :
  dealer_turn [(R2, Clubs); (RK, Hearts)] [(RA, Spades); (R6, Hearts)]
  = Some (Ok ([(RA, Spades); (R6, Hearts)], [(R2, Clubs); (RK, Hearts)])) /\
  exists drawn,
    [(R9, Hearts); (R7, Clubs); (R10, Spades)]
    = [(R9, Hearts); (R7, Clubs)] ++ drawn /\
    17 <= score [(R9, Hearts); (R7, Clubs); (R10, Spades)].
Proof.
  split.
  - apply (X4_dealer_turn_result [(R2, Clubs); (RK, Hearts)]
             [(RA, Spades); (R6, Hearts)]).
    vm_compute. discriminate.
  - destruct (X4_dealer_turn_result [(R2, Clubs); (R10, Spades)]
                [(R9, Hearts); (R7, Clubs)]) as [_ H].
    destruct (H [(R9, Hearts); (R7, Clubs); (R10, Spades)] [(R2, Clubs)])
      as (drawn & Hhand & _ & H17 & _); [reflexivity |].
    exists drawn. split; [exact Hhand | exact H17].
Defined.

(** How many cards a hand below 17 can hold. *)
Lemma hard_total_length (hand : list card) :
  Z.of_nat (List.length hand) <= hard_total hand /\
  (ace_count hand = O -> 2 * Z.of_nat (List.length hand) <= hard_total hand).
Proof.
  induction hand as [| c hand [IH1 IH2]] using rev_ind.
  - cbv. split; [discriminate | intros _; discriminate].
  - rewrite hard_total_snoc, length_app. cbn [List.length].
    destruct (sums_snoc hand c) as [_ Hac]. rewrite Hac.
    pose proof (low_value_bounds c) as [Hb Hna].
    split; [lia |]. intros Hz.
    destruct (is_ace (fst c)) eqn:E; [lia |].
    specialize (Hna eq_refl). specialize (IH2 ltac:(lia)). lia.
Qed.

(** Below 17 the hard total is 16 at most, and with an ace in the hand
    it is not one of 7 to 11 (the ace at 11 would make 17 to 21). *)
Lemma drawing_hard_total (hand : list card) :
  score hand <= 16 ->
  hard_total hand <= 16 /\
  ((1 <= ace_count hand)%nat -> hard_total hand <= 6 \/ 12 <= hard_total hand).
Proof.
  intros Hlow.
  destruct (score_hard_total hand) as (k & Hk & Hv & _ & Hmin).
  split; [lia |]. intros Hace.
  destruct (Z.le_gt_cases (hard_total hand) 6); [now left |].
  destruct (Z.le_gt_cases 12 (hard_total hand)); [now right |].
  exfalso. destruct (Nat.lt_ge_cases k (ace_count hand)) as [Hlt | Hge].
  - specialize (Hmin Hlt). lia.
  - lia.
Qed.

Lemma past_the_gap_short (hand : list card) :
  (List.length hand <= 7)%nat -> past_the_gap hand.
Proof. unfold past_the_gap. intros. lia. Qed.

Lemma past_the_gap_step (hand : list card) (c : card) :
  score hand <= 16 -> past_the_gap hand -> past_the_gap (hand ++ [c]).
Proof.
  unfold past_the_gap. intros Hlow Hinv.
  rewrite hard_total_snoc, length_app. cbn [List.length].
  destruct (sums_snoc hand c) as [_ Hac]. rewrite Hac.
  pose proof (low_value_bounds c) as [Hb Hna].
  destruct (drawing_hard_total hand Hlow) as [H16 Hgap].
  destruct (hard_total_length hand) as [Hlen Hnoace].
  intros Hace H12.
  destruct (Nat.eq_dec (ace_count hand) 0) as [Hz | Hnz].
  - specialize (Hnoace Hz). rewrite Hz in Hace.
    destruct (is_ace (fst c)) eqn:E; [| simpl in Hace; lia].
    assert (low_value c = 1)
      by (destruct c as [[] s]; try discriminate E; reflexivity).
    lia.
  - destruct (Hgap ltac:(lia)) as [H6 | H12'].
    + lia.
    + specialize (Hinv ltac:(lia) H12'). lia.
Qed.

Lemma drawing_length (hand : list card) :
  score hand <= 16 -> past_the_gap hand -> (List.length hand <= 11)%nat.
Proof.
  intros Hlow Hinv.
  destruct (drawing_hard_total hand Hlow) as [H16 Hgap].
  destruct (hard_total_length hand) as [Hlen Hnoace].
  destruct (Nat.eq_dec (ace_count hand) 0) as [Hz | Hnz].
  - specialize (Hnoace Hz). lia.
  - destruct (Hgap ltac:(lia)) as [H6 | H12]; [lia |].
    specialize (Hinv ltac:(lia) H12). lia.
Qed.

Lemma dealer_loop_enough (fuel : nat) :
  forall deck hand,
    past_the_gap hand ->
    (List.length hand <= 12)%nat ->
    (12 <= List.length deck + List.length hand)%nat ->
    (List.length deck < fuel)%nat ->
    exists hand' deck',
      dealer_loop fuel deck hand = Some (Ok (hand', deck')) /\
      (List.length hand' <= 12)%nat.
Proof.
  induction fuel as [| fuel IH]; intros deck hand Hinv Hlen Hsum Hfuel; [lia |].
  rewrite dealer_loop_unfold.
  destruct (Z.ltb_spec (score hand) 17) as [Hlow | Hhigh].
  - assert (Hm : (List.length hand <= 11)%nat)
      by (apply drawing_length; [lia | assumption]).
    destruct (pop deck) as [[c deck1] | e] eqn:Hpop.
    + pose proof (pop_length _ _ _ Hpop) as Hl.
      apply IH.
      * apply past_the_gap_step; [lia | assumption].
      * rewrite length_app. cbn [List.length]. lia.
      * rewrite length_app. cbn [List.length]. lia.
      * lia.
    + exfalso. destruct deck as [| x deck] using rev_ind.
      * cbn [List.length] in Hsum. lia.
      * rewrite pop_snoc in Hpop. discriminate.
  - exists hand, deck. split; [reflexivity | assumption].
Qed.

(** X5. A dealer who starts from two cards never holds more than twelve:
    with ten cards or more in the deck [dealer_turn] returns, without
    [IndexError], a hand of at most twelve cards. *)
Theorem X5_dealer_needs_ten_cards (deck hand : list card) :
  List.length hand = 2%nat -> (10 <= List.length deck)%nat ->
  exists hand' deck',
    dealer_turn deck hand = Some (Ok (hand', deck')) /\
    (List.length hand' <= 12)%nat.
Proof.
  intros H2 H10. apply dealer_loop_enough; try lia.
  apply past_the_gap_short. lia.
Qed.

(** Ten cards are needed: two aces, then four aces, a six, four aces and
    a five make a hand of twelve. *)
Lemma X5_dealer_needs_ten_cards_witness :
  exists hand' deck',
    dealer_turn
      [(R5, Hearts); (RA, Clubs); (RA, Clubs); (RA, Clubs); (RA, Clubs);
       (R6, Hearts); (RA, Spades); (RA, Spades); (RA, Spades); (RA, Spades)]
      [(RA, Hearts); (RA, Diamonds)] = Some (Ok (hand', deck')) /\
    List.length hand' = 12%nat /\ deck' = [].
Proof.
  destruct (X5_dealer_needs_ten_cards
              [(R5, Hearts); (RA, Clubs); (RA, Clubs); (RA, Clubs); (RA, Clubs);
               (R6, Hearts); (RA, Spades); (RA, Spades); (RA, Spades); (RA, Spades)]
              [(RA, Hearts); (RA, Diamonds)])
    as (hand' & deck' & Hrun & _); [reflexivity | simpl; lia |].
  exists hand', deck'. split; [exact Hrun |].
  vm_compute in Hrun. injection Hrun as <- <-. split; reflexivity.
Defined.

End DealerTurn.

(** ** The player's turn *)

Section PlayerTurn.

Import Blackjack.

(** X6. When [player_turn] returns, the hand is the old hand followed by
    the cards taken off the end of the deck, in the order taken; the
    unread lines are a suffix of the lines given, and no more cards were
    taken than lines read. The hand scored 21 or less before each card,
    and the action is "bust" exactly when the final hand scores above
    21: the player is stopped at the first bust and never before. *)
Theorem X6_player_turn_result (inputs : list string) :
  forall deck hand can_double action hand' deck' inputs',
    player_turn inputs deck hand can_double
      = Ok (action, hand', deck', inputs') ->
    exists drawn used,
      hand' = hand ++ drawn /\
      deck = deck' ++ rev drawn /\
      inputs = used ++ inputs' /\
      (List.length drawn <= List.length used)%nat /\
      (forall k, (k < List.length drawn)%nat ->
                 score (hand ++ firstn k drawn) <= 21) /\
      (action = "bust" <-> 21 < score hand').
Proof.
  induction inputs as [| choice inputs IH];
    intros deck hand can_double action hand' deck' inputs' Hrun;
    rewrite player_turn_unfold in Hrun;
    destruct (Z.gtb_spec (score hand) 21) as [Hbust | Hok].
  - injection Hrun as <- <- <- <-. exists [], [].
    rewrite !app_nil_r. repeat split; auto; try lia.
    intros k Hk. cbn in Hk. lia.
  - discriminate.
  - injection Hrun as <- <- <- <-. exists [], [].
    rewrite !app_nil_r. repeat split; auto; try lia.
    intros k Hk. cbn in Hk. lia.
  - destruct (str_in choice ["h"; "hit"]).
    + destruct (pop deck) as [[c deck1] | e] eqn:Hpop; [| discriminate].
      cbn [bind] in Hrun. apply pop_inv in Hpop. apply IH in Hrun.
      destruct Hrun as (drawn & used & -> & -> & -> & Hn & Hpre & Hact).
      exists (c :: drawn), (choice :: used).
      rewrite <- app_assoc in *. cbn [app] in *.
      split; [reflexivity |]. split.
      { subst deck. cbn [rev]. now rewrite app_assoc. }
      split; [reflexivity |]. split; [cbn [List.length]; lia |].
      split; [| exact Hact].
      intros [| k] Hk; cbn [firstn].
      * rewrite app_nil_r. lia.
      * specialize (Hpre k). rewrite <- app_assoc in Hpre. cbn [app] in Hpre.
        apply Hpre. cbn [List.length] in Hk. lia.
    + destruct (str_in choice ["s"; "stand"]).
      * injection Hrun as <- <- <- <-. exists [], [choice].
        rewrite !app_nil_r. cbn [app List.length].
        repeat split; auto; try lia; try discriminate.
      * destruct (str_in choice ["d"; "double"; "double down"]
                  && can_double && (List.length hand =? 2)%nat).
        -- injection Hrun as <- <- <- <-. exists [], [choice].
           rewrite !app_nil_r. cbn [app List.length].
           repeat split; auto; try lia; try discriminate.
        -- apply IH in Hrun.
           destruct Hrun as (drawn & used & -> & -> & -> & Hn & Hpre & Hact).
           exists drawn, (choice :: used).
           repeat split; auto; try apply Hact; cbn [List.length]; try lia.
Qed.

(** An unknown line is asked again; the hit that follows busts 10+6. *)
Lemma X6_player_turn_result_witness :
  exists drawn used,
    [(R10, Hearts); (R6, Clubs); (RK, Spades)]
      = [(R10, Hearts); (R6, Clubs)] ++ drawn /\
    ["what"; "hit"; "s"] = used ++ ["s"] /\
    ("bust" = "bust" <-> 21 < score [(R10, Hearts); (R6, Clubs); (RK, Spades)]).
Proof.
  destruct (X6_player_turn_result ["what"; "hit"; "s"]
              [(R2, Clubs); (RK, Spades)] [(R10, Hearts); (R6, Clubs)] true
              "bust" [(R10, Hearts); (R6, Clubs); (RK, Spades)] [(R2, Clubs)]
              ["s"] eq_refl)
    as (drawn & used & Hhand & _ & Hin & _ & _ & Hact).
  exists drawn, used. split; [exact Hhand |]. split; [exact Hin | exact Hact].
Defined.

(** X7. [player_turn] fails in two ways only: the input ends while the
    player is still to choose ([EOFError]), or a hit finds the deck
    empty ([IndexError], from [deck.pop()]). *)
Theorem X7_player_turn_raises (inputs : list string) :
  forall deck hand can_double e,
    player_turn inputs deck hand can_double = Raise e ->
    e = EOFError \/ e = IndexError "pop from empty list".
Proof.
  induction inputs as [| choice inputs IH]; intros deck hand can_double e Hrun;
    rewrite player_turn_unfold in Hrun;
    destruct (score hand >? 21); try discriminate.
  - injection Hrun as <-. now left.
  - destruct (str_in choice ["h"; "hit"]).
    + unfold pop in Hrun. destruct (rev deck) as [| c r].
      * injection Hrun as <-. now right.
      * cbn [bind] in Hrun. eapply IH. exact Hrun.
    + destruct (str_in choice ["s"; "stand"]); [discriminate |].
      destruct (str_in choice ["d"; "double"; "double down"]
                && can_double && (List.length hand =? 2)%nat); [discriminate |].
      eapply IH. exact Hrun.
Qed.

Lemma X7_player_turn_raises_witness :
  player_turn ["h"; "h"] [(R2, Clubs)] [(R2, Hearts); (R3, Clubs)] true
    = Raise (IndexError "pop from empty list") /\
  (IndexError "pop from empty list" = EOFError \/
   IndexError "pop from empty list" = IndexError "pop from empty list").
Proof.
  split; [reflexivity |].
  apply (X7_player_turn_raises ["h"; "h"] [(R2, Clubs)]
           [(R2, Hearts); (R3, Clubs)] true).
  reflexivity.
Defined.

End PlayerTurn.

(** ** A round of the 21-style game *)

Section BlackjackRound.

Import Blackjack.

Lemma add_net_settled (player dealer : list card) (bet balance : PyFloat.float) :
  exists balance', add_net balance (settle_bet player dealer bet) = Ok balance'.
Proof.
  rewrite settle_bet_unfold.
  repeat match goal with
         | |- context [if ?c then _ else _] => destruct c
         end; eexists; reflexivity.
Qed.

Lemma finish_settled (player dealer ph dh : list card)
    (bet balance : PyFloat.float) (deck : list card) (inputs : list string) :
  exists out,
    finish ph dh bet balance (settle_bet player dealer bet) deck inputs = Ok out.
Proof.
  unfold finish. destruct (add_net_settled player dealer bet balance) as [b ->].
  eexists. reflexivity.
Qed.

Lemma pop_four_cards (rest : list card) (d2 d1 p2 p1 : card) :
  ('(x1, deck) <- pop (rest ++ [d2; d1; p2; p1]) ;;
   '(x2, deck) <- pop deck ;;
   '(y1, deck) <- pop deck ;;
   '(y2, deck) <- pop deck ;;
   Ok ([x1; x2], [y1; y2], deck))
  = Ok ([p1; p2], [d1; d2], rest).
Proof.
  destruct rest as [| c rest] using rev_ind.
  - reflexivity.
  - rewrite <- app_assoc. cbn [app]. apply pop_four.
Qed.

Lemma two_card_score (c1 c2 : card) : score [c1; c2] <= 21.
Proof.
  destruct (score_hard_total [c1; c2]) as (k & _ & Hv & [H21 | ->] & _);
    [exact H21 |].
  rewrite Hv. unfold hard_total.
  destruct c1 as [[] s1], c2 as [[] s2]; cbv; discriminate.
Qed.

(** A round on a deck of fifteen cards or more, the four cards on top
    named. *)
Lemma play_round_dealt (fresh rest : list card) (d2 d1 p2 p1 : card)
    (bet balance : PyFloat.float) (inputs : list string) :
  (15 <= List.length (rest ++ [d2; d1; p2; p1]))%nat ->
  play_round fresh (Some bet) inputs (rest ++ [d2; d1; p2; p1]) balance =
  if is_blackjack [p1; p2] || is_blackjack [d1; d2] then
    Some (finish [p1; p2] [d1; d2] bet balance
            (settle_bet [p1; p2] [d1; d2] bet) rest inputs)
  else
    match player_turn inputs rest [p1; p2] true with
    | Raise e => Some (Raise e)
    | Ok (action, player_hand, deck, inputs) =>
        if action ==? "bust" then
          Some (finish player_hand [d1; d2] bet balance
                  (PyFloat (PyFloat.neg bet)) deck inputs)
        else if action ==? "double" then
          match double_down deck player_hand bet balance with
          | Raise e => Some (Raise e)
          | Ok (player_hand, bet, balance, deck) =>
              if fst (hand_value player_hand) >? 21 then
                Some (finish player_hand [d1; d2] bet balance
                        (PyFloat (PyFloat.neg bet)) deck inputs)
              else showdown deck player_hand [d1; d2] bet balance inputs
          end
        else showdown deck player_hand [d1; d2] bet balance inputs
    end.
Proof.
  intros Hlen. unfold play_round.
  destruct (Nat.ltb_spec (List.length (rest ++ [d2; d1; p2; p1])) 15); [lia |].
  rewrite pop_four_cards. reflexivity.
Qed.

(** X8. Naturals end the round at the deal. The player gets the deck's
    last two cards and the dealer the two before them; when either hand
    is an ace with a ten-valued card, the round is settled on those four
    cards, no line of input is read and no other card leaves the deck.
    The net is 1.5 times the bet for the player's natural alone, the int
    0 when both have one, and minus the bet for the dealer's alone. *)
Theorem X8_play_round_naturals (fresh rest : list card) (d2 d1 p2 p1 : card)
    (bet balance : PyFloat.float) (inputs : list string) :
  (15 <= List.length (rest ++ [d2; d1; p2; p1]))%nat ->
  natural [p1; p2] \/ natural [d1; d2] ->
  exists out,
    play_round fresh (Some bet) inputs (rest ++ [d2; d1; p2; p1]) balance
      = Some (Ok out) /\
    deck_left out = rest /\ inputs_left out = inputs /\
    exists net,
      result_shown out = Some (mkShown [p1; p2] [d1; d2] bet net) /\
      add_net balance net = Ok (ret_balance out) /\
      (natural [p1; p2] -> ~ natural [d1; d2] ->
         net = PyFloat (PyFloat.mul bet PyFloat.lit_1_5)) /\
      (natural [p1; p2] -> natural [d1; d2] -> net = PyInt 0) /\
      (~ natural [p1; p2] -> natural [d1; d2] ->
         net = PyFloat (PyFloat.neg bet)).
Proof.
  intros Hlen Hnat. rewrite play_round_dealt by assumption.
  assert (Hbj : is_blackjack [p1; p2] || is_blackjack [d1; d2] = true).
  { apply orb_true_iff. rewrite !is_blackjack_spec. exact Hnat. }
  rewrite Hbj. unfold finish.
  destruct (add_net_settled [p1; p2] [d1; d2] bet balance) as [b Hb].
  rewrite Hb. cbn [bind]. eexists. split; [reflexivity |].
  cbn [deck_left inputs_left result_shown ret_balance].
  split; [reflexivity |]. split; [reflexivity |].
  eexists. split; [reflexivity |]. split; [exact Hb |].
  rewrite settle_bet_unfold.
  pose proof (is_blackjack_spec [p1; p2]) as Hp.
  pose proof (is_blackjack_spec [d1; d2]) as Hd.
  pose proof (two_card_score p1 p2) as Hp21.
  destruct (is_blackjack [p1; p2]) eqn:Ep, (is_blackjack [d1; d2]) eqn:Ed;
    cbn [andb negb]; try discriminate Hbj.
  - assert (natural [d1; d2]) by (now apply Hd).
    assert (natural [p1; p2]) by (now apply Hp).
    repeat split; intros; try reflexivity; contradiction.
  - assert (~ natural [d1; d2]) by (rewrite <- Hd; congruence).
    repeat split; intros; try reflexivity; contradiction.
  - assert (Hnp : ~ natural [p1; p2]) by (rewrite <- Hp; congruence).
    assert (Hd21 : score [d1; d2] = 21) by (apply Hd; reflexivity).
    assert (Hne : score [p1; p2] <> 21).
    { intros H21. apply Hnp. split; [exact H21 | reflexivity]. }
    destruct (Z.gtb_spec (score [p1; p2]) 21); [lia |].
    destruct (Z.gtb_spec (score [d1; d2]) 21); [lia |].
    destruct (Z.gtb_spec (score [p1; p2]) (score [d1; d2])); [lia |].
    destruct (Z.ltb_spec (score [p1; p2]) (score [d1; d2])); [| lia].
    repeat split; intros; try reflexivity; contradiction.
Qed.

(** The dealer's natural against 10+9: the bet is lost at the deal. *)
Lemma X8_play_round_naturals_witness :
  exists out,
    play_round [] (Some (PyFloat.dyadic 10 0)) ["h"]
      ((filler ++ [(R4, Hearts)])
         ++ [(RA, Spades); (RK, Diamonds); (R9, Hearts); (R10, Hearts)])
      (PyFloat.dyadic 100 0) = Some (Ok out) /\
    deck_left out = filler ++ [(R4, Hearts)] /\
    inputs_left out = ["h"] /\
    ret_balance out = PyFloat.dyadic 90 0.
Proof.
  destruct (X8_play_round_naturals [] (filler ++ [(R4, Hearts)])
              (RA, Spades) (RK, Diamonds) (R9, Hearts) (R10, Hearts)
              (PyFloat.dyadic 10 0) (PyFloat.dyadic 100 0) ["h"])
    as (out & Hrun & Hdeck & Hin & _).
  - simpl. lia.
  - right. split; reflexivity.
  - exists out. split; [exact Hrun |]. split; [exact Hdeck |].
    split; [exact Hin |].
    vm_compute in Hrun. injection Hrun as <-. reflexivity.
Defined.

Lemma showdown_enough (deck player dealer : list card)
    (bet balance : PyFloat.float) (inputs : list string) :
  List.length dealer = 2%nat -> (10 <= List.length deck)%nat ->
  exists out, showdown deck player dealer bet balance inputs = Some (Ok out).
Proof.
  intros H2 H10. unfold showdown, dealer_turn.
  destruct (dealer_loop_enough (S (List.length deck)) deck dealer)
    as (h & d & -> & _); try lia.
  { apply past_the_gap_short. lia. }
  destruct (finish_settled player h player h bet balance d inputs) as [out ->].
  now exists out.
Qed.

(** X9. A round cannot run out of cards once the player's turn leaves
    ten of them, and one more for the card of a double: on a deck of
    fifteen cards or more, if the player's turn returns with that many
    cards left, [play_round] returns a result, with no [IndexError]. *)
Theorem X9_play_round_enough_cards (fresh rest : list card)
    (d2 d1 p2 p1 : card) (bet balance : PyFloat.float)
    (inputs inputs' : list string) (action : string)
    (hand deck' : list card) :
  (15 <= List.length (rest ++ [d2; d1; p2; p1]))%nat ->
  player_turn inputs rest [p1; p2] true = Ok (action, hand, deck', inputs') ->
  (10 + (if action ==? "double" then 1 else 0) <= List.length deck')%nat ->
  exists out,
    play_round fresh (Some bet) inputs (rest ++ [d2; d1; p2; p1]) balance
      = Some (Ok out).
Proof.
  intros Hlen Hturn Hcards. rewrite play_round_dealt by assumption.
  destruct (is_blackjack [p1; p2] || is_blackjack [d1; d2]).
  { destruct (finish_settled [p1; p2] [d1; d2] [p1; p2] [d1; d2] bet balance
                rest inputs) as [out ->]. now exists out. }
  rewrite Hturn.
  destruct (action ==? "bust").
  { unfold finish, add_net. cbn [bind]. eexists. reflexivity. }
  destruct (action ==? "double").
  - unfold double_down.
    destruct deck' as [| c deck'] using rev_ind; [cbn in Hcards; lia |].
    rewrite length_app in Hcards. cbn [List.length] in Hcards.
    rewrite pop_snoc. cbn [bind].
    destruct (PyFloat.gtb (PyFloat.mul bet PyFloat.lit_2) balance);
      (destruct (fst (hand_value (hand ++ [c])) >? 21);
       [unfold finish, add_net; cbn [bind]; eexists; reflexivity
       | apply showdown_enough; [reflexivity | lia]]).
  - apply showdown_enough; [reflexivity | lia].
Qed.

Lemma X9_play_round_enough_cards_witness :
  exists out,
    play_round [] (Some (PyFloat.dyadic 10 0)) ["h"; "s"]
      ((filler ++ [(R4, Hearts); (R5, Hearts)])
         ++ [(R7, Spades); (RK, Diamonds); (R6, Hearts); (R8, Hearts)])
      (PyFloat.dyadic 100 0) = Some (Ok out).
Proof.
  apply (X9_play_round_enough_cards [] (filler ++ [(R4, Hearts); (R5, Hearts)])
           (R7, Spades) (RK, Diamonds) (R6, Hearts) (R8, Hearts)
           (PyFloat.dyadic 10 0) (PyFloat.dyadic 100 0) ["h"; "s"] []
           "stand" [(R8, Hearts); (R6, Hearts); (R5, Hearts)]
           (filler ++ [(R4, Hearts)])).
  - simpl. lia.
  - reflexivity.
  - simpl. lia.
Defined.

End BlackjackRound.

(** ** The cards a deck and a shoe are made of *)

Section Cards.

Lemma list_copies_length {A : Type} (l : list A) (n : nat) :
  List.length (list_copies l n) = (n * List.length l)%nat.
Proof.
  induction n as [| n IH]; [reflexivity |].
  cbn [list_copies]. rewrite length_app, IH. lia.
Qed.

Lemma list_copies_count {A : Type} (dec : forall x y : A, {x = y} + {x <> y})
    (l : list A) (n : nat) (x : A) :
  count_occ dec (list_copies l n) x = (n * count_occ dec l x)%nat.
Proof.
  induction n as [| n IH]; [reflexivity |].
  cbn [list_copies]. rewrite count_occ_app, IH. lia.
Qed.

(** X10. A deck of the 21-style game holds every card of the 52, each
    rank in each suit, once per deck asked for, and nothing else: 52
    cards per deck, and no card at all for a count of zero or less. *)
Theorem X10_create_deck_contents (num_decks : Z) (deck : list Blackjack.card) :
  Blackjack.create_deck num_decks deck ->
  Z.of_nat (List.length deck) = 52 * Z.max 0 num_decks /\
  (forall c, Z.of_nat (count_occ card_eq_dec deck c) = Z.max 0 num_decks) /\
  (num_decks <= 0 -> deck = []).
Proof.
  unfold Blackjack.create_deck, Blackjack.deck_in_order, list_mul.
  intros Hperm.
  assert (Hlen : List.length deck = (Z.to_nat num_decks * 52)%nat).
  { rewrite <- (Permutation_length Hperm), list_copies_length. reflexivity. }
  split; [lia |]. split.
  - intros c.
    rewrite <- (proj1 (Permutation_count_occ card_eq_dec _ _) Hperm c).
    rewrite list_copies_count.
    replace (count_occ card_eq_dec Blackjack.deck_of_52 c) with 1%nat
      by (destruct c as [[] []]; reflexivity).
    lia.
  - intros Hd. apply length_zero_iff_nil. lia.
Qed.

Lemma X10_create_deck_contents_witness :
  Z.of_nat (List.length (Blackjack.deck_in_order 6)) = 52 * Z.max 0 6 /\
  Z.of_nat (count_occ card_eq_dec (Blackjack.deck_in_order 6)
              (RA, Blackjack.Spades)) = Z.max 0 6.
Proof.
  destruct (X10_create_deck_contents 6 (Blackjack.deck_in_order 6)
              (Permutation_refl _)) as (Hlen & Hcount & _).
  split; [exact Hlen | apply Hcount].
Defined.

(** X11. A shoe of the modulo-10 game holds each of the thirteen ranks
    four times per deck and nothing else: 52 cards per deck (416 for the
    eight decks of [DECKS]), and no card for a count of zero or less. *)
Theorem X11_create_shoe_contents (decks : Z) (shoe : list rank) :
  Baccarat.create_shoe decks shoe ->
  Z.of_nat (List.length shoe) = 52 * Z.max 0 decks /\
  (forall r, Z.of_nat (count_occ rank_eq_dec shoe r) = 4 * Z.max 0 decks) /\
  (decks <= 0 -> shoe = []).
Proof.
  unfold Baccarat.create_shoe, Baccarat.shoe_in_order, list_mul.
  intros Hperm.
  assert (Hlen : List.length shoe = (Z.to_nat decks * 52)%nat).
  { rewrite <- (Permutation_length Hperm), list_copies_length. reflexivity. }
  split; [lia |]. split.
  - intros r.
    rewrite <- (proj1 (Permutation_count_occ rank_eq_dec _ _) Hperm r).
    rewrite list_copies_count.
    replace (count_occ rank_eq_dec (list_copies Baccarat.ranks (Z.to_nat 4)) r)
      with 4%nat by (destruct r; reflexivity).
    lia.
  - intros Hd. apply length_zero_iff_nil. lia.
Qed.

Lemma X11_create_shoe_contents_witness :
  Z.of_nat (List.length (Baccarat.shoe_in_order Baccarat.DECKS)) = 416 /\
  Z.of_nat (count_occ rank_eq_dec (Baccarat.shoe_in_order Baccarat.DECKS) R10)
    = 32.
Proof.
  destruct (X11_create_shoe_contents Baccarat.DECKS
              (Baccarat.shoe_in_order Baccarat.DECKS) (Permutation_refl _))
    as (Hlen & Hcount & _).
  split; [exact Hlen | apply Hcount].
Defined.

End Cards.

(** * Further properties of baccarat.py *)

(** ** What a round does to the shoe *)

Section BaccaratOutcomes.

Import Baccarat.

Lemma hand_total_range (hand : list rank) : 0 <= hand_total hand <= 9.
Proof.
  rewrite hand_total_value_sum.
  pose proof (Z.mod_pos_bound (value_sum hand) 10). lia.
Qed.

Lemma higher_total_target (p b : Z) : bet_target (higher_total p b).
Proof.
  unfold higher_total, bet_target.
  destruct (p >? b); [now left |]. destruct (b >? p); [right; now left |].
  right; now right.
Qed.

(** The third-card phase on a shoe: what it takes and what it leaves. *)
Lemma third_cards_spec (shoe player banker : list rank) (p b : Z) :
  match third_cards shoe player banker p b with
  | Ok (player', banker', pt, bt, shoe') =>
      player' = player ++ third_as_list pt /\
      banker' = banker ++ third_as_list bt /\
      shoe = third_as_list pt ++ third_as_list bt ++ shoe'
  | Raise e =>
      (List.length shoe < 2)%nat /\
      e = ValueError "The shoe is empty. Should reshuffle before drawing."
  end.
Proof.
  unfold third_cards.
  destruct (player_draws p).
  - destruct shoe as [| c5 shoe]; cbn [draw bind];
      [split; [cbn; lia | reflexivity] |].
    destruct (banker_draws b (Some c5)).
    + destruct shoe as [| c6 shoe]; cbn [draw bind];
        [split; [cbn; lia | reflexivity] |].
      cbn [third_as_list]. repeat split.
    + cbn [bind third_as_list]. rewrite app_nil_r. repeat split.
  - cbn [bind]. destruct (banker_draws b None).
    + destruct shoe as [| c5 shoe]; cbn [draw bind];
        [split; [cbn; lia | reflexivity] |].
      cbn [third_as_list]. rewrite app_nil_r. repeat split.
    + cbn [bind third_as_list]. rewrite !app_nil_r. repeat split.
Qed.

Lemma play_round_unfold (c1 c2 c3 c4 : rank) (rest : list rank) :
  play_round (c1 :: c2 :: c3 :: c4 :: rest) =
  '(player, banker, player_third, banker_third, shoe) <-
    (if is_natural (hand_total [c1; c2]) || is_natural (hand_total [c3; c4])
     then Ok ([c1; c2], [c3; c4], None, None, rest)
     else third_cards rest [c1; c2] [c3; c4]
            (hand_total [c1; c2]) (hand_total [c3; c4])) ;;
  Ok (mkRound player banker (hand_total player) (hand_total banker)
        (higher_total (hand_total player) (hand_total banker))
        player_third banker_third, shoe).
Proof. reflexivity. Qed.

Lemma third_card_perm (c3 c4 : rank) (pt : option rank) (tail : list rank) :
  Permutation (c3 :: c4 :: third_as_list pt ++ tail)
    (third_as_list pt ++ c3 :: c4 :: tail).
Proof.
  destruct pt as [p |]; cbn [third_as_list app]; [| apply Permutation_refl].
  apply Permutation_sym. exact (Permutation_middle [c3; c4] tail p).
Qed.

(** A round that returns: where its cards came from. *)
Lemma play_round_ok (shoe : list rank) (r : round) (shoe' : list rank) :
  play_round shoe = Ok (r, shoe') ->
  shoe = firstn 2 (player_hand r) ++ firstn 2 (banker_hand r)
           ++ third_as_list (player_third r)
           ++ third_as_list (banker_third r) ++ shoe' /\
  player_hand r = firstn 2 (player_hand r) ++ third_as_list (player_third r) /\
  banker_hand r = firstn 2 (banker_hand r) ++ third_as_list (banker_third r) /\
  List.length (firstn 2 (player_hand r)) = 2%nat /\
  List.length (firstn 2 (banker_hand r)) = 2%nat /\
  player_total r = hand_total (player_hand r) /\
  banker_total r = hand_total (banker_hand r) /\
  winner r = higher_total (player_total r) (banker_total r).
Proof.
  destruct shoe as [| c1 [| c2 [| c3 [| c4 rest]]]]; try discriminate.
  rewrite play_round_unfold.
  pose proof (third_cards_spec rest [c1; c2] [c3; c4]
                (hand_total [c1; c2]) (hand_total [c3; c4])) as Hthird.
  destruct (is_natural (hand_total [c1; c2]) || is_natural (hand_total [c3; c4])).
  - cbn [bind]. intros H. injection H as <- <-.
    cbn [player_hand banker_hand player_third banker_third player_total
         banker_total winner third_as_list firstn app List.length].
    repeat split.
  - destruct (third_cards rest [c1; c2] [c3; c4] (hand_total [c1; c2])
                (hand_total [c3; c4]))
      as [[[[[ph bh] pt] bt] shoe1] | e]; cbn [bind]; [| discriminate].
    destruct Hthird as (-> & -> & Hrest).
    intros H. injection H as <- <-.
    cbn [player_hand banker_hand player_third banker_third player_total
         banker_total winner firstn app List.length].
    rewrite Hrest. repeat split.
Qed.

(** A round that raises: the shoe was under the reshuffle threshold. *)
Lemma play_round_raise (shoe : list rank) (e : exn) :
  play_round shoe = Raise e ->
  (List.length shoe < RESHUFFLE_THRESHOLD)%nat /\
  e = ValueError "The shoe is empty. Should reshuffle before drawing.".
Proof.
  destruct shoe as [| c1 [| c2 [| c3 [| c4 rest]]]];
    try (intros H; injection H as <-;
         split; [unfold RESHUFFLE_THRESHOLD; cbn; lia | reflexivity]).
  rewrite play_round_unfold.
  pose proof (third_cards_spec rest [c1; c2] [c3; c4]
                (hand_total [c1; c2]) (hand_total [c3; c4])) as Hthird.
  destruct (is_natural (hand_total [c1; c2]) || is_natural (hand_total [c3; c4]));
    [discriminate |].
  destruct (third_cards rest [c1; c2] [c3; c4] (hand_total [c1; c2])
              (hand_total [c3; c4]))
    as [[[[[ph bh] pt] bt] shoe1] | e']; cbn [bind]; [discriminate |].
  destruct Hthird as [Hshort ->]. intros H. injection H as <-.
  split; [unfold RESHUFFLE_THRESHOLD; cbn [List.length]; lia | reflexivity].
Qed.

(** X12. A round takes its cards off the front of the shoe and loses
    none: the shoe it was given is the player's two cards, the banker's
    two, the third cards if drawn (the player's first) and the shoe it
    leaves; the two hands and the shoe left hold the cards of the shoe
    given. Each hand has two or three cards, the totals are digits and
    the winner is one of player, banker and tie. The only exception is
    the [ValueError] of an empty shoe, and only a shoe under the
    reshuffle threshold can raise it; a shoe under four cards does. *)
Theorem X12_play_round_outcomes (shoe : list rank) :
  (forall r shoe',
      play_round shoe = Ok (r, shoe') ->
      shoe = firstn 2 (player_hand r) ++ firstn 2 (banker_hand r)
               ++ third_as_list (player_third r)
               ++ third_as_list (banker_third r) ++ shoe' /\
      Permutation shoe (player_hand r ++ banker_hand r ++ shoe') /\
      (2 <= List.length (player_hand r) <= 3)%nat /\
      (2 <= List.length (banker_hand r) <= 3)%nat /\
      0 <= player_total r <= 9 /\ 0 <= banker_total r <= 9 /\
      bet_target (winner r)) /\
  (forall e,
      play_round shoe = Raise e ->
      (List.length shoe < RESHUFFLE_THRESHOLD)%nat /\
      e = ValueError "The shoe is empty. Should reshuffle before drawing.") /\
  ((List.length shoe < 4)%nat -> exists e, play_round shoe = Raise e).
Proof.
  split; [| split].
  - intros r shoe' Hrun.
    destruct (play_round_ok shoe r shoe' Hrun)
      as (Hshoe & Hp & Hb & Hp2 & Hb2 & Hpt & Hbt & Hw).
    split; [exact Hshoe |]. split.
    { rewrite Hshoe at 1. rewrite Hp at 2. rewrite Hb at 2.
      rewrite <- !app_assoc. apply Permutation_app_head.
      destruct (firstn 2 (banker_hand r)) as [| c3 [| c4 [| c l]]];
        try discriminate Hb2.
      cbn [app]. apply third_card_perm. }
    split; [rewrite Hp, length_app, Hp2;
            destruct (player_third r); cbn; lia |].
    split; [rewrite Hb, length_app, Hb2;
            destruct (banker_third r); cbn; lia |].
    rewrite Hpt, Hbt, Hw.
    split; [apply hand_total_range |]. split; [apply hand_total_range |].
    apply higher_total_target.
  - apply play_round_raise.
  - intros Hshort.
    destruct shoe as [| c1 [| c2 [| c3 [| c4 rest]]]];
      try (eexists; reflexivity).
    cbn [List.length] in Hshort. lia.
Qed.

(** 2+3 against 7+6: both draw, the player's third card first. *)
Lemma X12_play_round_outcomes_witness :
  [R2; R3; R7; R6; RK; R4; RA]
    = firstn 2 [R2; R3; RK] ++ firstn 2 [R7; R6; R4]
        ++ third_as_list (Some RK) ++ third_as_list (Some R4) ++ [RA] /\
  Permutation [R2; R3; R7; R6; RK; R4; RA]
    ([R2; R3; RK] ++ [R7; R6; R4] ++ [RA]).
Proof.
  destruct (X12_play_round_outcomes [R2; R3; R7; R6; RK; R4; RA])
    as (Hok & _ & _).
  destruct (Hok (mkRound [R2; R3; RK] [R7; R6; R4] 5 7 "banker"
                   (Some RK) (Some R4)) [RA] eq_refl)
    as (Hshoe & Hperm & _).
  split; [exact Hshoe | exact Hperm].
Defined.

Lemma play_round_natural (c1 c2 c3 c4 : rank) (rest : list rank) :
  is_natural (hand_total [c1; c2]) || is_natural (hand_total [c3; c4]) = true ->
  play_round (c1 :: c2 :: c3 :: c4 :: rest) =
  Ok (mkRound [c1; c2] [c3; c4] (hand_total [c1; c2]) (hand_total [c3; c4])
        (higher_total (hand_total [c1; c2]) (hand_total [c3; c4])) None None,
      rest).
Proof. intros H. rewrite play_round_unfold, H. reflexivity. Qed.

(** X13. A two-card nine never loses: when the first two cards of
    either side total 9 the round ends on the four cards dealt, the side
    with the nine does not lose, and the round is a tie exactly when the
    other side has nine too. *)
Theorem X13_natural_nine_never_loses (c1 c2 c3 c4 : rank) (rest : list rank) :
  hand_total [c1; c2] = 9 \/ hand_total [c3; c4] = 9 ->
  exists r,
    play_round (c1 :: c2 :: c3 :: c4 :: rest) = Ok (r, rest) /\
    player_hand r = [c1; c2] /\ banker_hand r = [c3; c4] /\
    (hand_total [c1; c2] = 9 -> winner r <> "banker") /\
    (hand_total [c3; c4] = 9 -> winner r <> "player") /\
    (winner r = "tie" <-> hand_total [c1; c2] = hand_total [c3; c4]).
Proof.
  intros Hnine.
  pose proof (hand_total_range [c1; c2]) as Hp.
  pose proof (hand_total_range [c3; c4]) as Hb.
  rewrite play_round_natural.
  2:{ apply orb_true_iff. rewrite !is_natural_spec. lia. }
  eexists. split; [reflexivity |].
  cbn [player_hand banker_hand winner].
  split; [reflexivity |]. split; [reflexivity |].
  unfold higher_total.
  destruct (Z.gtb_spec (hand_total [c1; c2]) (hand_total [c3; c4]));
    destruct (Z.gtb_spec (hand_total [c3; c4]) (hand_total [c1; c2]));
    repeat split; intros; try discriminate; try lia; try reflexivity.
Qed.

Lemma X13_natural_nine_never_loses_witness :
  exists r,
    play_round [R4; R5; RK; R3; R8] = Ok (r, [R8]) /\
    player_hand r = [R4; R5] /\ banker_hand r = [RK; R3] /\
    winner r <> "banker".
Proof.
  destruct (X13_natural_nine_never_loses R4 R5 RK R3 [R8])
    as (r & Hrun & Hp & Hb & Hwin & _); [left; reflexivity |].
  exists r. split; [exact Hrun |]. split; [exact Hp |]. split; [exact Hb |].
  apply Hwin. reflexivity.
Defined.

End BaccaratOutcomes.

(** ** The banker's commission *)

Section Commission.

Import Baccarat.

(** X14. What the 5% commission comes to on whole amounts. For a bet
    [a] on banker with 0 < a < 2^48, a banker win pays a whole number
    [v] with 0 < v <= a, within half a unit of 19a/20; no commission at
    all is taken ([v = a]) exactly on the bets of 10 or less. *)
Theorem X14_banker_commission (a : Z) :
  0 < a < 2 ^ 48 ->
  exists v,
    settle_bet "banker" a "banker" = Ok v /\
    0 < v <= a /\
    (v = a <-> a <= 10) /\
    -10 <= 20 * v - 19 * a <= 10.
Proof.
  intros Ha. rewrite banker_win_payout by assumption.
  eexists. split; [reflexivity |].
  unfold nearest_ties_even.
  pose proof (Z.div_mod (19 * a) 20 ltac:(lia)) as Hdm.
  pose proof (Z.mod_pos_bound (19 * a) 20 ltac:(lia)) as Hr.
  set (Q := 19 * a / 20) in *. set (R := (19 * a) mod 20) in *.
  destruct (Z.compare_spec (2 * R) 20) as [Heq | Hlt | Hgt].
  - destruct (Z.even Q) eqn:Epar.
    + apply Z.even_spec in Epar. destruct Epar as [k Hk]. lia.
    + assert (Hodd : Z.odd Q = true) by (rewrite <- Z.negb_even, Epar; reflexivity).
      apply Z.odd_spec in Hodd. destruct Hodd as [k Hk]. lia.
  - lia.
  - lia.
Qed.

Lemma X14_banker_commission_witness :
  exists v, settle_bet "banker" 10 "banker" = Ok v /\ (v = 10 <-> 10 <= 10).
Proof.
  destruct (X14_banker_commission 10) as (v & Hrun & _ & Hfree & _);
    [split; [lia | reflexivity] |].
  exists v. split; [exact Hrun | exact Hfree].
Defined.

End Commission.

(** ** Signs through the float product *)

Section Signs.

Lemma round_half_even_nonneg (m e : Z) :
  0 <= m -> 0 <= PyFloat.round_half_even m e.
Proof.
  intros Hm. unfold PyFloat.round_half_even.
  destruct (Z.leb_spec 0 e).
  - apply Z.mul_nonneg_nonneg; [assumption | apply Z.pow_nonneg; lia].
  - assert (HP : 0 < 2 ^ (- e)) by (apply Z.pow_pos_nonneg; lia).
    pose proof (Z.div_pos m (2 ^ (- e)) Hm HP).
    cbv zeta. destruct (_ ?= _); [destruct (Z.even _) | |]; lia.
Qed.

Lemma shr_nonneg (m e n : Z) :
  0 <= m ->
  0 <= round_nearest_even
         (shr_m (fst (shr (Build_shr_record m false false) e n)))
         (loc_of_shr_record (fst (shr (Build_shr_record m false false) e n))) /\
  0 <= shr_m (fst (shr (Build_shr_record m false false) e n)).
Proof.
  intros Hm. destruct n as [| p | p]; cbn [shr fst shr_m loc_of_shr_record
                                           round_nearest_even]; try lia.
  change (iter_pos shr_1 p {| shr_m := m; shr_r := false; shr_s := false |})
    with (fst (shr (Build_shr_record m false false) e (Zpos p))).
  rewrite shr_shifted by lia. cbn [fst]. split.
  - rewrite round_shifted by lia. now apply round_half_even_nonneg.
  - unfold shifted. cbn [shr_m]. apply Z.div_pos; [assumption |].
    apply Z.pow_pos_nonneg; lia.
Qed.

(** Rounding a positive mantissa keeps the sign and makes no NaN. *)
Lemma binary_round_aux_sign (sx : bool) (m : positive) (e : Z) :
  match binary_round_aux 53 1024 sx (Zpos m) e loc_Exact with
  | S754_zero s | S754_infinity s | S754_finite s _ _ => s = sx
  | S754_nan => False
  end.
Proof.
  unfold binary_round_aux, shr_fexp. cbn [shr_record_of_loc].
  set (n1 := fexp 53 1024 (Zdigits2 (Zpos m) + e) - e).
  pose proof (shr_nonneg (Zpos m) e n1 ltac:(lia)) as [H1 _].
  destruct (shr (Build_shr_record (Zpos m) false false) e n1) as [mrs1 e1].
  cbn [fst] in H1.
  set (m1 := round_nearest_even (shr_m mrs1) (loc_of_shr_record mrs1)) in *.
  set (n2 := fexp 53 1024 (Zdigits2 m1 + e1) - e1).
  pose proof (shr_nonneg m1 e1 n2 H1) as [_ H2].
  destruct (shr (Build_shr_record m1 false false) e1 n2) as [mrs2 e2].
  cbn [fst] in H2.
  destruct (shr_m mrs2) as [| p | p]; [reflexivity | | lia].
  destruct (e2 <=? 1024 - 53); reflexivity.
Qed.

Lemma binary_round_sign (sx : bool) (m : positive) (e : Z) :
  match binary_round 53 1024 sx m e with
  | S754_zero s | S754_infinity s | S754_finite s _ _ => s = sx
  | S754_nan => False
  end.
Proof.
  unfold binary_round.
  destruct (shl_align m e (fexp 53 1024 (Zpos (digits2_pos m) + e))) as [mz ez].
  apply binary_round_aux_sign.
Qed.

(** A winning bet on banker: a positive amount is never paid a negative
    number, and the only exception there is is [OverflowError]. *)
Lemma banker_win_outcomes (a : Z) :
  0 < a ->
  match Baccarat.settle_bet "banker" a "banker" with
  | Ok v => 0 <= v
  | Raise e => exists msg, e = OverflowError msg
  end.
Proof.
  intros Ha. unfold Baccarat.settle_bet. cbn [String.eqb Ascii.eqb Bool.eqb].
  destruct a as [| pa | pa]; try lia.
  unfold PyFloat.of_int, PyFloat.prec, PyFloat.emax. cbn [binary_normalize].
  pose proof (binary_round_sign false pa 0) as Hs.
  destruct (binary_round 53 1024 false pa 0) as [s | s | | s m e];
    cbn [bind]; try contradiction; subst.
  - cbn. lia.
  - eexists. reflexivity.
  - unfold PyFloat.mul, PyFloat.lit_0_95, PyFloat.prec, PyFloat.emax, SFmul.
    cbn [xorb].
    pose proof (binary_round_aux_sign false (m * 8556839292003942) (e + -53)) as Hm.
    destruct (binary_round_aux 53 1024 false (Zpos (m * 8556839292003942))
                (e + -53) loc_Exact) as [s | s | | s m2 e2];
      cbn [PyFloat.round]; try contradiction; subst.
    + lia.
    + eexists. reflexivity.
    + cbn [cond_Zopp]. apply round_half_even_nonneg. lia.
Qed.

End Signs.

(** ** The prompts and the bankroll of [main] *)

Section Table.

Import Baccarat.

Variables strip lower : string -> string.
Variable py_int : string -> option Z.

Lemma mapping_targets (choice bet_type : string) :
  dict_get choice mapping = Some bet_type -> bet_target bet_type.
Proof.
  unfold mapping, bet_target. cbn [dict_get].
  repeat match goal with
         | |- context [if ?c then _ else _] => destruct c
         end; intros H; try discriminate H; injection H as <-; auto.
Qed.

Lemma prompt_bet_type_spec (inputs : list string) :
  match prompt_bet_type strip lower inputs with
  | Ok (bt, rest) =>
      (exists used, inputs = used ++ rest /\ (1 <= List.length used)%nat) /\
      (forall bet_type, bt = Some bet_type -> bet_target bet_type)
  | Raise e => e = EOFError
  end.
Proof.
  induction inputs as [| line inputs IH]; cbn [prompt_bet_type]; [reflexivity |].
  destruct (str_in (lower (strip line)) ["q"; "quit"]).
  - split; [exists [line]; split; [reflexivity | cbn; lia] | discriminate].
  - destruct (dict_get (lower (strip line)) mapping) as [bt |] eqn:Hget.
    + split; [exists [line]; split; [reflexivity | cbn; lia] |].
      intros b Hb. injection Hb as <-. eapply mapping_targets. exact Hget.
    + destruct (prompt_bet_type strip lower inputs) as [[bt rest] | e];
        [| exact IH].
      destruct IH as [(used & -> & Hlen) Htarget].
      split; [exists (line :: used); split; [reflexivity | cbn; lia]
             | exact Htarget].
Qed.

Lemma prompt_bet_amount_spec (bankroll : Z) (inputs : list string) :
  match prompt_bet_amount strip lower py_int bankroll inputs with
  | Ok (amt, rest) =>
      (exists used, inputs = used ++ rest /\ (1 <= List.length used)%nat) /\
      (forall a, amt = Some a -> 0 < a <= bankroll)
  | Raise e => e = EOFError
  end.
Proof.
  induction inputs as [| line inputs IH]; cbn [prompt_bet_amount]; [reflexivity |].
  assert (Hloop :
    match prompt_bet_amount strip lower py_int bankroll inputs with
    | Ok (amt, rest) =>
        (exists used, line :: inputs = used ++ rest /\
                      (1 <= List.length used)%nat) /\
        (forall a, amt = Some a -> 0 < a <= bankroll)
    | Raise e => e = EOFError
    end).
  { destruct (prompt_bet_amount strip lower py_int bankroll inputs)
      as [[amt rest] | e]; [| exact IH].
    destruct IH as [(used & -> & Hlen) Hamt].
    split; [exists (line :: used); split; [reflexivity | cbn; lia]
           | exact Hamt]. }
  destruct (str_in (lower (strip line)) ["q"; "quit"]).
  - split; [exists [line]; split; [reflexivity | cbn; lia] | discriminate].
  - destruct (py_int (strip line)) as [amt |]; [| exact Hloop].
    destruct (Z.leb_spec amt 0); [exact Hloop |].
    destruct (Z.gtb_spec amt bankroll); [exact Hloop |].
    split; [exists [line]; split; [reflexivity | cbn; lia] |].
    intros a Ha. injection Ha as <-. lia.
Qed.

Lemma prompt_bet_spec (bankroll : Z) (inputs : list string) :
  match prompt_bet strip lower py_int bankroll inputs with
  | Ok (Some (bet_type, amt), rest) =>
      bet_target bet_type /\ 0 < amt <= bankroll /\
      exists used, inputs = used ++ rest /\ (2 <= List.length used)%nat
  | Ok (None, rest) =>
      exists used, inputs = used ++ rest /\ (1 <= List.length used)%nat
  | Raise e => e = EOFError
  end.
Proof.
  unfold prompt_bet.
  pose proof (prompt_bet_type_spec inputs) as Ht.
  destruct (prompt_bet_type strip lower inputs) as [[bt rest] | e];
    cbn [bind]; [| exact Ht].
  destruct Ht as [(used & -> & Hlen) Htarget].
  destruct bt as [bet_type |]; [| exists used; split; [reflexivity | lia]].
  pose proof (prompt_bet_amount_spec bankroll rest) as Ha.
  destruct (prompt_bet_amount strip lower py_int bankroll rest)
    as [[amt rest'] | e]; cbn [bind]; [| exact Ha].
  destruct Ha as [(used' & -> & Hlen') Hamt].
  destruct amt as [amt |].
  - split; [now apply Htarget |]. split; [now apply Hamt |].
    exists (used ++ used'). rewrite length_app, app_assoc.
    split; [reflexivity | lia].
  - exists (used ++ used'). rewrite length_app, app_assoc.
    split; [reflexivity | lia].
Qed.

(** X15. [prompt_bet] hands back only bets that can be played: the bet
    type is one of player, banker and tie, and the amount is positive
    and within the bankroll, whatever was typed before. A bet takes two
    lines of input at least and a quit one; the only exception is the
    [EOFError] of an input that ends. *)
Theorem X15_prompt_bet_validates (bankroll : Z) (inputs : list string) :
  (forall bet_type amt rest,
      prompt_bet strip lower py_int bankroll inputs
        = Ok (Some (bet_type, amt), rest) ->
      bet_target bet_type /\ 0 < amt <= bankroll /\
      exists used, inputs = used ++ rest /\ (2 <= List.length used)%nat) /\
  (forall rest,
      prompt_bet strip lower py_int bankroll inputs = Ok (None, rest) ->
      exists used, inputs = used ++ rest /\ (1 <= List.length used)%nat) /\
  (forall e,
      prompt_bet strip lower py_int bankroll inputs = Raise e ->
      e = EOFError).
Proof.
  pose proof (prompt_bet_spec bankroll inputs) as H.
  split; [| split].
  - intros bet_type amt rest Hrun. rewrite Hrun in H. exact H.
  - intros rest Hrun. rewrite Hrun in H. exact H.
  - intros e Hrun. rewrite Hrun in H. exact H.
Qed.


(** The bankroll after a settlement, by winner and bet. *)
Lemma settle_round_table (bankroll : Z) (bet_type : string) (a : Z) :
  settle_round bankroll bet_type a "player"
  = Ok (if (bet_type ==? "player") && (a >? 0) then bankroll + a
        else bankroll - a) /\
  settle_round bankroll bet_type a "tie"
  = Ok (if bet_type ==? "tie" then bankroll + a * 8 else bankroll) /\
  settle_round bankroll bet_type a "banker"
  = if bet_type ==? "banker"
    then win <- settle_bet "banker" a "banker" ;; Ok (bankroll + win)
    else Ok (bankroll - a).
Proof.
  unfold settle_round, settle_bet. cbn [String.eqb Ascii.eqb Bool.eqb].
  split; [| split].
  - destruct (bet_type ==? "player"); cbn [bind andb].
    + destruct (a >? 0); reflexivity.
    + destruct (bet_type ==? "banker"); cbn [bind];
        destruct (Z.gtb_spec (- a) 0); try reflexivity; f_equal; lia.
  - destruct (bet_type ==? "tie"); reflexivity.
  - destruct (String.eqb_spec bet_type "banker") as [-> | Hne]; reflexivity.
Qed.

(** X21. The bankroll after a round, bet by bet. For a bet of [a] with
    0 < a < 2^48, and bet type and winner among player, banker and tie,
    the settlement of [main] never raises and moves the bankroll by the
    gain of the bet: plus [a] for a won bet on player, plus [8 a] for a
    won bet on tie, plus 95% of [a] rounded to the nearest unit (halves
    to even) for a won bet on banker, nothing for a bet on player or
    banker when the round is a tie, and minus [a] otherwise. *)
Theorem X21_bankroll_table (bankroll : Z) (bet_type winner : string) (a : Z) :
  0 < a < 2 ^ 48 -> bet_target bet_type -> bet_target winner ->
  settle_round bankroll bet_type a winner
  = Ok (bankroll + bet_gain bet_type winner a).
Proof.
  intros Ha Hb Hw.
  destruct (settle_round_table bankroll bet_type a) as (Hp & Ht & Hk).
  assert (Hpos : (a >? 0) = true) by (apply Z.gtb_gt; lia).
  unfold bet_gain, bet_outcome.
  destruct Hw as [-> | [-> | ->]].
  - rewrite Hp, Hpos.
    destruct Hb as [-> | [-> | ->]];
      cbn [String.eqb Ascii.eqb Bool.eqb andb]; f_equal; lia.
  - rewrite Hk.
    destruct Hb as [-> | [-> | ->]];
      cbn [String.eqb Ascii.eqb Bool.eqb]; try (f_equal; lia).
    rewrite banker_win_payout by assumption. reflexivity.
  - rewrite Ht.
    destruct Hb as [-> | [-> | ->]];
      cbn [String.eqb Ascii.eqb Bool.eqb]; f_equal; lia.
Qed.

Lemma int_str_cases (n : Z) :
  int_str n = Ok tt \/ int_str n = Raise (ValueError int_str_error).
Proof. unfold int_str. destruct (Z.abs n <? int_str_limit); auto. Qed.

Lemma int_str_ok (n : Z) : Z.abs n < int_str_limit -> int_str n = Ok tt.
Proof.
  intros H. unfold int_str.
  destruct (Z.ltb_spec (Z.abs n) int_str_limit); [reflexivity | lia].
Qed.

(** Every amount that has a float can be printed, eight times over. *)
Lemma float_range_printable : 8 * 2 ^ 1024 < int_str_limit.
Proof. vm_compute. reflexivity. Qed.

(** The block with its prints, by winner and bet. *)
Lemma settle_block_table (bankroll : Z) (bet_type : string) (a : Z) :
  settle_block bankroll bet_type a "player"
  = ('tt <- int_str a ;;
     Ok (if (bet_type ==? "player") && (a >? 0) then bankroll + a
         else bankroll - a)) /\
  settle_block bankroll bet_type a "tie"
  = (if bet_type ==? "tie"
     then 'tt <- int_str (a * 8) ;; Ok (bankroll + a * 8)
     else Ok bankroll) /\
  settle_block bankroll bet_type a "banker"
  = if bet_type ==? "banker"
    then win <- settle_bet "banker" a "banker" ;;
         'tt <- int_str win ;; Ok (bankroll + win)
    else 'tt <- int_str a ;; Ok (bankroll - a).
Proof.
  unfold settle_block, settle_bet. cbn [String.eqb Ascii.eqb Bool.eqb].
  assert (Hopp : int_str (- a) = int_str a)
    by (unfold int_str; now rewrite Z.abs_opp).
  split; [| split].
  - destruct (bet_type ==? "player"); cbn [bind andb].
    + destruct (a >? 0); reflexivity.
    + destruct (bet_type ==? "banker"); cbn [bind];
        destruct (Z.gtb_spec (- a) 0); rewrite ?Hopp;
        destruct (int_str a) as [[] |]; cbn [bind]; try reflexivity;
        f_equal; lia.
  - destruct (bet_type ==? "tie"); reflexivity.
  - destruct (String.eqb_spec bet_type "banker") as [-> | Hne]; reflexivity.
Qed.

Lemma settle_block_cases (bankroll : Z) (bet_type : string) (a : Z)
    (winner : string) :
  0 < a <= bankroll -> bet_target winner ->
  match settle_block bankroll bet_type a winner with
  | Ok bankroll' =>
      bankroll' = bankroll - a \/ bankroll <= bankroll'
  | Raise e =>
      (exists msg, e = OverflowError msg) \/ e = ValueError int_str_error
  end.
Proof.
  intros Ha Hw.
  destruct (settle_block_table bankroll bet_type a) as (Hp & Ht & Hb).
  destruct Hw as [-> | [-> | ->]].
  - rewrite Hp. destruct (int_str_cases a) as [-> | ->]; cbn [bind]; [| auto].
    destruct ((bet_type ==? "player") && (a >? 0)); lia.
  - rewrite Hb. destruct (bet_type ==? "banker").
    + pose proof (banker_win_outcomes a ltac:(lia)) as Hbank.
      destruct (settle_bet "banker" a "banker") as [v | e]; cbn [bind];
        [| now left].
      destruct (int_str_cases v) as [-> | ->]; cbn [bind]; [lia | auto].
    + destruct (int_str_cases a) as [-> | ->]; cbn [bind]; auto.
  - rewrite Ht. destruct (bet_type ==? "tie"); [| lia].
    destruct (int_str_cases (a * 8)) as [-> | ->]; cbn [bind]; [lia | auto].
Qed.

(** With no print in the way the block is its arithmetic. *)
Lemma settle_block_round (bankroll : Z) (bet_type : string) (a : Z)
    (winner : string) :
  0 < a < 2 ^ 1024 - 2 ^ 970 -> bet_target winner ->
  settle_block bankroll bet_type a winner
  = settle_round bankroll bet_type a winner /\
  exists bankroll', settle_round bankroll bet_type a winner = Ok bankroll'.
Proof.
  intros Ha Hw.
  destruct (settle_block_table bankroll bet_type a) as (Hp & Ht & Hb).
  destruct (settle_round_table bankroll bet_type a) as (Hp' & Ht' & Hb').
  pose proof float_range_printable as Hlim.
  assert (H970 : 0 < 2 ^ 970) by reflexivity.
  destruct Hw as [-> | [-> | ->]].
  - rewrite Hp, Hp', int_str_ok by lia. split; [reflexivity | eauto].
  - rewrite Hb, Hb'. destruct (bet_type ==? "banker").
    + destruct (banker_win_ends a) as [Hret _].
      destruct Hret as (v & -> & Hv); [lia |]. cbn [bind].
      rewrite int_str_ok by lia. split; [reflexivity | eauto].
    + rewrite int_str_ok by lia. split; [reflexivity | eauto].
  - rewrite Ht, Ht'. destruct (bet_type ==? "tie").
    + rewrite int_str_ok by lia. split; [reflexivity | eauto].
    + split; [reflexivity | eauto].
Qed.

(** X17. A round never takes more than the bet: with a bet within the
    bankroll, the bankroll the settlement block leaves is the old one
    less the bet or is not below the old one, so it is never negative,
    and it is zero only when the whole bankroll was bet and lost. The
    block raises nothing but the [OverflowError] of an amount that has
    no float and the [ValueError] of a number too long to print, and
    neither for a bet under [2^1024 - 2^970]: it then returns. *)
Theorem X17_settle_block_bankroll (bankroll : Z) (bet_type : string) (a : Z)
    (winner : string) :
  0 < a <= bankroll -> bet_target winner ->
  match settle_block bankroll bet_type a winner with
  | Ok bankroll' =>
      0 <= bankroll' /\ (bankroll' = bankroll - a \/ bankroll <= bankroll') /\
      (bankroll' = 0 -> a = bankroll)
  | Raise e =>
      (exists msg, e = OverflowError msg) \/ e = ValueError int_str_error
  end /\
  (a < 2 ^ 1024 - 2 ^ 970 ->
   exists bankroll', settle_block bankroll bet_type a winner = Ok bankroll').
Proof.
  intros Ha Hw. split.
  - pose proof (settle_block_cases bankroll bet_type a winner Ha Hw).
    destruct (settle_block bankroll bet_type a winner); [lia | assumption].
  - intros Hlt.
    destruct (settle_block_round bankroll bet_type a winner) as [-> Hret];
      [lia | assumption | exact Hret].
Qed.

Lemma main_loop_safe (fresh : nat -> list rank) (fuel : nat) :
  (forall k, (RESHUFFLE_THRESHOLD <= List.length (fresh k))%nat) ->
  forall t inputs,
    (List.length inputs < fuel)%nat -> 0 < t_bankroll t ->
    exists outcome,
      main_loop strip lower py_int fuel fresh t inputs = Some outcome /\
      main_outcome (t_round_no t) outcome.
Proof.
  intros Hfresh. induction fuel as [| fuel IH]; intros t inputs Hfuel Hbank;
    [lia |].
  cbn [main_loop].
  assert (Hshoe : exists shoe made,
             (if (List.length (t_shoe t) <? RESHUFFLE_THRESHOLD)%nat
              then (fresh (t_shoes_made t), S (t_shoes_made t))
              else (t_shoe t, t_shoes_made t)) = (shoe, made) /\
             (RESHUFFLE_THRESHOLD <= List.length shoe)%nat).
  { destruct (Nat.ltb_spec (List.length (t_shoe t)) RESHUFFLE_THRESHOLD).
    - eexists. eexists. split; [reflexivity | apply Hfresh].
    - eexists. eexists. split; [reflexivity | assumption]. }
  destruct Hshoe as (shoe & made & -> & Hlen).
  destruct (int_str_cases (t_bankroll t)) as [-> | ->]; cbn [bind];
    [| eexists; split; [reflexivity |]; right; now right].
  destruct (int_str_cases (Z.of_nat (List.length shoe))) as [-> | ->];
    [| eexists; split; [reflexivity |]; right; now right].
  pose proof (prompt_bet_spec (t_bankroll t) inputs) as Hp.
  destruct (prompt_bet strip lower py_int (t_bankroll t) inputs)
    as [[[[bet_type amt] |] rest] | e].
  - destruct Hp as (Htarget & Hamt & used & -> & Hused).
    destruct (int_str_cases (t_round_no t + 1)) as [-> | ->]; cbn [bind];
      [| eexists; split; [reflexivity |]; right; now right].
    pose proof (play_round_ok shoe) as Hok.
    pose proof (play_round_raise shoe) as Hraise.
    destruct (play_round shoe) as [[r shoe'] | e]; cbn [bind].
    + destruct (Hok r shoe' eq_refl) as (_ & _ & _ & _ & _ & _ & _ & Hwin).
      assert (Htw : bet_target (winner r))
        by (rewrite Hwin; apply higher_total_target).
      pose proof (settle_block_cases (t_bankroll t) bet_type amt (winner r)
                    Hamt Htw) as Hs.
      destruct (settle_block (t_bankroll t) bet_type amt (winner r))
        as [bankroll' | e]; cbn [bind].
      * destruct (Z.leb_spec bankroll' 0).
        -- eexists. split; [reflexivity |]. cbn. lia.
        -- destruct rest as [| line rest].
           ++ eexists. split; [reflexivity |]. now left.
           ++ destruct (str_in (lower (strip line)) ["q"; "quit"]).
              ** eexists. split; [reflexivity |]. cbn. lia.
              ** destruct (IH (mkTable shoe' bankroll' (t_round_no t + 1) made)
                            rest) as (outcome & Hrun & Hout).
                 { rewrite length_app in Hfuel. cbn [List.length] in Hfuel.
                   lia. }
                 { exact H. }
                 exists outcome. split; [exact Hrun |].
                 destruct outcome as [t' | e]; [| exact Hout].
                 cbn in Hout |- *. lia.
      * eexists. split; [reflexivity |]. right. exact Hs.
    + exfalso. destruct (Hraise e eq_refl) as [Hshort _]. lia.
  - eexists. split; [reflexivity |]. cbn. lia.
  - eexists. split; [reflexivity |]. left. exact Hp.
Qed.

(** X18. The game as a whole. Whatever shoes the shuffles produce and
    whatever is typed, [main] comes to an end: it returns with a
    bankroll that is not negative, or it stops on the [EOFError] of an
    input that ends, on the [OverflowError] of an amount that has no
    float, or on the [ValueError] of a number of more than 4300 digits
    that an f-string cannot write. The [ValueError] of an empty shoe
    never happens: the reshuffle at fewer than six cards always leaves a
    round the six cards it can need. *)
Theorem X18_main_never_runs_dry (fresh : nat -> list rank)
    (inputs : list string) :
  (forall k, create_shoe DECKS (fresh k)) ->
  exists outcome,
    main strip lower py_int fresh inputs = Some outcome /\
    match outcome with
    | Ok t => 0 <= t_bankroll t /\ 0 <= t_round_no t
    | Raise e =>
        e = EOFError \/ (exists msg, e = OverflowError msg) \/
        e = ValueError int_str_error
    end.
Proof.
  intros Hfresh. unfold main.
  apply (main_loop_safe fresh (S (List.length inputs))); try (cbn; lia).
  intros k. specialize (Hfresh k).
  unfold create_shoe, shoe_in_order, list_mul in Hfresh.
  rewrite <- (Permutation_length Hfresh), list_copies_length.
  replace (Z.to_nat DECKS * List.length (list_copies ranks (Z.to_nat 4)))%nat
    with 416%nat by reflexivity.
  unfold RESHUFFLE_THRESHOLD. lia.
Qed.

End Table.

(** The properties of the table at concrete prompts: lines are taken as
    typed, and the one amount read is 50. *)
Section TableWitnesses.

Import Baccarat.

Lemma X15_prompt_bet_validates_witness :
  bet_target "banker" /\ 0 < 50 <= 1000 /\
  exists used,
    ["x"; "b"; "many"; "50"; "q"] = used ++ ["q"] /\
    (2 <= List.length used)%nat.
Proof.
  destruct (X15_prompt_bet_validates (fun s => s) (fun s => s)
              (fun s => if s ==? "50" then Some 50 else None)
              1000 ["x"; "b"; "many"; "50"; "q"]) as (Hbet & _ & _).
  apply (Hbet "banker" 50 ["q"]). reflexivity.
Defined.


Lemma X21_bankroll_table_witness :
  settle_round 1000 "tie" 25 "tie" = Ok 1200 /\
  settle_round 1000 "banker" 30 "banker" = Ok 1028.
Proof.
  split.
  - apply (X21_bankroll_table 1000 "tie" "tie" 25);
      [split; [lia | reflexivity] | right; now right | right; now right].
  - apply (X21_bankroll_table 1000 "banker" "banker" 30);
      [split; [lia | reflexivity] | right; now left | right; now left].
Defined.

(** The whole bankroll bet on tie and lost to the banker. *)
Lemma X17_settle_block_bankroll_witness :
  exists bankroll',
    settle_block 50 "tie" 50 "banker" = Ok bankroll' /\ 0 <= bankroll' /\
    (bankroll' = 0 -> 50 = 50).
Proof.
  destruct (X17_settle_block_bankroll 50 "tie" 50 "banker") as [Hcases Hret];
    [lia | right; left; reflexivity |].
  destruct Hret as [bankroll' Hrun]; [reflexivity |].
  rewrite Hrun in Hcases. exists bankroll'.
  split; [exact Hrun |]. split; apply Hcases.
Defined.

Lemma X18_main_never_runs_dry_witness :
  exists outcome,
    main (fun s => s) (fun s => s)
      (fun s => if s ==? "50" then Some 50 else None)
      (fun _ => shoe_in_order DECKS) ["b"; "50"; ""; "p"; "50"; "q"]
      = Some outcome /\
    match outcome with
    | Ok t => 0 <= t_bankroll t /\ 0 <= t_round_no t
    | Raise e =>
        e = EOFError \/ (exists msg, e = OverflowError msg) \/
        e = ValueError int_str_error
    end.
Proof.
  apply (X18_main_never_runs_dry (fun s => s) (fun s => s)
           (fun s => if s ==? "50" then Some 50 else None)
           (fun _ => shoe_in_order DECKS) ["b"; "50"; ""; "p"; "50"; "q"]).
  intros k. apply Permutation_refl.
Defined.

End TableWitnesses.

(** ** The money of a double *)

Section DoubleMoney.

Import Blackjack.

(** A hand of three cards is settled at the bet, at minus the bet or at
    the int 0. *)
Lemma settle_bet_three (c1 c2 c3 : card) (dealer : list card)
    (bet : PyFloat.float) :
  let net := settle_bet [c1; c2; c3] dealer bet in
  net = PyFloat bet \/ net = PyFloat (PyFloat.neg bet) \/ net = PyInt 0.
Proof.
  cbv zeta. rewrite settle_bet_unfold.
  replace (is_blackjack [c1; c2; c3]) with false.
  2:{ unfold is_blackjack. destruct (hand_value [c1; c2; c3]).
      cbn [List.length Nat.eqb]. now rewrite andb_false_r. }
  cbn [andb].
  repeat match goal with
         | |- context [if ?c then _ else _] => destruct c
         end; auto.
Qed.

(** A round in which the player doubles, the five cards it starts with
    named. *)
Lemma play_round_doubled (fresh rest : list card) (c d2 d1 p2 p1 : card)
    (bet balance : PyFloat.float) (inputs inputs' : list string)
    (hand deck' : list card) :
  let affordable := negb (PyFloat.gtb (PyFloat.mul bet PyFloat.lit_2) balance) in
  let bet' := if affordable then PyFloat.mul bet PyFloat.lit_2 else bet in
  let paid := if affordable then PyFloat.sub balance bet else balance in
  (15 <= List.length ((rest ++ [c]) ++ [d2; d1; p2; p1]))%nat ->
  ~ natural [p1; p2] -> ~ natural [d1; d2] ->
  player_turn inputs (rest ++ [c]) [p1; p2] true
    = Ok ("double", hand, deck', inputs') ->
  play_round fresh (Some bet) inputs ((rest ++ [c]) ++ [d2; d1; p2; p1]) balance
  = if score [p1; p2; c] >? 21 then
      Some (finish [p1; p2; c] [d1; d2] bet' paid
              (PyFloat (PyFloat.neg bet')) rest inputs')
    else showdown rest [p1; p2; c] [d1; d2] bet' paid inputs'.
Proof.
  intros affordable bet' paid Hlen Hnp Hnd Hturn.
  destruct (player_turn_inv _ _ _ _ _ _ _ _ Hturn) as (_ & Hsame & Hdbl & _).
  destruct (Hdbl eq_refl) as (_ & Hlen2 & _).
  destruct (Hsame Hlen2) as [-> ->].
  rewrite play_round_dealt by assumption.
  rewrite <- is_blackjack_spec in Hnp, Hnd.
  apply not_true_is_false in Hnp, Hnd. rewrite Hnp, Hnd. cbn [orb].
  rewrite Hturn. cbn [String.eqb Ascii.eqb Bool.eqb].
  unfold double_down, bet', paid, affordable, score. rewrite pop_snoc.
  destruct (PyFloat.gtb (PyFloat.mul bet PyFloat.lit_2) balance);
    reflexivity.
Qed.

(** X19. What a double costs. When the player doubles and twice the bet
    is within the balance, the bet is taken off the balance at once and
    the round is then settled on the doubled bet, which had not been
    taken off before: the balance returned is (balance - bet) + net in
    float arithmetic, with a net of plus or minus twice the bet or the
    int 0. A doubled loss so takes three bets, a doubled win gives one
    and a push takes one. When twice the bet is above the balance, the
    card is dealt all the same and the round is settled on the single
    bet from the balance as it was. *)
Theorem X19_double_down_money (fresh rest : list card) (c d2 d1 p2 p1 : card)
    (bet balance : PyFloat.float) (inputs inputs' : list string)
    (hand deck' : list card) (out : played) :
  let deck := (rest ++ [c]) ++ [d2; d1; p2; p1] in
  let affordable := negb (PyFloat.gtb (PyFloat.mul bet PyFloat.lit_2) balance) in
  let bet' := if affordable then PyFloat.mul bet PyFloat.lit_2 else bet in
  let paid := if affordable then PyFloat.sub balance bet else balance in
  (15 <= List.length deck)%nat ->
  ~ natural [p1; p2] -> ~ natural [d1; d2] ->
  player_turn inputs (rest ++ [c]) [p1; p2] true
    = Ok ("double", hand, deck', inputs') ->
  play_round fresh (Some bet) inputs deck balance = Some (Ok out) ->
  exists dealer net,
    result_shown out = Some (mkShown [p1; p2; c] dealer bet' net) /\
    (net = PyFloat bet' \/ net = PyFloat (PyFloat.neg bet') \/ net = PyInt 0) /\
    (21 < score [p1; p2; c] -> net = PyFloat (PyFloat.neg bet')) /\
    add_net paid net = Ok (ret_balance out).
Proof.
  intros deck affordable bet' paid Hlen Hnp Hnd Hturn Hrun.
  unfold deck in Hrun.
  rewrite (play_round_doubled fresh rest c d2 d1 p2 p1 bet balance inputs
             inputs' hand deck' Hlen Hnp Hnd Hturn) in Hrun.
  fold affordable in Hrun. fold bet' in Hrun. fold paid in Hrun.
  destruct (Z.gtb_spec (score [p1; p2; c]) 21) as [Hbust | Hfit].
  - unfold finish in Hrun. cbn [add_net bind] in Hrun.
    injection Hrun as <-. exists [d1; d2], (PyFloat (PyFloat.neg bet')).
    cbn [result_shown ret_balance add_net]. repeat split; auto.
  - unfold showdown in Hrun.
    destruct (dealer_turn rest [d1; d2]) as [[[dh dk] | e] |];
      try discriminate Hrun.
    unfold finish in Hrun.
    destruct (add_net paid (settle_bet [p1; p2; c] dh bet')) as [b |] eqn:Hb;
      cbn [bind] in Hrun; [| discriminate Hrun].
    injection Hrun as <-. exists dh, (settle_bet [p1; p2; c] dh bet').
    cbn [result_shown ret_balance].
    split; [reflexivity |]. split; [apply settle_bet_three |].
    split; [lia | exact Hb].
Qed.

(** 10+6 doubled on a king: 20 is lost on a bet of 10, and 100 becomes
    70. *)
Lemma X19_double_down_money_witness :
  exists out dealer net,
    play_round [] (Some (PyFloat.dyadic 10 0)) ["d"]
      ((filler ++ [(RK, Hearts)])
         ++ [(R7, Spades); (R10, Diamonds); (R6, Hearts); (R10, Hearts)])
      (PyFloat.dyadic 100 0) = Some (Ok out) /\
    result_shown out
      = Some (mkShown [(R10, Hearts); (R6, Hearts); (RK, Hearts)] dealer
                (PyFloat.dyadic 20 0) net) /\
    add_net (PyFloat.dyadic 90 0) net = Ok (ret_balance out) /\
    ret_balance out = PyFloat.dyadic 70 0.
Proof.
  exists (mkPlayed (Some true) (PyFloat.dyadic 70 0) true
            (Some (mkShown [(R10, Hearts); (R6, Hearts); (RK, Hearts)]
                     [(R10, Diamonds); (R7, Spades)]
                     (PyFloat.dyadic 20 0)
                     (PyFloat (PyFloat.neg (PyFloat.dyadic 20 0)))))
            filler []).
  destruct (X19_double_down_money [] filler (RK, Hearts) (R7, Spades)
              (R10, Diamonds) (R6, Hearts) (R10, Hearts)
              (PyFloat.dyadic 10 0) (PyFloat.dyadic 100 0) ["d"] []
              [(R10, Hearts); (R6, Hearts)] (filler ++ [(RK, Hearts)])
              (mkPlayed (Some true) (PyFloat.dyadic 70 0) true
                 (Some (mkShown [(R10, Hearts); (R6, Hearts); (RK, Hearts)]
                          [(R10, Diamonds); (R7, Spades)]
                          (PyFloat.dyadic 20 0)
                          (PyFloat (PyFloat.neg (PyFloat.dyadic 20 0)))))
                 filler []))
    as (dealer & net & Hshown & _ & _ & Hbal).
  - simpl. lia.
  - intros [H _]. vm_compute in H. discriminate H.
  - intros [H _]. vm_compute in H. discriminate H.
  - reflexivity.
  - vm_compute. reflexivity.
  - exists dealer, net. split; [vm_compute; reflexivity |].
    split; [exact Hshown |]. split; [exact Hbal | reflexivity].
Defined.

End DoubleMoney.

(** ** The cards of a round *)

Section RoundCards.

Import Blackjack.

(** The cards [player_turn] moves from the deck to the hand. *)
Lemma player_turn_cards (inputs : list string) :
  forall deck hand can_double action hand' deck' inputs',
    player_turn inputs deck hand can_double
      = Ok (action, hand', deck', inputs') ->
    exists drawn used,
      hand' = hand ++ drawn /\ deck = deck' ++ rev drawn /\
      inputs = used ++ inputs'.
Proof.
  induction inputs as [| choice inputs IH];
    intros deck hand can_double action hand' deck' inputs' Hrun;
    rewrite player_turn_unfold in Hrun;
    destruct (score hand >? 21);
    try (injection Hrun as <- <- <- <-; exists [], [];
         now rewrite !app_nil_r);
    try discriminate Hrun.
  destruct (str_in choice ["h"; "hit"]).
  - destruct (pop deck) as [[c deck1] | e] eqn:Hpop; [| discriminate].
    cbn [bind] in Hrun. apply pop_inv in Hpop. apply IH in Hrun.
    destruct Hrun as (drawn & used & -> & -> & ->).
    exists (c :: drawn), (choice :: used). rewrite <- app_assoc.
    split; [reflexivity |]. split; [| reflexivity].
    subst deck. cbn [rev]. now rewrite app_assoc.
  - destruct (str_in choice ["s"; "stand"]).
    + injection Hrun as <- <- <- <-. exists [], [choice].
      now rewrite !app_nil_r.
    + destruct (str_in choice ["d"; "double"; "double down"]
                && can_double && (List.length hand =? 2)%nat).
      * injection Hrun as <- <- <- <-. exists [], [choice].
        now rewrite !app_nil_r.
      * apply IH in Hrun. destruct Hrun as (drawn & used & -> & -> & ->).
        exists drawn, (choice :: used). repeat split.
Qed.

(** The four cards of the deal, read back from the pops. *)
Lemma pop_four_inv (deck rest : list card) (ph dh : list card) :
  ('(x1, deck) <- pop deck ;;
   '(x2, deck) <- pop deck ;;
   '(y1, deck) <- pop deck ;;
   '(y2, deck) <- pop deck ;;
   Ok ([x1; x2], [y1; y2], deck))
  = Ok (ph, dh, rest) ->
  exists p1 p2 d1 d2,
    ph = [p1; p2] /\ dh = [d1; d2] /\ deck = rest ++ [d2; d1; p2; p1].
Proof.
  destruct (pop deck) as [[p1 k1] | e] eqn:E1; [| discriminate].
  cbn [bind].
  destruct (pop k1) as [[p2 k2] | e] eqn:E2; [| discriminate].
  cbn [bind].
  destruct (pop k2) as [[d1 k3] | e] eqn:E3; [| discriminate].
  cbn [bind].
  destruct (pop k3) as [[d2 k4] | e] eqn:E4; [| discriminate].
  cbn [bind]. intros H. injection H as <- <- <-.
  apply pop_inv in E1, E2, E3, E4. subst.
  exists p1, p2, d1, d2. rewrite <- !app_assoc. repeat split.
Qed.

(** Two lists with the same number of each card. *)
Ltac same_cards :=
  apply (Permutation_count_occ card_eq_dec); intros x;
  repeat (rewrite ?count_occ_app, ?count_occ_rev; cbn [count_occ]);
  repeat match goal with
         | |- context [card_eq_dec ?c x] => destruct (card_eq_dec c x)
         end; lia.

Lemma finish_result (ph dh : list card) (bet balance : PyFloat.float)
    (net : pynum) (deck : list card) (inputs : list string) (out : played) :
  Some (finish ph dh bet balance net deck inputs) = Some (Ok out) ->
  result_shown out = Some (mkShown ph dh bet net) /\
  deck_left out = deck /\ inputs_left out = inputs /\
  add_net balance net = Ok (ret_balance out).
Proof.
  unfold finish. destruct (add_net balance net) as [b |]; [| discriminate].
  cbn [bind]. intros H. injection H as <-. repeat split.
Qed.

Lemma showdown_result (deck ph dh : list card) (bet balance : PyFloat.float)
    (inputs : list string) (out : played) :
  showdown deck ph dh bet balance inputs = Some (Ok out) ->
  exists drawn,
    result_shown out
      = Some (mkShown ph (dh ++ drawn) bet (settle_bet ph (dh ++ drawn) bet)) /\
    deck = deck_left out ++ rev drawn /\ inputs_left out = inputs /\
    17 <= score (dh ++ drawn) /\
    add_net balance (settle_bet ph (dh ++ drawn) bet) = Ok (ret_balance out).
Proof.
  unfold showdown, dealer_turn.
  destruct (dealer_loop (S (List.length deck)) deck dh)
    as [[[dh' dk] | e] |] eqn:Hd; try discriminate.
  apply dealer_loop_spec in Hd. destruct Hd as (drawn & -> & -> & H17 & _).
  intros H. apply finish_result in H.
  destruct H as (Hs & Hk & Hi & Hb).
  exists drawn. rewrite Hk. repeat split; assumption.
Qed.

(** X20. A round of the 21-style game loses no card and makes none. The
    deck played is the one given, or the fresh one when fewer than 15
    cards were given; when the round returns, the two hands it shows and
    the deck it leaves hold together exactly the cards of the deck
    played. Each hand has two cards at least, the dealer's scores 17 or
    more whenever a third card lies in it, and the lines left unread are
    a suffix of the lines given. *)
Theorem X20_play_round_keeps_cards (fresh : list card) (bet : PyFloat.float)
    (inputs : list string) (deck : list card) (balance : PyFloat.float)
    (out : played) :
  play_round fresh (Some bet) inputs deck balance = Some (Ok out) ->
  exists sh,
    result_shown out = Some sh /\
    Permutation (if (List.length deck <? 15)%nat then fresh else deck)
      (shown_player sh ++ shown_dealer sh ++ deck_left out) /\
    (2 <= List.length (shown_player sh))%nat /\
    (2 <= List.length (shown_dealer sh))%nat /\
    ((3 <= List.length (shown_dealer sh))%nat -> 17 <= score (shown_dealer sh)) /\
    exists used, inputs = used ++ inputs_left out.
Proof.
  unfold play_round.
  set (deck0 := if (List.length deck <? 15)%nat then fresh else deck).
  destruct ('(p1, deck) <- pop deck0 ;; '(p2, deck) <- pop deck ;;
            '(d1, deck) <- pop deck ;; '(d2, deck) <- pop deck ;;
            Ok ([p1; p2], [d1; d2], deck))
    as [[[ph dh] rest] | e] eqn:Hdeal; [| discriminate].
  apply pop_four_inv in Hdeal.
  destruct Hdeal as (p1 & p2 & d1 & d2 & -> & -> & Hdeck0). rewrite Hdeck0.
  destruct (is_blackjack [p1; p2] || is_blackjack [d1; d2]).
  { intros H. apply finish_result in H.
    destruct H as (Hs & Hk & Hi & _). eexists. split; [exact Hs |].
    cbn [shown_player shown_dealer List.length]. rewrite Hk, Hi.
    split; [same_cards |]. split; [lia |]. split; [lia |].
    split; [lia |]. now exists []. }
  destruct (player_turn inputs rest [p1; p2] true)
    as [[[[action ph] dk] inputs1] | e] eqn:Hturn; [| discriminate].
  apply player_turn_cards in Hturn.
  destruct Hturn as (pd & used & -> & -> & ->).
  destruct (action ==? "bust").
  { intros H. apply finish_result in H.
    destruct H as (Hs & Hk & Hi & _). eexists. split; [exact Hs |].
    cbn [shown_player shown_dealer]. rewrite Hk, Hi, length_app.
    cbn [List.length].
    split; [same_cards |]. split; [lia |]. split; [lia |].
    split; [lia |]. now exists used. }
  destruct (action ==? "double").
  - unfold double_down.
    assert (Hpop : forall (b bal : PyFloat.float),
               ('(c, k) <- pop dk ;; Ok ([p1; p2] ++ pd ++ [c], b, bal, k))
               = match pop dk with
                 | Ok (c, k) => Ok ([p1; p2] ++ pd ++ [c], b, bal, k)
                 | Raise e => Raise e
                 end).
    { intros b bal. destruct (pop dk) as [[c k] |]; reflexivity. }
    assert (Hdd :
      forall (b bal : PyFloat.float),
        match
          match pop dk with
          | Ok (c, k) => Ok (([p1; p2] ++ pd) ++ [c], b, bal, k)
          | Raise e => Raise e
          end
        with
        | Ok (player_hand, bet0, balance0, deck1) =>
            if fst (hand_value player_hand) >? 21
            then Some (finish player_hand [d1; d2] bet0 balance0
                         (PyFloat (PyFloat.neg bet0)) deck1 inputs1)
            else showdown deck1 player_hand [d1; d2] bet0 balance0 inputs1
        | Raise e => Some (Raise e)
        end = Some (Ok out) ->
        exists sh,
          result_shown out = Some sh /\
          Permutation ((dk ++ rev pd) ++ [d2; d1; p2; p1])
            (shown_player sh ++ shown_dealer sh ++ deck_left out) /\
          (2 <= List.length (shown_player sh))%nat /\
          (2 <= List.length (shown_dealer sh))%nat /\
          ((3 <= List.length (shown_dealer sh))%nat ->
           17 <= score (shown_dealer sh)) /\
          exists used0, used ++ inputs1 = used0 ++ inputs_left out).
    { intros b bal.
      destruct (pop dk) as [[c k] | e] eqn:Hp; [| discriminate].
      apply pop_inv in Hp. subst dk.
      destruct (fst (hand_value (([p1; p2] ++ pd) ++ [c])) >? 21).
      - intros H. apply finish_result in H.
        destruct H as (Hs & Hk & Hi & _). eexists. split; [exact Hs |].
        cbn [shown_player shown_dealer]. rewrite Hk, Hi, !length_app.
        cbn [List.length].
        split; [same_cards |]. split; [lia |]. split; [lia |].
        split; [lia |]. now exists used.
      - intros H. apply showdown_result in H.
        destruct H as (dd & Hs & Hk & Hi & H17 & _).
        eexists. split; [exact Hs |].
        cbn [shown_player shown_dealer]. rewrite Hk, Hi, !length_app.
        cbn [List.length].
        split; [same_cards |]. split; [lia |]. split; [lia |].
        split; [intros _; exact H17 |]. now exists used. }
    unfold bind.
    destruct (PyFloat.gtb (PyFloat.mul bet PyFloat.lit_2) balance);
      apply Hdd.
  - intros H. apply showdown_result in H.
    destruct H as (dd & Hs & Hk & Hi & H17 & _).
    eexists. split; [exact Hs |].
    cbn [shown_player shown_dealer]. rewrite Hk, Hi, !length_app.
    cbn [List.length].
    split; [same_cards |]. split; [lia |]. split; [lia |].
    split; [intros _; exact H17 |]. now exists used.
Qed.

(** A hit to 19 against 10+7: seven cards leave the sixteen. *)
Lemma X20_play_round_keeps_cards_witness :
  exists out sh,
    play_round [] (Some (PyFloat.dyadic 10 0)) ["h"; "s"]
      ((filler ++ [(R4, Hearts); (R5, Hearts)])
         ++ [(R7, Spades); (RK, Diamonds); (R6, Hearts); (R8, Hearts)])
      (PyFloat.dyadic 100 0) = Some (Ok out) /\
    result_shown out = Some sh /\
    Permutation
      ((filler ++ [(R4, Hearts); (R5, Hearts)])
         ++ [(R7, Spades); (RK, Diamonds); (R6, Hearts); (R8, Hearts)])
      (shown_player sh ++ shown_dealer sh ++ deck_left out).
Proof.
  assert (Hrun : exists out,
    play_round [] (Some (PyFloat.dyadic 10 0)) ["h"; "s"]
      ((filler ++ [(R4, Hearts); (R5, Hearts)])
         ++ [(R7, Spades); (RK, Diamonds); (R6, Hearts); (R8, Hearts)])
      (PyFloat.dyadic 100 0) = Some (Ok out))
    by (vm_compute; eexists; reflexivity).
  destruct Hrun as [out Hrun].
  destruct (X20_play_round_keeps_cards _ _ _ _ _ out Hrun)
    as (sh & Hshown & Hperm & _).
  exists out, sh. split; [exact Hrun |]. split; [exact Hshown | exact Hperm].
Defined.

End RoundCards.

(** ** Whole amounts of money *)

(** Python's floats carry whole amounts, and halves of them, exactly as
    long as they stay under [2^53]: the float operations of a round are
    then the operations on the numbers. *)
Section ExactAmounts.

Lemma digits_small (a : positive) :
  Zpos a < 2 ^ 53 -> 1 <= Zpos (digits2_pos a) <= 53.
Proof.
  intros Ha. pose proof (digits_bounds a) as [Blo Bhi].
  split; [lia |].
  destruct (Z.leb_spec (Zpos (digits2_pos a)) 53); [assumption |].
  assert (2 ^ 53 <= 2 ^ (Zpos (digits2_pos a) - 1))
    by (apply Z.pow_le_mono_r; lia).
  lia.
Qed.

(** A scaled mantissa: [a * 2^k] has [k] digits more than [a]. *)
Lemma digits_scaled (a m : positive) (k : Z) :
  0 <= k -> Zpos m = Zpos a * 2 ^ k ->
  Zpos (digits2_pos m) = Zpos (digits2_pos a) + k.
Proof.
  intros Hk Hm. pose proof (digits_bounds a) as [Blo Bhi].
  apply digits_unique. rewrite Hm.
  replace (Zpos (digits2_pos a) + k - 1) with (Zpos (digits2_pos a) - 1 + k)
    by lia.
  rewrite !Z.pow_add_r by lia.
  assert (0 < 2 ^ k) by (apply Z.pow_pos_nonneg; lia).
  split; [apply Z.mul_le_mono_nonneg_r; lia | apply Z.mul_lt_mono_pos_r; lia].
Qed.

Lemma round_half_even_scaled (M j : Z) :
  0 < j -> PyFloat.round_half_even (M * 2 ^ j) (- j) = M.
Proof.
  intros Hj. unfold PyFloat.round_half_even.
  destruct (Z.leb_spec 0 (- j)); [lia |]. rewrite Z.opp_involutive.
  assert (HP : 0 < 2 ^ j) by (apply Z.pow_pos_nonneg; lia).
  cbv zeta. rewrite Z.mod_mul, Z.div_mul by lia.
  replace (2 * 0 ?= 2 ^ j) with Lt by (symmetry; apply Z.compare_lt_iff; lia).
  reflexivity.
Qed.

(** Rounding a full mantissa followed by zeros drops the zeros. *)
Lemma binary_round_aux_scaled (sx : bool) (M m : positive) (e j : Z) :
  Zpos (digits2_pos M) = 53 -> 0 <= j -> Zpos m = Zpos M * 2 ^ j ->
  -1074 <= e + j <= 970 ->
  binary_round_aux 53 1024 sx (Zpos m) e loc_Exact = S754_finite sx M (e + j).
Proof.
  intros HM Hj Hm He.
  destruct (Z.eq_dec j 0) as [-> | Hnz].
  - rewrite Z.pow_0_r, Z.mul_1_r in Hm. injection Hm as ->.
    rewrite Z.add_0_r. apply binary_round_aux_exact; [assumption | lia].
  - pose proof (digits_scaled M m j Hj Hm) as Hd.
    destruct (binary_round_aux_finite sx m e j)
      as (m2 & e2 & Hr & Hd2 & Hcases); try lia.
    rewrite Hr. rewrite Hm, round_half_even_scaled in Hcases by lia.
    destruct Hcases as [[H1 ->] | [H1 ->]].
    + injection H1 as ->. reflexivity.
    + exfalso. pose proof (digits_bounds m2) as [Blo _].
      pose proof (digits_bounds M) as [_ Bhi].
      rewrite Hd2 in Blo. rewrite HM in Bhi. simpl in Blo, Bhi. lia.
Qed.

(** The float of [a * 2^E], however the value is written: with [k]
    zeros more at the end of the mantissa and an exponent [k] lower. *)
Lemma binary_round_explicit (sx : bool) (a m mz : positive) (k E : Z) :
  Zpos a < 2 ^ 53 -> 0 <= k -> Zpos m = Zpos a * 2 ^ k ->
  -1021 <= E <= 970 ->
  Zpos mz = Zpos a * 2 ^ (53 - Zpos (digits2_pos a)) ->
  binary_round 53 1024 sx m (E - k)
  = S754_finite sx mz (Zpos (digits2_pos a) - 53 + E).
Proof.
  intros Ha Hk Hm HE Hmz.
  pose proof (digits_small a Ha) as Hda.
  pose proof (digits_scaled a m k Hk Hm) as Hdm.
  set (d := Zpos (digits2_pos a)) in *.
  assert (Hdz : Zpos (digits2_pos mz) = 53).
  { rewrite (digits_scaled a mz (53 - d)) by (lia || exact Hmz).
    fold d. lia. }
  unfold binary_round, shl_align, fexp, emin. rewrite Hdm.
  replace (Z.max (d + k + (E - k) - 53) (3 - 1024 - 53) - (E - k))
    with (d + k - 53) by lia.
  replace (Z.max (d + k + (E - k) - 53) (3 - 1024 - 53))
    with (d - 53 + E) by lia.
  destruct (d + k - 53) as [| q | q] eqn:Eq.
  - assert (mz = m) as ->.
    { apply Pos2Z.inj. rewrite Hmz, Hm. f_equal. f_equal. lia. }
    rewrite binary_round_aux_exact by (try assumption; lia).
    f_equal. lia.
  - rewrite (binary_round_aux_scaled sx mz m (E - k) (Zpos q)); try lia;
      try assumption.
    + f_equal. lia.
    + rewrite Hm, Hmz, <- Z.mul_assoc, <- Z.pow_add_r by lia.
      f_equal. f_equal. lia.
  - assert (mz = Pos.iter xO m q) as ->.
    { apply Pos2Z.inj. rewrite iter_xO_value, Hmz, Hm.
      rewrite <- Z.mul_assoc, <- Z.pow_add_r by lia. f_equal. f_equal. lia. }
    rewrite binary_round_aux_exact by (try assumption; lia).
    reflexivity.
Qed.

Lemma scaled_mantissa (a : positive) :
  Zpos a < 2 ^ 53 ->
  exists mz, Zpos mz = Zpos a * 2 ^ (53 - Zpos (digits2_pos a)).
Proof.
  intros Ha. pose proof (digits_small a Ha) as Hd.
  assert (0 < 2 ^ (53 - Zpos (digits2_pos a)))
    by (apply Z.pow_pos_nonneg; lia).
  exists (Z.to_pos (Zpos a * 2 ^ (53 - Zpos (digits2_pos a)))).
  rewrite Z2Pos.id; [reflexivity | lia].
Qed.

(** The float [n * 2^E] of a whole [n] under [2^53]: sign, mantissa
    and exponent. *)
Lemma dyadic_finite (n E : Z) :
  n <> 0 -> Z.abs n < 2 ^ 53 -> -1021 <= E <= 970 ->
  exists mz,
    PyFloat.dyadic n E = S754_finite (n <? 0) mz (Zdigits2 n - 53 + E) /\
    Zpos mz = Z.abs n * 2 ^ (53 - Zdigits2 n) /\
    1 <= Zdigits2 n <= 53.
Proof.
  intros Hn Hlt HE. unfold PyFloat.dyadic, PyFloat.prec, PyFloat.emax.
  destruct n as [| p | p]; [congruence | |];
    cbn [binary_normalize Z.abs Zdigits2 Z.ltb Z.compare] in *;
    destruct (scaled_mantissa p Hlt) as [mz Hmz];
    exists mz; (split; [| split; [exact Hmz | now apply digits_small]]);
    replace E with (E - 0) at 1 by lia;
    apply binary_round_explicit; try assumption; try lia.
Qed.

(** A sum worked out at a lower exponent is the float of the sum. *)
Lemma normalize_exact (M n k E : Z) :
  M = n * 2 ^ k -> 0 <= k -> Z.abs n < 2 ^ 53 -> -1021 <= E <= 970 ->
  binary_normalize 53 1024 M (E - k) false = PyFloat.dyadic n E.
Proof.
  intros HM Hk Hlt HE. unfold PyFloat.dyadic, PyFloat.prec, PyFloat.emax.
  assert (HP : 0 < 2 ^ k) by (apply Z.pow_pos_nonneg; lia).
  destruct n as [| p | p].
  - subst M. reflexivity.
  - destruct M as [| m | m]; try lia.
    cbn [binary_normalize Z.abs] in *.
    destruct (scaled_mantissa p Hlt) as [mz Hmz].
    rewrite (binary_round_explicit false p m mz k E) by (assumption || lia).
    replace E with (E - 0) at 2 by lia.
    rewrite (binary_round_explicit false p p mz 0 E) by (assumption || lia).
    reflexivity.
  - destruct M as [| m | m]; try lia.
    cbn [binary_normalize Z.abs] in *.
    destruct (scaled_mantissa p Hlt) as [mz Hmz].
    assert (Hm : Zpos m = Zpos p * 2 ^ k) by lia.
    rewrite (binary_round_explicit true p m mz k E) by (assumption || lia).
    replace E with (E - 0) at 2 by lia.
    rewrite (binary_round_explicit true p p mz 0 E) by (assumption || lia).
    reflexivity.
Qed.

Lemma shl_align_value (mx : positive) (ex ez : Z) :
  ez <= ex -> Zpos (fst (shl_align mx ex ez)) = Zpos mx * 2 ^ (ex - ez).
Proof.
  intros Hle. unfold shl_align.
  destruct (ez - ex) as [| q | q] eqn:Eq; cbn [fst]; try lia.
  - replace (ex - ez) with 0 by lia. simpl. lia.
  - rewrite iter_xO_value. f_equal. f_equal. lia.
Qed.

Lemma cond_Zopp_abs (n : Z) : cond_Zopp (n <? 0) (Z.abs n) = n.
Proof. destruct n; reflexivity. Qed.

(** The aligned mantissa of a whole float, with its sign. *)
Lemma aligned_value (n E ez : Z) (mz : positive) :
  Zpos mz = Z.abs n * 2 ^ (53 - Zdigits2 n) -> 1 <= Zdigits2 n <= 53 ->
  ez <= Zdigits2 n - 53 + E ->
  cond_Zopp (n <? 0) (Zpos (fst (shl_align mz (Zdigits2 n - 53 + E) ez)))
  = n * 2 ^ (E - ez).
Proof.
  intros Hmz Hd Hez. rewrite shl_align_value by assumption.
  rewrite Hmz, <- Z.mul_assoc, <- Z.pow_add_r by lia.
  replace (53 - Zdigits2 n + (Zdigits2 n - 53 + E - ez)) with (E - ez) by lia.
  assert (0 < 2 ^ (E - ez)) by (apply Z.pow_pos_nonneg; lia).
  destruct n as [| p | p]; cbn [Z.ltb Z.compare cond_Zopp Z.abs]; lia.
Qed.

(** Sums and differences of whole amounts are exact under [2^53]. *)
Lemma add_exact (x y E : Z) :
  Z.abs x < 2 ^ 53 -> Z.abs y < 2 ^ 53 -> Z.abs (x + y) < 2 ^ 53 ->
  -1021 <= E <= 970 ->
  PyFloat.add (PyFloat.dyadic x E) (PyFloat.dyadic y E)
  = PyFloat.dyadic (x + y) E.
Proof.
  intros Hx Hy Hxy HE.
  destruct (Z.eq_dec x 0) as [-> | Hx0]; destruct (Z.eq_dec y 0) as [-> | Hy0].
  - reflexivity.
  - rewrite Z.add_0_l.
    destruct (dyadic_finite y E Hy0 Hy HE) as (my & -> & _). reflexivity.
  - rewrite Z.add_0_r.
    destruct (dyadic_finite x E Hx0 Hx HE) as (mx & -> & _). reflexivity.
  - destruct (dyadic_finite x E Hx0 Hx HE) as (mx & Ex & Hmx & Hdx).
    destruct (dyadic_finite y E Hy0 Hy HE) as (my & Ey & Hmy & Hdy).
    rewrite Ex, Ey. unfold PyFloat.add, PyFloat.prec, PyFloat.emax, SFadd.
    set (ez := Z.min (Zdigits2 x - 53 + E) (Zdigits2 y - 53 + E)).
    rewrite (aligned_value x E ez mx) by (assumption || lia).
    rewrite (aligned_value y E ez my) by (assumption || lia).
    replace ez with (E - (E - ez)) at 3 by lia.
    apply normalize_exact; try assumption; lia.
Qed.

Lemma sub_exact (x y E : Z) :
  Z.abs x < 2 ^ 53 -> Z.abs y < 2 ^ 53 -> Z.abs (x - y) < 2 ^ 53 ->
  x <> 0 -> -1021 <= E <= 970 ->
  PyFloat.sub (PyFloat.dyadic x E) (PyFloat.dyadic y E)
  = PyFloat.dyadic (x - y) E.
Proof.
  intros Hx Hy Hxy Hx0 HE.
  destruct (dyadic_finite x E Hx0 Hx HE) as (mx & Ex & Hmx & Hdx).
  destruct (Z.eq_dec y 0) as [-> | Hy0].
  - rewrite Z.sub_0_r, Ex. reflexivity.
  - destruct (dyadic_finite y E Hy0 Hy HE) as (my & Ey & Hmy & Hdy).
    rewrite Ex, Ey. unfold PyFloat.sub, PyFloat.prec, PyFloat.emax, SFsub.
    set (ez := Z.min (Zdigits2 x - 53 + E) (Zdigits2 y - 53 + E)).
    rewrite (aligned_value x E ez mx) by (assumption || lia).
    rewrite (aligned_value y E ez my) by (assumption || lia).
    replace ez with (E - (E - ez)) at 3 by lia.
    apply normalize_exact; try assumption; lia.
Qed.

Lemma neg_exact (x E : Z) :
  x <> 0 -> Z.abs x < 2 ^ 53 -> -1021 <= E <= 970 ->
  PyFloat.neg (PyFloat.dyadic x E) = PyFloat.dyadic (- x) E.
Proof.
  intros Hx0 Hx HE.
  destruct (dyadic_finite x E Hx0 Hx HE) as (mx & -> & Hmx & _).
  destruct (dyadic_finite (- x) E) as (my & -> & Hmy & _); try lia.
  assert (my = mx) as ->.
  { apply Pos2Z.inj. rewrite Hmx, Hmy, Z.abs_opp.
    destruct x; reflexivity. }
  unfold PyFloat.neg, SFopp. destruct x as [| p | p]; [congruence | |];
    reflexivity.
Qed.

(** Doubling a whole amount is exact. *)
Lemma double_exact (x E : Z) :
  Z.abs (2 * x) < 2 ^ 53 -> -1021 <= E <= 969 ->
  PyFloat.mul (PyFloat.dyadic x E) PyFloat.lit_2 = PyFloat.dyadic (2 * x) E.
Proof.
  intros Hx HE.
  destruct (Z.eq_dec x 0) as [-> | Hx0]; [reflexivity |].
  destruct (dyadic_finite x E) as (mx & -> & Hmx & Hdx); try lia.
  destruct (dyadic_finite (2 * x) E) as (my & -> & Hmy & Hdy); try lia.
  assert (Hdig : Zdigits2 (2 * x) = Zdigits2 x + 1)
    by (destruct x; [congruence | |];
        cbn [Z.mul Pos.mul Zdigits2 digits2_pos];
        rewrite Pos2Z.inj_succ; lia).
  assert (my = mx) as ->.
  { apply Pos2Z.inj. rewrite Hmx, Hmy, Hdig, Z.abs_mul.
    replace (53 - Zdigits2 x) with (1 + (53 - (Zdigits2 x + 1))) by lia.
    rewrite Z.pow_add_r by lia. simpl (Z.abs 2). simpl (2 ^ 1). lia. }
  assert (Hdm : Zpos (digits2_pos mx) = 53).
  { destruct x as [| p | p]; [congruence | |];
      cbn [Z.abs Zdigits2] in Hmx, Hdx;
      rewrite (digits_scaled p mx (53 - Zpos (digits2_pos p))) by (lia || exact Hmx);
      lia. }
  unfold PyFloat.mul, PyFloat.lit_2, PyFloat.prec, PyFloat.emax, SFmul.
  rewrite (binary_round_aux_scaled _ mx _ _ 52); try assumption; try lia.
  f_equal; [| lia].
  destruct x as [| p | p]; [congruence | |]; reflexivity.
Qed.

(** Whole amounts compare as floats the way they compare as numbers. *)
Lemma gtb_exact (x y E : Z) :
  0 < x < 2 ^ 53 -> 0 < y < 2 ^ 53 -> -1021 <= E <= 970 ->
  PyFloat.gtb (PyFloat.dyadic x E) (PyFloat.dyadic y E) = (x >? y).
Proof.
  intros Hx Hy HE.
  destruct (dyadic_finite x E) as (mx & -> & Hmx & Hdx); try lia.
  destruct (dyadic_finite y E) as (my & -> & Hmy & Hdy); try lia.
  destruct x as [| p | p]; try lia. destruct y as [| q | q]; try lia.
  cbn [Z.ltb Z.compare Z.abs Zdigits2] in *.
  pose proof (digits_bounds p) as [Plo Phi].
  pose proof (digits_bounds q) as [Qlo Qhi].
  set (dp := Zpos (digits2_pos p)) in *. set (dq := Zpos (digits2_pos q)) in *.
  unfold PyFloat.gtb, SFcompare.
  destruct (Z.compare_spec (dp - 53 + E) (dq - 53 + E)) as [Heq | Hlt | Hgt].
  - assert (dp = dq) as Hd by lia. rewrite Hd in *.
    rewrite Pos.compare_cont_spec. cbn [Pos.switch_Eq].
    change (Pos.compare mx my) with (Z.compare (Zpos mx) (Zpos my)).
    rewrite Hmx, Hmy.
    assert (HP : 0 < 2 ^ (53 - dq)) by (apply Z.pow_pos_nonneg; lia).
    rewrite <- (Zmult_compare_compat_r (Zpos p) (Zpos q) _ ) by lia.
    unfold Z.gtb. destruct (Zpos p ?= Zpos q); reflexivity.
  - assert (2 ^ dp <= 2 ^ (dq - 1)) by (apply Z.pow_le_mono_r; lia).
    destruct (Z.gtb_spec (Zpos p) (Zpos q)); [lia | reflexivity].
  - assert (2 ^ dq <= 2 ^ (dp - 1)) by (apply Z.pow_le_mono_r; lia).
    destruct (Z.gtb_spec (Zpos p) (Zpos q)); [reflexivity | lia].
Qed.

Lemma Zdigits2_mono (x y : Z) :
  x <> 0 -> Z.abs x <= Z.abs y -> Zdigits2 x <= Zdigits2 y.
Proof.
  intros Hx Hle.
  assert (Hpos : forall p q : positive,
             Zpos p <= Zpos q -> Zpos (digits2_pos p) <= Zpos (digits2_pos q)).
  { intros p q Hpq. pose proof (digits_bounds p) as [Plo _].
    pose proof (digits_bounds q) as [_ Qhi].
    assert (Zpos (digits2_pos p) - 1 < Zpos (digits2_pos q))
      by (apply (Z.pow_lt_mono_r_iff 2); lia).
    lia. }
  destruct x as [| p | p]; [congruence | |];
    destruct y as [| q | q]; cbn [Z.abs Zdigits2] in *; try lia;
    now apply Hpos.
Qed.

Lemma full_mantissa (n : Z) (mz : positive) :
  n <> 0 -> Z.abs n < 2 ^ 53 ->
  Zpos mz = Z.abs n * 2 ^ (53 - Zdigits2 n) ->
  Zpos (digits2_pos mz) = 53.
Proof.
  intros Hn Hlt Hmz.
  destruct n as [| p | p]; [congruence | |]; cbn [Z.abs Zdigits2] in *;
    pose proof (digits_small p Hlt);
    rewrite (digits_scaled p mz (53 - Zpos (digits2_pos p)))
      by (lia || exact Hmz); lia.
Qed.

(** One and a half times a whole amount is exact, in half units. *)
Lemma three_halves_exact (x E : Z) :
  Z.abs (3 * x) < 2 ^ 53 -> -1020 <= E <= 969 ->
  PyFloat.mul (PyFloat.dyadic x E) PyFloat.lit_1_5
  = PyFloat.dyadic (3 * x) (E - 1).
Proof.
  intros Hx HE.
  destruct (Z.eq_dec x 0) as [-> | Hx0]; [reflexivity |].
  destruct (dyadic_finite x E) as (mx & -> & Hmx & Hdx); try lia.
  destruct (dyadic_finite (3 * x) (E - 1)) as (my & -> & Hmy & Hdy); try lia.
  pose proof (full_mantissa (3 * x) my ltac:(lia) Hx Hmy) as Hfull.
  pose proof (Zdigits2_mono x (3 * x) Hx0 ltac:(lia)) as Hmono.
  unfold PyFloat.mul, PyFloat.lit_1_5, PyFloat.prec, PyFloat.emax, SFmul.
  rewrite (binary_round_aux_scaled _ my _ _ (51 + Zdigits2 (3 * x) - Zdigits2 x));
    try assumption; try lia.
  - f_equal; [| lia].
    destruct x as [| p | p]; [congruence | |]; reflexivity.
  - rewrite Pos2Z.inj_mul, Hmx, Hmy, Z.abs_mul.
    change (Z.abs 3) with 3. change (Zpos 6755399441055744) with (3 * 2 ^ 51).
    replace (51 + Zdigits2 (3 * x) - Zdigits2 x)
      with ((53 - Zdigits2 x) + 51 - (53 - Zdigits2 (3 * x))) by lia.
    set (u := 53 - Zdigits2 x). set (v := 53 - Zdigits2 (3 * x)).
    assert (Hv : 0 <= v <= u) by (unfold u, v; lia).
    replace (u + 51 - v) with (51 + (u - v)) by lia.
    replace u with (v + (u - v)) at 1 by lia.
    rewrite !Z.pow_add_r by lia. ring.
Qed.

(** A whole amount in half units. *)
Lemma half_units (n E : Z) :
  Z.abs n < 2 ^ 53 -> -1021 <= E <= 970 ->
  PyFloat.dyadic (2 * n) (E - 1) = PyFloat.dyadic n E.
Proof.
  intros Hn HE. unfold PyFloat.dyadic at 1.
  apply normalize_exact; try assumption; lia.
Qed.

End ExactAmounts.

Section WholeAmounts.

Import Blackjack.

(** The bet and the balance a double goes on with, in whole amounts. *)
Lemma doubled_amounts (b B : Z) :
  0 < b < 2 ^ 51 -> 0 < B < 2 ^ 52 ->
  let bet := PyFloat.dyadic b 0 in
  let balance := PyFloat.dyadic B 0 in
  let affordable := negb (PyFloat.gtb (PyFloat.mul bet PyFloat.lit_2) balance) in
  (if affordable then PyFloat.mul bet PyFloat.lit_2 else bet)
  = PyFloat.dyadic (if 2 * b <=? B then 2 * b else b) 0 /\
  (if affordable then PyFloat.sub balance bet else balance)
  = PyFloat.dyadic (if 2 * b <=? B then B - b else B) 0.
Proof.
  intros Hb HB. cbv zeta.
  assert (H51 : 2 ^ 51 * 2 = 2 ^ 52) by reflexivity.
  assert (H52 : 2 ^ 52 * 2 = 2 ^ 53) by reflexivity.
  rewrite double_exact by lia.
  rewrite gtb_exact by lia.
  rewrite Z.gtb_ltb, <- Z.leb_antisym.
  destruct (Z.leb_spec (2 * b) B); [| split; reflexivity].
  split; [reflexivity |]. apply sub_exact; lia.
Qed.

Lemma add_net_whole (x y : Z) :
  Z.abs x < 2 ^ 52 -> Z.abs y < 2 ^ 52 ->
  add_net (PyFloat.dyadic x 0) (PyFloat (PyFloat.dyadic y 0))
  = Ok (PyFloat.dyadic (x + y) 0) /\
  add_net (PyFloat.dyadic x 0) (PyInt 0) = Ok (PyFloat.dyadic x 0).
Proof.
  intros Hx Hy. assert (H52 : 2 ^ 52 * 2 = 2 ^ 53) by reflexivity.
  split.
  - cbn [add_net]. rewrite add_exact by lia. reflexivity.
  - cbn [add_net]. change (PyFloat.of_int 0) with (Ok (PyFloat.dyadic 0 0)).
    cbn [bind]. rewrite add_exact by lia. now rewrite Z.add_0_r.
Qed.

(** X22. A double in whole amounts. With a bet of [b] on a balance of
    [B], both whole, the round of a player who doubles is played for
    [2 b] off a balance of [B - b] when [2 b <= B], and for [b] off [B]
    otherwise; the balance returned is exactly that balance plus the
    stake, less the stake, or unchanged. With [2 b <= B] a doubled loss
    so leaves [B - 3 b] (below zero when [B < 3 b]), a doubled win
    [B + b] and a doubled push [B - b]; a bust on the card of the double
    is such a loss. *)
Theorem X22_double_down_whole_amounts (fresh rest : list card)
    (c d2 d1 p2 p1 : card) (b B : Z) (inputs inputs' : list string)
    (hand deck' : list card) (out : played) :
  let deck := (rest ++ [c]) ++ [d2; d1; p2; p1] in
  let stake := if 2 * b <=? B then 2 * b else b in
  let paid := if 2 * b <=? B then B - b else B in
  0 < b < 2 ^ 51 -> 0 < B < 2 ^ 52 ->
  (15 <= List.length deck)%nat ->
  ~ natural [p1; p2] -> ~ natural [d1; d2] ->
  player_turn inputs (rest ++ [c]) [p1; p2] true
    = Ok ("double", hand, deck', inputs') ->
  play_round fresh (Some (PyFloat.dyadic b 0)) inputs deck (PyFloat.dyadic B 0)
    = Some (Ok out) ->
  exists dealer net,
    result_shown out
      = Some (mkShown [p1; p2; c] dealer (PyFloat.dyadic stake 0) net) /\
    ((net = PyFloat (PyFloat.dyadic stake 0) /\
      ret_balance out = PyFloat.dyadic (paid + stake) 0) \/
     (net = PyFloat (PyFloat.dyadic (- stake) 0) /\
      ret_balance out = PyFloat.dyadic (paid - stake) 0) \/
     (net = PyInt 0 /\ ret_balance out = PyFloat.dyadic paid 0)) /\
    (21 < score [p1; p2; c] ->
     ret_balance out = PyFloat.dyadic (paid - stake) 0).
Proof.
  intros deck stake paid Hb HB Hlen Hnp Hnd Hturn Hrun.
  unfold deck in Hrun.
  rewrite (play_round_doubled fresh rest c d2 d1 p2 p1 _ _ inputs
             inputs' hand deck' Hlen Hnp Hnd Hturn) in Hrun.
  destruct (doubled_amounts b B Hb HB) as [Hstake Hpaid].
  cbv zeta in Hstake, Hpaid. rewrite Hstake, Hpaid in Hrun.
  fold stake in Hrun. fold paid in Hrun.
  assert (H51 : 2 ^ 51 * 2 = 2 ^ 52) by reflexivity.
  assert (Hs : 0 < stake < 2 ^ 52)
    by (unfold stake; destruct (2 * b <=? B); lia).
  assert (Hp : Z.abs paid < 2 ^ 52)
    by (unfold paid; destruct (Z.leb_spec (2 * b) B); lia).
  assert (Hneg : PyFloat.neg (PyFloat.dyadic stake 0) = PyFloat.dyadic (- stake) 0)
    by (apply neg_exact; simpl (2 ^ 53); lia).
  destruct (add_net_whole paid stake) as [Hwin Hpush]; try lia.
  destruct (add_net_whole paid (- stake)) as [Hloss _]; try lia.
  replace (paid + - stake) with (paid - stake) in Hloss by lia.
  rewrite Hneg in Hrun.
  destruct (Z.gtb_spec (score [p1; p2; c]) 21) as [Hbust | Hfit].
  - apply finish_result in Hrun. destruct Hrun as (Hshown & _ & _ & Hbal).
    rewrite Hloss in Hbal. injection Hbal as Hbal.
    exists [d1; d2], (PyFloat (PyFloat.dyadic (- stake) 0)).
    split; [exact Hshown |]. split; [right; left; split; congruence |].
    intros _. congruence.
  - apply showdown_result in Hrun.
    destruct Hrun as (dd & Hshown & _ & _ & _ & Hbal).
    exists ([d1; d2] ++ dd), (settle_bet [p1; p2; c] ([d1; d2] ++ dd)
                                (PyFloat.dyadic stake 0)).
    split; [exact Hshown |]. split; [| lia].
    destruct (settle_bet_three p1 p2 c ([d1; d2] ++ dd) (PyFloat.dyadic stake 0))
      as [E | [E | E]]; rewrite E in Hbal |- *.
    + left. rewrite Hwin in Hbal. split; congruence.
    + right. left. rewrite Hneg. rewrite Hneg, Hloss in Hbal. split; congruence.
    + right. right. rewrite Hpush in Hbal. split; congruence.
Qed.

(** 10+6 doubled on a king with 10 on 100: the 20 are lost and 70 are
    left. *)
Lemma X22_double_down_whole_amounts_witness :
  exists out,
    play_round [] (Some (PyFloat.dyadic 10 0)) ["d"]
      ((filler ++ [(RK, Hearts)])
         ++ [(R7, Spades); (R10, Diamonds); (R6, Hearts); (R10, Hearts)])
      (PyFloat.dyadic 100 0) = Some (Ok out) /\
    ret_balance out = PyFloat.dyadic 70 0.
Proof.
  exists (mkPlayed (Some true) (PyFloat.dyadic 70 0) true
            (Some (mkShown [(R10, Hearts); (R6, Hearts); (RK, Hearts)]
                     [(R10, Diamonds); (R7, Spades)]
                     (PyFloat.dyadic 20 0)
                     (PyFloat (PyFloat.neg (PyFloat.dyadic 20 0)))))
            filler []).
  destruct (X22_double_down_whole_amounts [] filler (RK, Hearts) (R7, Spades)
              (R10, Diamonds) (R6, Hearts) (R10, Hearts) 10 100 ["d"] []
              [(R10, Hearts); (R6, Hearts)] (filler ++ [(RK, Hearts)])
              (mkPlayed (Some true) (PyFloat.dyadic 70 0) true
                 (Some (mkShown [(R10, Hearts); (R6, Hearts); (RK, Hearts)]
                          [(R10, Diamonds); (R7, Spades)]
                          (PyFloat.dyadic 20 0)
                          (PyFloat (PyFloat.neg (PyFloat.dyadic 20 0)))))
                 filler []))
    as (dealer & net & _ & _ & Hbust).
  - split; [lia | reflexivity].
  - split; [lia | reflexivity].
  - simpl. lia.
  - intros [H _]. vm_compute in H. discriminate H.
  - intros [H _]. vm_compute in H. discriminate H.
  - reflexivity.
  - vm_compute. reflexivity.
  - split; [vm_compute; reflexivity |].
    apply Hbust. vm_compute. reflexivity.
Defined.

Lemma settle_bet_values (player dealer : list card) (bet : PyFloat.float) :
  let net := settle_bet player dealer bet in
  net = PyFloat (PyFloat.mul bet PyFloat.lit_1_5) \/ net = PyFloat bet \/
  net = PyInt 0 \/ net = PyFloat (PyFloat.neg bet).
Proof.
  cbv zeta. rewrite settle_bet_unfold.
  repeat match goal with
         | |- context [if ?c then _ else _] => destruct c
         end; auto.
Qed.

(** The balance after a settlement in whole amounts, in half units: the
    amount paid so far is [P], the stake [s], the gain [g] half units. *)
Lemma add_net_gain (P s : Z) (net : pynum) (r : PyFloat.float) :
  Z.abs P < 2 ^ 50 -> 0 < s < 2 ^ 51 ->
  add_net (PyFloat.dyadic P 0) net = Ok r ->
  (net = PyFloat (PyFloat.mul (PyFloat.dyadic s 0) PyFloat.lit_1_5) ->
   r = PyFloat.dyadic (2 * P + 3 * s) (-1)) /\
  (net = PyFloat (PyFloat.dyadic s 0) ->
   r = PyFloat.dyadic (2 * P + 2 * s) (-1)) /\
  (net = PyInt 0 -> r = PyFloat.dyadic (2 * P) (-1)) /\
  (net = PyFloat (PyFloat.neg (PyFloat.dyadic s 0)) ->
   r = PyFloat.dyadic (2 * P - 2 * s) (-1)).
Proof.
  intros HP Hs Hadd.
  assert (H50 : 2 ^ 50 * 8 = 2 ^ 53) by reflexivity.
  assert (H51 : 2 ^ 51 * 4 = 2 ^ 53) by reflexivity.
  assert (HPh : PyFloat.dyadic P 0 = PyFloat.dyadic (2 * P) (-1))
    by (symmetry; apply (half_units P 0); lia).
  assert (Hsh : PyFloat.dyadic s 0 = PyFloat.dyadic (2 * s) (-1))
    by (symmetry; apply (half_units s 0); lia).
  rewrite HPh in Hadd.
  repeat split; intros ->; cbn [add_net bind] in Hadd.
  - rewrite (three_halves_exact s 0) in Hadd by lia.
    change (0 - 1) with (-1) in Hadd.
    rewrite add_exact in Hadd by lia. congruence.
  - rewrite Hsh, add_exact in Hadd by lia. congruence.
  - change (PyFloat.of_int 0) with (Ok (PyFloat.dyadic 0 (-1))) in Hadd.
    cbn [bind] in Hadd. rewrite add_exact in Hadd by lia.
    rewrite Z.add_0_r in Hadd. congruence.
  - rewrite Hsh, neg_exact, add_exact in Hadd by lia.
    replace (2 * P + - (2 * s)) with (2 * P - 2 * s) in Hadd by lia.
    congruence.
Qed.

Lemma double_down_result (deck hand : list card) (bet balance : PyFloat.float)
    (hand' : list card) (bet' paid : PyFloat.float) (deck' : list card) :
  double_down deck hand bet balance = Ok (hand', bet', paid, deck') ->
  let affordable := negb (PyFloat.gtb (PyFloat.mul bet PyFloat.lit_2) balance) in
  exists c,
    deck = deck' ++ [c] /\ hand' = hand ++ [c] /\
    bet' = (if affordable then PyFloat.mul bet PyFloat.lit_2 else bet) /\
    paid = (if affordable then PyFloat.sub balance bet else balance).
Proof.
  unfold double_down. intros H. cbv zeta.
  destruct (pop deck) as [[c k] | e] eqn:Hp.
  - apply pop_inv in Hp. exists c.
    destruct (PyFloat.gtb (PyFloat.mul bet PyFloat.lit_2) balance);
      cbn [bind negb] in H |- *; injection H as <- <- <- <-; auto.
  - destruct (PyFloat.gtb (PyFloat.mul bet PyFloat.lit_2) balance);
      discriminate H.
Qed.

(** X23. What a round can do to a whole balance. With a bet of [b] on
    a balance of [B], both whole and below [2^50], every round that
    returns leaves exactly [B + g/2] for a [g] among [3 b], [2 b], [0],
    [- 2 b] and [- 6 b]: the balance moves by one and a half bets, one
    bet, nothing, minus one bet or minus three bets, and by nothing
    else. No round gains two bets, doubled or not. *)
Theorem X23_round_balance_whole_amounts (fresh : list card) (b B : Z)
    (inputs : list string) (deck : list card) (out : played) :
  0 < b < 2 ^ 50 -> 0 < B < 2 ^ 50 ->
  play_round fresh (Some (PyFloat.dyadic b 0)) inputs deck (PyFloat.dyadic B 0)
    = Some (Ok out) ->
  exists g,
    ret_balance out = PyFloat.dyadic (2 * B + g) (-1) /\
    (g = 3 * b \/ g = 2 * b \/ g = 0 \/ g = - 2 * b \/ g = - 6 * b).
Proof.
  intros Hb HB. unfold play_round.
  assert (H50 : 2 ^ 50 * 2 = 2 ^ 51) by reflexivity.
  assert (H51 : 2 ^ 51 * 2 = 2 ^ 52) by reflexivity.
  set (deck0 := if (List.length deck <? 15)%nat then fresh else deck).
  destruct ('(p1, deck) <- pop deck0 ;; '(p2, deck) <- pop deck ;;
            '(d1, deck) <- pop deck ;; '(d2, deck) <- pop deck ;;
            Ok ([p1; p2], [d1; d2], deck))
    as [[[ph dh] rest] | e] eqn:Hdeal; [| discriminate].
  apply pop_four_inv in Hdeal.
  destruct Hdeal as (p1 & p2 & d1 & d2 & -> & -> & _).
  assert (Hsettled :
    forall P s player dealer deck1 inputs1 ph1 dh1,
      Z.abs P < 2 ^ 50 -> 0 < s < 2 ^ 51 ->
      Some (finish ph1 dh1 (PyFloat.dyadic s 0) (PyFloat.dyadic P 0)
              (settle_bet player dealer (PyFloat.dyadic s 0)) deck1 inputs1)
        = Some (Ok out) ->
      exists g, ret_balance out = PyFloat.dyadic (2 * P + g) (-1) /\
                (g = 3 * s \/ g = 2 * s \/ g = 0 \/ g = - 2 * s) /\
                (List.length player = 3%nat -> g <> 3 * s)).
  { intros P s player dealer deck1 inputs1 ph1 dh1 HP Hs H.
    apply finish_result in H. destruct H as (_ & _ & _ & Hbal).
    destruct (add_net_gain P s _ _ HP Hs Hbal) as (G1 & G2 & G3 & G4).
    assert (Hthree :
      List.length player = 3%nat ->
      exists g, ret_balance out = PyFloat.dyadic (2 * P + g) (-1) /\
                (g = 3 * s \/ g = 2 * s \/ g = 0 \/ g = - 2 * s) /\
                (List.length player = 3%nat -> g <> 3 * s)).
    { intros Hlen. destruct player as [| c1 [| c2 [| c3 [| c4 l]]]];
        try discriminate Hlen.
      destruct (settle_bet_three c1 c2 c3 dealer (PyFloat.dyadic s 0))
        as [E | [E | E]].
      - exists (2 * s). split; [now apply G2 |]. split; [auto | lia].
      - exists (- 2 * s). split; [| split; [auto | lia]].
        replace (2 * P + - 2 * s) with (2 * P - 2 * s) by lia. now apply G4.
      - exists 0. rewrite Z.add_0_r. split; [now apply G3 |].
        split; [auto | lia]. }
    destruct (Nat.eq_dec (List.length player) 3) as [Hlen | Hlen];
      [now apply Hthree |].
    destruct (settle_bet_values player dealer (PyFloat.dyadic s 0))
      as [E | [E | [E | E]]].
    - exists (3 * s). split; [now apply G1 |]. split; [auto | contradiction].
    - exists (2 * s). split; [now apply G2 |]. split; [auto | lia].
    - exists 0. rewrite Z.add_0_r. split; [now apply G3 |].
      split; [auto | lia].
    - exists (- 2 * s). split; [| split; [auto | lia]].
      replace (2 * P + - 2 * s) with (2 * P - 2 * s) by lia. now apply G4. }
  assert (Hlost :
    forall P s deck1 inputs1 ph1 dh1,
      Z.abs P < 2 ^ 50 -> 0 < s < 2 ^ 51 ->
      Some (finish ph1 dh1 (PyFloat.dyadic s 0) (PyFloat.dyadic P 0)
              (PyFloat (PyFloat.neg (PyFloat.dyadic s 0))) deck1 inputs1)
        = Some (Ok out) ->
      ret_balance out = PyFloat.dyadic (2 * P + - 2 * s) (-1)).
  { intros P s deck1 inputs1 ph1 dh1 HP Hs H.
    apply finish_result in H. destruct H as (_ & _ & _ & Hbal).
    destruct (add_net_gain P s _ _ HP Hs Hbal) as (_ & _ & _ & G4).
    replace (2 * P + - 2 * s) with (2 * P - 2 * s) by lia. now apply G4. }
  assert (Hshow :
    forall P s player dealer deck1 inputs1,
      Z.abs P < 2 ^ 50 -> 0 < s < 2 ^ 51 ->
      showdown deck1 player dealer (PyFloat.dyadic s 0) (PyFloat.dyadic P 0)
        inputs1 = Some (Ok out) ->
      exists g, ret_balance out = PyFloat.dyadic (2 * P + g) (-1) /\
                (g = 3 * s \/ g = 2 * s \/ g = 0 \/ g = - 2 * s) /\
                (List.length player = 3%nat -> g <> 3 * s)).
  { intros P s player dealer deck1 inputs1 HP Hs H. unfold showdown in H.
    destruct (dealer_turn deck1 dealer) as [[[dh dk] | e] |];
      try discriminate H.
    eapply Hsettled; eassumption. }
  destruct (is_blackjack [p1; p2] || is_blackjack [d1; d2]).
  { intros H. destruct (Hsettled B b _ _ _ _ _ _ ltac:(lia) ltac:(lia) H)
      as (g & Hg & Hcases & _).
    exists g. split; [exact Hg | tauto]. }
  destruct (player_turn inputs rest [p1; p2] true)
    as [[[[action ph] dk] inputs1] | e] eqn:Hturn; [| discriminate].
  destruct (action ==? "bust").
  { intros H. exists (- 2 * b). split; [| auto].
    apply (Hlost B b _ _ _ _ ltac:(lia) ltac:(lia) H). }
  destruct (String.eqb_spec action "double") as [-> | _].
  - destruct (player_turn_inv _ _ _ _ _ _ _ _ Hturn) as (_ & _ & Hdbl & _).
    destruct (Hdbl eq_refl) as (_ & Hlen2 & _).
    destruct (double_down dk ph (PyFloat.dyadic b 0) (PyFloat.dyadic B 0))
      as [[[[ph2 bet2] bal2] dk2] | e] eqn:Hdd; [| discriminate].
    apply double_down_result in Hdd. cbv zeta in Hdd.
    destruct Hdd as (c & _ & -> & -> & ->).
    destruct (doubled_amounts b B ltac:(lia) ltac:(lia)) as [Hstake Hpaid].
    cbv zeta in Hstake, Hpaid. rewrite Hstake, Hpaid.
    assert (Hlen3 : List.length (ph ++ [c]) = 3%nat)
      by (rewrite length_app, Hlen2; reflexivity).
    destruct (Z.leb_spec (2 * b) B) as [Hcan | Hcannot].
    + destruct (fst (hand_value (ph ++ [c])) >? 21).
      * intros H. exists (- 6 * b). split; [| auto 6].
        rewrite (Hlost (B - b) (2 * b) _ _ _ _ ltac:(lia) ltac:(lia) H).
        f_equal. lia.
      * intros H.
        destruct (Hshow (B - b) (2 * b) _ _ _ _ ltac:(lia) ltac:(lia) H)
          as (g & Hg & Hcases & Hno).
        specialize (Hno Hlen3).
        exists (g - 2 * b). split; [rewrite Hg; f_equal; lia | lia].
    + destruct (fst (hand_value (ph ++ [c])) >? 21).
      * intros H. exists (- 2 * b). split; [| auto].
        apply (Hlost B b _ _ _ _ ltac:(lia) ltac:(lia) H).
      * intros H.
        destruct (Hshow B b _ _ _ _ ltac:(lia) ltac:(lia) H)
          as (g & Hg & Hcases & _).
        exists g. split; [exact Hg | tauto].
  - intros H.
    destruct (Hshow B b _ _ _ _ ltac:(lia) ltac:(lia) H)
      as (g & Hg & Hcases & _).
    exists g. split; [exact Hg | tauto].
Qed.

(** A natural on a bet of 10: 100 becomes 115, thirty half units up. *)
Lemma X23_round_balance_whole_amounts_witness :
  exists out g,
    play_round [] (Some (PyFloat.dyadic 10 0)) []
      ((filler ++ [(R4, Hearts)])
         ++ [(R7, Spades); (RK, Diamonds); (RA, Hearts); (R10, Hearts)])
      (PyFloat.dyadic 100 0) = Some (Ok out) /\
    ret_balance out = PyFloat.dyadic (2 * 100 + g) (-1) /\
    ret_balance out = PyFloat.dyadic 115 0.
Proof.
  assert (Hrun : exists out,
    play_round [] (Some (PyFloat.dyadic 10 0)) []
      ((filler ++ [(R4, Hearts)])
         ++ [(R7, Spades); (RK, Diamonds); (RA, Hearts); (R10, Hearts)])
      (PyFloat.dyadic 100 0) = Some (Ok out) /\
    ret_balance out = PyFloat.dyadic 115 0)
    by (vm_compute; eexists; split; reflexivity).
  destruct Hrun as (out & Hrun & Hbal).
  destruct (X23_round_balance_whole_amounts [] 10 100 []
              ((filler ++ [(R4, Hearts)])
                 ++ [(R7, Spades); (RK, Diamonds); (RA, Hearts); (R10, Hearts)])
              out) as (g & Hg & _).
  - split; [lia | reflexivity].
  - split; [lia | reflexivity].
  - exact Hrun.
  - exists out, g. split; [exact Hrun |]. split; [exact Hg | exact Hbal].
Defined.

End WholeAmounts.
